(** * church-admin-api: a shallow embedding of the request handlers

    The Express handlers of the repository are embedded as pure functions
    over an explicit database state.  Tables are lists of rows (a row is a
    record holding the columns the handlers read or write), a handler takes
    the store and the request and returns the new store together with what
    it did with the response: a JSON reply, or an error handed to [next].
    The first half of the file holds the embedding, file by file; the second
    half states and proves the properties. *)

From Stdlib Require Import String Ascii List ZArith Bool Lia Arith.
From Stdlib Require Import DecimalString Permutation Floats Uint63.
Import ListNotations.

Open Scope Z_scope.
Open Scope string_scope.

Set Implicit Arguments.

(* ===================================================================== *)
(** * JavaScript values used by the handlers *)
(* ===================================================================== *)

Module Js.

(** [!s] on a string: only the empty string is falsy. *)
Definition truthy (s : string) : bool := negb (s =? "").

(** [!v] on an optional string ([undefined] or a string). *)
Definition truthyOpt (v : option string) : bool :=
  match v with
  | None => false
  | Some s => truthy s
  end.

(** [!n] on a number: zero is falsy. *)
Definition truthyNum (n : Z) : bool := negb (n =? 0)%Z.

(** [a === b] on two optional strings (undefined or null against a string
    is false, undefined against undefined is true). *)
Definition optEq (a b : option string) : bool :=
  match a, b with
  | None, None => true
  | Some x, Some y => x =? y
  | _, _ => false
  end.

(** [Array.prototype.includes] on an array of strings. *)
Fixpoint includes (l : list string) (x : string) : bool :=
  match l with
  | [] => false
  | y :: l' => (y =? x) || includes l' x
  end.

(** [String(n)] for an integer. *)
Definition String_ (n : Z) : string := NilZero.string_of_int (Z.to_int n).

(** [s.padStart(2, '0')]. *)
Definition padStart2 (s : string) : string :=
  match String.length s with
  | O => "00"
  | S O => "0" ++ s
  | _ => s
  end.

Definition lowerAscii (c : ascii) : ascii :=
  let n := nat_of_ascii c in
  if (Nat.leb 65 n && Nat.leb n 90)%bool then ascii_of_nat (n + 32) else c.

(** ASCII case folding: the letters A to Z are lowered and every other
    character is kept.  It is the folding under which a case-insensitive
    regular expression compares a text with an ASCII literal (no other
    character is equated with an ASCII letter). *)
Fixpoint foldAscii (s : string) : string :=
  match s with
  | EmptyString => EmptyString
  | String c s' => String (lowerAscii c) (foldAscii s')
  end.

(** Equality of two strings up to the case of the letters A to Z. *)
Definition eqIgnoreCase (a b : string) : bool := foldAscii a =? foldAscii b.

(** [s.startsWith(p)]. *)
Definition startsWith (p s : string) : bool := String.prefix p s.

(** [hay] contains [needle] as a substring. *)
Fixpoint contains (needle hay : string) : bool :=
  String.prefix needle hay ||
  match hay with
  | EmptyString => false
  | String _ hay' => contains needle hay'
  end.

(** Prisma's [{ contains: s, mode: 'insensitive' }] on an optional column:
    the letters A to Z are compared without regard to their case. *)
Definition containsInsensitive (needle : string) (col : option string) : bool :=
  match col with
  | None => false
  | Some v => contains (foldAscii needle) (foldAscii v)
  end.

(** A value read from [req.query] after a destructuring default: still
    undefined, the boolean of the default, or the string of the query. *)
Inductive QueryVal :=
| QUndefined
| QBool (b : bool)
| QStr (s : string).

(** [req.query.x]: a string when the parameter is present. *)
Definition queryVal (v : option string) : QueryVal :=
  match v with
  | None => QUndefined
  | Some s => QStr s
  end.

(** [const { x = d } = req.query]: the default replaces [undefined] only. *)
Definition withDefault (d : QueryVal) (v : QueryVal) : QueryVal :=
  match v with
  | QUndefined => d
  | _ => v
  end.

(** [v === 'lit']: strict equality with a string literal. *)
Definition strictEqStr (v : QueryVal) (lit : string) : bool :=
  match v with
  | QStr s => s =? lit
  | _ => false
  end.

(** [v !== undefined]. *)
Definition isDefined (v : QueryVal) : bool :=
  match v with
  | QUndefined => false
  | _ => true
  end.

(** A member of a request body or of a [Partial<T>]: absent, [null], or
    a value. *)
Inductive Field (A : Type) :=
| Undefined
| Null
| Value (a : A).
Arguments Undefined {A}.
Arguments Null {A}.
Arguments Value {A} a.

(** The column value a field writes: [null] and [undefined] store NULL. *)
Definition toColumn (A : Type) (f : Field A) : option A :=
  match f with
  | Value a => Some a
  | _ => None
  end.

(** [!!f] for a string field. *)
Definition truthyField (f : Field string) : bool :=
  match f with
  | Value s => truthy s
  | _ => false
  end.

(** A member of a JSON body that reaches a handler unchecked, where the
    handler expects a string: absent, [null] or a string, or a value of
    another type (a number, a boolean, an array, an object), of which the
    handler sees the truthiness only. *)
Inductive Raw :=
| Str (f : Field string)
| NotStr (isTruthy : bool).

(** [!!v] for such a member. *)
Definition truthyRaw (v : Raw) : bool :=
  match v with
  | Str f => truthyField f
  | NotStr isTruthy => isTruthy
  end.

(** ** Plain objects used as string-keyed maps

    An object literal is kept as the list of its entries in insertion
    order; writing to an existing key keeps the key's position. *)
Section Obj.
Variable V : Type.

Definition Obj := list (string * V).

Fixpoint get (o : Obj) (k : string) : option V :=
  match o with
  | [] => None
  | (k', v) :: o' => if k' =? k then Some v else get o' k
  end.

Fixpoint set (o : Obj) (k : string) (v : V) : Obj :=
  match o with
  | [] => [(k, v)]
  | (k', v') :: o' =>
      if k' =? k then (k', v) :: o' else (k', v') :: set o' k v
  end.

Definition isDigit (c : ascii) : bool :=
  let n := nat_of_ascii c in (Nat.leb 48 n && Nat.leb n 57)%bool.

Fixpoint allDigits (s : string) : bool :=
  match s with
  | EmptyString => true
  | String c s' => isDigit c && allDigits s'
  end.

Fixpoint digitsValue (acc : N) (s : string) : N :=
  match s with
  | EmptyString => acc
  | String c s' => digitsValue (acc * 10 + (N_of_ascii c - 48))%N s'
  end.

(** A key is an array index when it is the canonical decimal form of an
    integer below 2^32 - 1; such keys are enumerated first, ascending. *)
Definition arrayIndex (k : string) : option N :=
  match k with
  | EmptyString => None
  | String c rest =>
      if (allDigits k && ((k =? "0") || negb (Ascii.eqb c "0"%char)))%bool
      then let n := digitsValue 0%N k in
           if (n <? 4294967295)%N then Some n else None
      else None
  end.

Fixpoint insertIndexed (e : N * (string * V)) (l : list (N * (string * V)))
  : list (N * (string * V)) :=
  match l with
  | [] => [e]
  | e' :: l' =>
      if (fst e <=? fst e')%N then e :: e' :: l' else e' :: insertIndexed e l'
  end.

Fixpoint splitEntries (o : Obj) : list (N * (string * V)) * Obj :=
  match o with
  | [] => ([], [])
  | (k, v) :: o' =>
      let (ix, named) := splitEntries o' in
      match arrayIndex k with
      | Some n => (insertIndexed (n, (k, v)) ix, named)
      | None => (ix, (k, v) :: named)
      end
  end.

(** [Object.entries(o)]: integer-like keys in ascending order, then the
    other keys in insertion order. *)
Definition entries (o : Obj) : list (string * V) :=
  let (ix, named) := splitEntries o in
  (List.map snd ix ++ named)%list.
End Obj.

End Js.

(* ===================================================================== *)
(** * src/middleware/errorHandler.ts *)
(* ===================================================================== *)

Module ErrorHandler.

(** [err.code]: Mongoose uses the number 11000, Prisma uses strings. *)
Inductive ErrCode :=
| CodeNum (n : Z)
| CodeStr (s : string).

(** What the handler reads of an error object.  [err_name] is the [name]
    seen through the prototype chain ("Error" for the classes of this
    file, which never assign it); [err_errors] holds the messages of the
    values of [err.errors] when that property is present. *)
Record JsError := mkError {
  err_name : string;
  err_message : string;
  err_statusCode : option Z;
  err_code : option ErrCode;
  err_errors : option (list string)
}.

(** [new CustomError(message, statusCode)]. *)
Definition CustomError (message : string) (statusCode : Z) : JsError :=
  {| err_name := "Error"; err_message := message;
     err_statusCode := Some statusCode; err_code := None;
     err_errors := None |}.

(** [new ApiError(statusCode, message, errors?)]. *)
Definition ApiError (statusCode : Z) (message : string)
           (errors : option (list string)) : JsError :=
  {| err_name := "Error"; err_message := message;
     err_statusCode := Some statusCode; err_code := None;
     err_errors := errors |}.

Definition ValidationError (message : string) := CustomError message 400.
Definition UnauthorizedError (message : string) := CustomError message 401.
Definition ForbiddenError (message : string) := CustomError message 403.
Definition NotFoundError (message : string) := CustomError message 404.
Definition ConflictError (message : string) := CustomError message 409.

(** A plain [new Error(message)]: no [statusCode] property. *)
Definition PlainError (message : string) : JsError :=
  {| err_name := "Error"; err_message := message;
     err_statusCode := None; err_code := None; err_errors := None |}.

(** The JSON reply of a handler: the status set on the response and the
    [success] and [message] members of the body; [res_debug] tells whether
    the [stack] and [error] members were added. *)
Record Response := mkResponse {
  res_status : Z;
  res_success : bool;
  res_message : string;
  res_debug : bool
}.

(** The local variable [error]: the handler reads its [statusCode] and
    [message] only. *)
Record ErrView := mkView {
  view_statusCode : option Z;
  view_message : string
}.

(** [{ ...err }] followed by [error.message = err.message]. *)
Definition spread (err : JsError) : ErrView :=
  {| view_statusCode := err_statusCode err; view_message := err_message err |}.

Definition viewOf (e : JsError) : ErrView := spread e.

Definition codeIs11000 (c : option ErrCode) : bool :=
  match c with
  | Some (CodeNum n) => (n =? 11000)%Z
  | _ => false
  end.

Definition codeIsStr (c : option ErrCode) (s : string) : bool :=
  match c with
  | Some (CodeStr s') => s' =? s
  | _ => false
  end.

(** [error.statusCode || 500]. *)
Definition statusOr500 (v : ErrView) : Z :=
  match view_statusCode v with
  | Some n => if Js.truthyNum n then n else 500
  | None => 500
  end.

(** [error.message || 'Internal Server Error']. *)
Definition messageOrDefault (v : ErrView) : string :=
  if Js.truthy (view_message v) then view_message v else "Internal Server Error".

(** [errorHandler(err, req, res, next)].  [development] is
    [process.env.NODE_ENV === 'development'].  The result is [None] when
    the handler itself throws: [Object.values(err.errors)] on an error
    named "ValidationError" that has no [errors] property. *)
Definition errorHandler (development : bool) (err : JsError) : option Response :=
  let error := spread err in
  let error :=
    if err_name err =? "CastError"
    then viewOf (NotFoundError "Resource not found") else error in
  let error :=
    if codeIs11000 (err_code err)
    then viewOf (ConflictError "Duplicate field value entered") else error in
  let error :=
    if err_name err =? "ValidationError"
    then match err_errors err with
         | Some msgs => Some (viewOf (ValidationError (String.concat ", " msgs)))
         | None => None
         end
    else Some error in
  match error with
  | None => None
  | Some error =>
      let error :=
        if err_name err =? "JsonWebTokenError"
        then viewOf (UnauthorizedError "Invalid token") else error in
      let error :=
        if err_name err =? "TokenExpiredError"
        then viewOf (UnauthorizedError "Token expired") else error in
      let error :=
        if err_name err =? "PrismaClientKnownRequestError"
        then if codeIsStr (err_code err) "P2002"
             then viewOf (ConflictError "Duplicate field value entered")
             else if codeIsStr (err_code err) "P2025"
             then viewOf (NotFoundError "Record not found")
             else viewOf (CustomError "Database error" 500)
        else error in
      Some {| res_status := statusOr500 error;
              res_success := false;
              res_message := messageOrDefault error;
              res_debug := development |}
  end.

End ErrorHandler.
Export ErrorHandler.


(* ===================================================================== *)
(** * The database: tables as lists of rows *)
(* ===================================================================== *)

Module Db.

(** A JavaScript [Date] as the handlers observe it: the time value used
    by comparisons and by [orderBy], the local-time year and month, and the
    date part of [toISOString()]. *)
Record Date := mkDate {
  getTime : Z;
  getFullYear : Z;
  getMonth : Z;
  toISODate : string
}.

Record User := mkUser {
  usr_id : string;
  usr_email : string;
  usr_isActive : bool;
  usr_roles : list string;
  usr_lastLogin : option Z;
  usr_passwordResetToken : option string;
  usr_passwordResetExpires : option Z
}.

Record Member := mkMember {
  mem_id : string;
  mem_name : string;
  mem_email : option string;
  mem_phone : option string;
  mem_age : option Z;
  mem_gender : option string;
  mem_address : option string;
  mem_cellId : option string;
  mem_userId : option string;
  mem_isActive : bool;
  mem_birthDate : option string;
  mem_occupation : option string;
  mem_notes : option string
}.

Record Ministry := mkMinistry {
  min_id : string;
  min_name : string;
  min_description : option string;
  min_type : string;
  min_isActive : bool
}.

Record Event := mkEvent {
  ev_id : string;
  ev_title : string;
  ev_isActive : bool;
  ev_maxAttendees : option Z;
  ev_registrationRequired : bool;
  ev_registrationDeadline : option Z;
  ev_ministryId : option string
}.

Record MemberMinistry := mkMemberMinistry {
  mm_id : string;
  mm_memberId : string;
  mm_ministryId : string;
  mm_role : string;
  mm_isActive : bool
}.

(** A row of the [ministryMember] model, the membership table the routed
    handlers [addMember], [removeMember] and [updateMemberRole] work on. *)
Record MinistryMember := mkMinistryMember {
  mmb_id : string;
  mmb_ministryId : string;
  mmb_memberId : string;
  mmb_role : string;
  mmb_joinedAt : Z;
  mmb_isActive : bool
}.

Record EventRegistration := mkEventRegistration {
  reg_id : string;
  reg_eventId : string;
  reg_memberId : string;
  reg_isActive : bool;
  reg_notes : option string
}.

Record EventAttendance := mkEventAttendance {
  att_id : string;
  att_eventId : string;
  att_memberId : string
}.

Record Contribution := mkContribution {
  con_id : string;
  con_memberId : string;
  con_date : Date;
  con_amount : PrimFloat.float
}.

Record Store := mkStore {
  users : list User;
  members : list Member;
  ministries : list Ministry;
  events : list Event;
  memberMinistries : list MemberMinistry;
  ministryMembers : list MinistryMember;
  eventRegistrations : list EventRegistration;
  eventAttendances : list EventAttendance;
  contributions : list Contribution
}.

Section Table.
Variable Row : Type.

(** [update({ where: <unique>, data })]: the one row selected is rewritten
    in place. *)
Fixpoint updateFirst (p : Row -> bool) (f : Row -> Row) (l : list Row) : list Row :=
  match l with
  | [] => []
  | r :: l' => if p r then f r :: l' else r :: updateFirst p f l'
  end.

(** [delete({ where: <unique> })]: the one row selected is removed. *)
Fixpoint deleteFirst (p : Row -> bool) (l : list Row) : list Row :=
  match l with
  | [] => []
  | r :: l' => if p r then l' else r :: deleteFirst p l'
  end.

(** [count({ where })] and the [_count] of a relation. *)
Definition count (p : Row -> bool) (l : list Row) : Z :=
  Z.of_nat (List.length (List.filter p l)).

End Table.

Definition setUsers (st : Store) (l : list User) : Store :=
  mkStore l (members st) (ministries st) (events st)
          (memberMinistries st) (ministryMembers st) (eventRegistrations st)
          (eventAttendances st) (contributions st).

Definition setMembers (st : Store) (l : list Member) : Store :=
  mkStore (users st) l (ministries st) (events st)
          (memberMinistries st) (ministryMembers st) (eventRegistrations st)
          (eventAttendances st) (contributions st).


Definition setEvents (st : Store) (l : list Event) : Store :=
  mkStore (users st) (members st) (ministries st) l
          (memberMinistries st) (ministryMembers st) (eventRegistrations st)
          (eventAttendances st) (contributions st).

Definition setMemberMinistries (st : Store) (l : list MemberMinistry) : Store :=
  mkStore (users st) (members st) (ministries st) (events st)
          l (ministryMembers st) (eventRegistrations st)
          (eventAttendances st) (contributions st).

Definition setMinistryMembers (st : Store) (l : list MinistryMember) : Store :=
  mkStore (users st) (members st) (ministries st) (events st)
          (memberMinistries st) l (eventRegistrations st)
          (eventAttendances st) (contributions st).

Definition setEventRegistrations (st : Store) (l : list EventRegistration) : Store :=
  mkStore (users st) (members st) (ministries st) (events st)
          (memberMinistries st) (ministryMembers st) l
          (eventAttendances st) (contributions st).

(** The primary keys: no two rows of a table share an [id]. *)
Record PrimaryKeys (st : Store) : Prop := mkPrimaryKeys {
  pk_members : NoDup (List.map mem_id (members st));
  pk_ministries : NoDup (List.map min_id (ministries st));
  pk_events : NoDup (List.map ev_id (events st));
  pk_memberMinistries : NoDup (List.map mm_id (memberMinistries st));
  pk_eventRegistrations : NoDup (List.map reg_id (eventRegistrations st))
}.

(** What a handler did with the request: it sent a JSON reply, or it
    passed an error to [next]. *)
Inductive Outcome :=
| Json (r : Response)
| Next (e : JsError).

(** [res.status(status).json({ success: true, message, ... })]. *)
Definition ok (status : Z) (message : string) : Outcome :=
  Json {| res_status := status; res_success := true;
          res_message := message; res_debug := false |}.

(** The reply the client receives: the handler's own, or the one the
    central error handler builds from the forwarded error. *)
Definition reply (development : bool) (o : Outcome) : option Response :=
  match o with
  | Json r => Some r
  | Next e => errorHandler development e
  end.

End Db.
Export Db.

(* ===================================================================== *)
(** * src/middleware/auth.ts *)
(* ===================================================================== *)

Module Auth.

(** [req.user]. *)
Record ReqUser := mkReqUser {
  user_id : string;
  user_email : string;
  user_role : string;
  user_isActive : bool
}.

(** What a middleware passes on: [next()] with the request's user as it
    is then, or [next(err)]. *)
Inductive MwResult :=
| Continue (user : option ReqUser)
| Fail (e : JsError).

(** The result of [jwt.verify]: the decoded [id], or a thrown error with
    the answers of the two [instanceof] tests of the [catch] block. *)
Inductive JwtResult :=
| Decoded (id : string)
| Thrown (isJsonWebTokenError isTokenExpiredError : bool) (e : JsError).

(** The argument of [authorize]: an array of roles or a single role. *)
Inductive AllowedRoles :=
| RolesArray (l : list string)
| RoleString (s : string).

Definition rolesOf (allowedRoles : AllowedRoles) : list string :=
  match allowedRoles with
  | RolesArray l => l
  | RoleString s => [s]
  end.

(** [authorize(allowedRoles)(req, res, next)]. *)
Definition authorize (allowedRoles : AllowedRoles) (user : option ReqUser) : MwResult :=
  match user with
  | None => Fail (UnauthorizedError "Authentication required")
  | Some u =>
      let roles := rolesOf allowedRoles in
      if Js.includes roles (user_role u)
      then Continue user
      else Fail (ForbiddenError "Insufficient permissions")
  end.

Section Authenticate.
(** [jwt.verify(token, secret)] of the jsonwebtoken package. *)
Variable verify : string -> string -> JwtResult.
(** [process.env.JWT_SECRET]. *)
Variable JWT_SECRET : option string.

Definition setLastLogin (now : Z) (u : User) : User :=
  mkUser (usr_id u) (usr_email u) (usr_isActive u) (usr_roles u) (Some now)
         (usr_passwordResetToken u) (usr_passwordResetExpires u).

(** [user.roles[0]?.role.name || 'MEMBER']. *)
Definition primaryRole (u : User) : string :=
  match usr_roles u with
  | r :: _ => if Js.truthy r then r else "MEMBER"
  | [] => "MEMBER"
  end.

(** [authenticate(req, res, next)]; [now] is [new Date()]. *)
Definition authenticate (now : Z) (st : Store) (authorization : option string)
  : Store * MwResult :=
  match authorization with
  | None => (st, Fail (UnauthorizedError "No token provided"))
  | Some authHeader =>
      if negb (Js.truthy authHeader) || negb (Js.startsWith "Bearer " authHeader)
      then (st, Fail (UnauthorizedError "No token provided"))
      else
        let token := String.substring 7 (String.length authHeader - 7) authHeader in
        if negb (Js.truthyOpt JWT_SECRET)
        then (st, Fail (PlainError "JWT_SECRET not configured"))
        else
          match verify token (match JWT_SECRET with Some s => s | None => "" end) with
          | Thrown isJwt isExpired e =>
              if isJwt then (st, Fail (UnauthorizedError "Invalid token"))
              else if isExpired then (st, Fail (UnauthorizedError "Token expired"))
              else (st, Fail e)
          | Decoded id =>
              match List.find (fun u => usr_id u =? id) (users st) with
              | None =>
                  (st, Fail (UnauthorizedError "Invalid token - user not found or inactive"))
              | Some user =>
                  if negb (usr_isActive user)
                  then (st, Fail (UnauthorizedError "Invalid token - user not found or inactive"))
                  else
                    (setUsers st (updateFirst (fun u => usr_id u =? usr_id user)
                                              (setLastLogin now) (users st)),
                     Continue (Some {| user_id := usr_id user;
                                       user_email := usr_email user;
                                       user_role := primaryRole user;
                                       user_isActive := usr_isActive user |}))
              end
          end
  end.

(** [optionalAuth(req, res, next)]: [user] is [req.user] as the
    middleware finds it; every path of the function ends in [next()], the
    [catch] block included. *)
Definition optionalAuth (st : Store) (authorization : option string)
           (user : option ReqUser) : MwResult :=
  match authorization with
  | None => Continue user
  | Some authHeader =>
      if negb (Js.truthy authHeader) || negb (Js.startsWith "Bearer " authHeader)
      then Continue user
      else
        let token := String.substring 7 (String.length authHeader - 7) authHeader in
        if negb (Js.truthyOpt JWT_SECRET)
        then Continue user
        else
          match verify token (match JWT_SECRET with Some s => s | None => "" end) with
          | Thrown _ _ _ => Continue user
          | Decoded id =>
              match List.find (fun u => usr_id u =? id) (users st) with
              | None => Continue user
              | Some found =>
                  if usr_isActive found
                  then Continue (Some {| user_id := usr_id found;
                                         user_email := usr_email found;
                                         user_role := primaryRole found;
                                         user_isActive := usr_isActive found |})
                  else Continue user
              end
          end
  end.

(** ** The router of the event routes (src/unnamed/part_000)

    A router is the list of its layers in registration order.  A layer is
    a middleware mounted with [router.use] (it sees every request) or a
    route for one method and path with its stack of middleware.  The
    express-validator chains only record their findings on the request and
    always call [next()]; a controller method ends the request. *)

Inductive Method := GET | POST | PUT | DELETE.

(** A path segment of a route: a literal or a [:param]. *)
Inductive Seg :=
| Lit (s : string)
| Param (name : string).

Inductive Middleware :=
| MwAuthenticate
| MwAuthorize (roles : AllowedRoles)
| MwValidators
| MwController (name : string).

Inductive Layer :=
| Use (m : Middleware)
| Route (method : Method) (path : list Seg) (stack : list Middleware).

Definition eventRoutes : list Layer :=
  [ Route GET [Lit "stats"] [MwController "getEventStats"];
    Use MwAuthenticate;
    Route GET [] [MwValidators; MwController "getEvents"];
    Route GET [Param "id"] [MwValidators; MwController "getEventById"];
    Use (MwAuthorize (RolesArray ["ADMIN"; "SUPER_ADMIN"; "EVENT_ORGANIZER"; "MINISTRY_LEADER"]));
    Route POST [] [MwValidators; MwController "createEvent"];
    Route PUT [Param "id"] [MwValidators; MwController "updateEvent"];
    Route POST [Param "id"; Lit "register"] [MwValidators; MwController "registerForEvent"];
    Route DELETE [Param "id"; Lit "register"; Param "memberId"]
          [MwValidators; MwController "cancelRegistration"];
    Route POST [Param "id"; Lit "attendance"] [MwValidators; MwController "recordAttendance"];
    Use (MwAuthorize (RolesArray ["SUPER_ADMIN"]));
    Route DELETE [Param "id"] [MwValidators; MwController "deleteEvent"] ].

Definition methodEqb (a b : Method) : bool :=
  match a, b with
  | GET, GET | POST, POST | PUT, PUT | DELETE, DELETE => true
  | _, _ => false
  end.

(** A route path matches the request path segment by segment.  The
    routers are made by [Router()] without options, so a literal is
    compared without regard to the case of its letters; a parameter takes
    any non-empty segment.  The request path is given by its segments as
    they were sent, and is taken to hold no percent-escape (Express
    matches the literals against the path as sent and decodes the
    parameters). *)
Fixpoint matchPath (pat : list Seg) (path : list string) : bool :=
  match pat, path with
  | [], [] => true
  | Lit s :: pat', x :: path' => Js.eqIgnoreCase s x && matchPath pat' path'
  | Param _ :: pat', x :: path' => Js.truthy x && matchPath pat' path'
  | _, _ => false
  end.

(** How a request leaves the router. *)
Inductive Dispatch :=
| Handled (controller : string) (user : option ReqUser)
| Forwarded (e : JsError)
| Unmatched.

Inductive StackResult :=
| StackDone (d : Dispatch)
| StackNext (st : Store) (user : option ReqUser).

Definition runMiddleware (now : Z) (authorization : option string)
           (m : Middleware) (st : Store) (user : option ReqUser)
  : Store * (MwResult + string) :=
  match m with
  | MwAuthenticate =>
      let (st', r) := authenticate now st authorization in (st', inl r)
  | MwAuthorize roles => (st, inl (authorize roles user))
  | MwValidators => (st, inl (Continue user))
  | MwController name => (st, inr name)
  end.

Fixpoint runStack (now : Z) (authorization : option string)
         (stack : list Middleware) (st : Store) (user : option ReqUser)
  : Store * StackResult :=
  match stack with
  | [] => (st, StackNext st user)
  | m :: stack' =>
      match runMiddleware now authorization m st user with
      | (st', inr name) => (st', StackDone (Handled name user))
      | (st', inl (Fail e)) => (st', StackDone (Forwarded e))
      | (st', inl (Continue user')) => runStack now authorization stack' st' user'
      end
  end.

Fixpoint dispatch (now : Z) (authorization : option string)
         (layers : list Layer) (method : Method) (path : list string)
         (st : Store) (user : option ReqUser) : Store * Dispatch :=
  match layers with
  | [] => (st, Unmatched)
  | layer :: layers' =>
      let stack :=
        match layer with
        | Use m => [m]
        | Route meth pat stack =>
            if methodEqb meth method && matchPath pat path then stack else []
        end in
      match runStack now authorization stack st user with
      | (st', StackDone d) => (st', d)
      | (st', StackNext _ user') =>
          dispatch now authorization layers' method path st' user'
      end
  end.

End Authenticate.

End Auth.
Export Auth.

(* ===================================================================== *)
(** * The other routers (src/routes) *)
(* ===================================================================== *)

Module Routes.


(** src/routes/memberRoutes.ts: the router mounts no middleware of
    src/middleware/auth.ts. *)
Definition memberRoutes : list Layer :=
  [ Route GET [Lit "stats"] [MwController "getMemberStats"];
    Route GET [] [MwValidators; MwController "getMembers"];
    Route GET [Param "id"] [MwValidators; MwController "getMemberById"];
    Route POST [] [MwValidators; MwController "createMember"];
    Route PUT [Param "id"] [MwValidators; MwController "updateMember"];
    Route DELETE [Param "id"] [MwValidators; MwController "deleteMember"] ].

(** The contribution router (second part of src/routes/authRoutes.ts). *)
Definition contributionRoutes : list Layer :=
  [ Route GET [Lit "stats"] [MwValidators; MwController "getContributionStats"];
    Use MwAuthenticate;
    Route GET [] [MwValidators; MwController "getContributions"];
    Route GET [Param "id"] [MwValidators; MwController "getContributionById"];
    Route GET [Lit "member"; Param "memberId"]
          [MwValidators; MwController "getMemberContributions"];
    Use (MwAuthorize (RolesArray ["ADMIN"; "SUPER_ADMIN"; "FINANCE"; "TREASURER"]));
    Route POST [] [MwValidators; MwController "createContribution"];
    Route PUT [Param "id"] [MwValidators; MwController "updateContribution"];
    Route GET [Lit "export"] [MwValidators; MwController "exportContributions"];
    Use (MwAuthorize (RolesArray ["SUPER_ADMIN"; "TREASURER"]));
    Route DELETE [Param "id"] [MwValidators; MwController "deleteContribution"] ].

End Routes.
Export Routes.


(* ===================================================================== *)
(** * Prisma queries shared by the list endpoints *)
(* ===================================================================== *)

Module Prisma.

(** The body of a list reply: the page of rows and the [total] of the
    pagination envelope, or the error passed to [next]. *)
Inductive ListOutcome (Row : Type) :=
| ListJson (data : list Row) (page limit total : Z)
| ListNext (e : JsError).
Arguments ListNext {Row} e.

(** A value thrown by a service method, or its return value. *)
Inductive Result (A : Type) :=
| Return (a : A)
| Throw (e : JsError).
Arguments Throw {A} e.

(** The error Prisma raises for a query it refuses to run. *)
Definition PrismaClientValidationError : JsError :=
  {| err_name := "PrismaClientValidationError"; err_message := "Invalid invocation";
     err_statusCode := None; err_code := None; err_errors := None |}.

(** The error Prisma raises when the database rejects a statement. *)
Definition PrismaClientKnownRequestError (code message : string) : JsError :=
  {| err_name := "PrismaClientKnownRequestError"; err_message := message;
     err_statusCode := None; err_code := Some (CodeStr code); err_errors := None |}.

(** The error of a [delete] that a foreign key of the schema rejects. *)
Definition foreignKeyViolation : JsError :=
  PrismaClientKnownRequestError "P2003" "Foreign key constraint failed".

Inductive MemberCol := ColName | ColEmail | ColPhone.

Definition memberCol (c : MemberCol) (m : Member) : option string :=
  match c with
  | ColName => Some (mem_name m)
  | ColEmail => mem_email m
  | ColPhone => mem_phone m
  end.

(** The [where] object of the member queries: each member is absent
    until a handler assigns it. *)
Record MemberWhere := mkMemberWhere {
  w_OR : option (list MemberCol * string);
  w_cellId : option string;
  w_ministrySome : option string;
  w_isActive : option bool
}.

Definition optTest (A : Type) (c : option A) (test : A -> bool) : bool :=
  match c with
  | None => true
  | Some a => test a
  end.

Definition memberMatches (st : Store) (w : MemberWhere) (m : Member) : bool :=
  optTest (w_OR w)
          (fun '(cols, s) => List.existsb (fun c => Js.containsInsensitive s (memberCol c m)) cols)
  && optTest (w_cellId w) (fun c => Js.optEq (mem_cellId m) (Some c))
  && optTest (w_ministrySome w)
             (fun mi => List.existsb
                          (fun mm => (mm_memberId mm =? mem_id m)
                                     && (mm_ministryId mm =? mi) && mm_isActive mm)
                          (memberMinistries st))
  && optTest (w_isActive w) (fun b => Bool.eqb (mem_isActive m) b).

Record MinistryWhere := mkMinistryWhere {
  mw_OR : option string;
  mw_type : option string;
  mw_isActive : option bool
}.

Definition ministryMatches (w : MinistryWhere) (m : Ministry) : bool :=
  optTest (mw_OR w)
          (fun s => Js.containsInsensitive s (Some (min_name m))
                    || Js.containsInsensitive s (min_description m))
  && optTest (mw_type w) (fun t => min_type m =? t)
  && optTest (mw_isActive w) (fun b => Bool.eqb (min_isActive m) b).

Section FindMany.
(** [ORDER BY column direction] as the database engine performs it. *)
Variable orderBy : forall Row : Type, string -> string -> list Row -> list Row.

(** [findMany({ where, skip, take, orderBy })] on the rows selected by
    [where]; a negative [skip] or [take] is answered by a validation
    error in this model. *)
Definition findMany (Row : Type) (selected : list Row) (column direction : string)
           (skip take : Z) : Result (list Row) :=
  if (skip <? 0)%Z || (take <? 0)%Z
  then Throw PrismaClientValidationError
  else Return (List.firstn (Z.to_nat take)
                 (List.skipn (Z.to_nat skip) (orderBy column direction selected))).

End FindMany.

End Prisma.
Export Prisma.

(* ===================================================================== *)
(** * EventController (src/unnamed/part_001) *)
(* ===================================================================== *)

Module EventController.

Definition setEventActive (b : bool) (e : Event) : Event :=
  mkEvent (ev_id e) (ev_title e) b (ev_maxAttendees e)
          (ev_registrationRequired e) (ev_registrationDeadline e) (ev_ministryId e).

(** [_count.registrations] with [where: { isActive: true }]. *)
Definition activeRegistrations (st : Store) (id : string) : Z :=
  count (fun r => (reg_eventId r =? id) && reg_isActive r) (eventRegistrations st).

(** [_count.attendances]. *)
Definition attendanceCount (st : Store) (id : string) : Z :=
  count (fun a => att_eventId a =? id) (eventAttendances st).

Section DeleteEvent.
(** Whether a foreign key of the schema forbids removing the event row
    (the referential actions are declared outside the source at hand). *)
Variable restricted : Store -> string -> bool.

(** [deleteEvent]: [id] is [req.params.id]. *)
Definition deleteEvent (st : Store) (id : string) : Store * Outcome :=
  if negb (Js.truthy id)
  then (st, Next (ApiError 400 "Event ID is required" None))
  else
    match List.find (fun e => ev_id e =? id) (events st) with
    | None => (st, Next (ApiError 404 "Event not found" None))
    | Some event =>
        if (activeRegistrations st id >? 0)%Z || (attendanceCount st id >? 0)%Z
        then
          (setEvents st (updateFirst (fun e => ev_id e =? id)
                                     (setEventActive false) (events st)),
           ok 200 "Event deactivated successfully (has existing registrations/attendance)")
        else if restricted st id
        then (st, Next foreignKeyViolation)
        else
          (setEvents st (deleteFirst (fun e => ev_id e =? id) (events st)),
           ok 200 "Event deleted successfully")
    end.

End DeleteEvent.

(** The members of the body of [PUT /events/:id] that reach columns the
    handlers of this file read, and [organizerId], a foreign key of the
    event; [b_startTime] and [b_endTime] are the time values of
    [new Date(startTime)] and [new Date(endTime)] when the members are
    present, [b_registrationDeadline] is the time value of
    [new Date(registrationDeadline)], or [Null] for a falsy member (the
    column is then set to null). *)
Record EventBody := mkEventBody {
  b_title : Js.Field string;
  b_startTime : option Z;
  b_endTime : option Z;
  b_maxAttendees : Js.Field Z;
  b_registrationRequired : Js.Field bool;
  b_registrationDeadline : Js.Field Z;
  b_organizerId : Js.Field string;
  b_ministryId : Js.Field string;
  b_isActive : Js.Field bool
}.

(** A member of [updateData] for a column that holds a value: it is
    written when the body has it. *)
Definition overwrite (A : Type) (f : Js.Field A) (old : A) : A :=
  match f with
  | Js.Value a => a
  | _ => old
  end.

(** A member of [updateData] for a nullable column. *)
Definition overwriteNullable (A : Type) (f : Js.Field A) (old : option A) : option A :=
  match f with
  | Js.Undefined => old
  | Js.Null => None
  | Js.Value a => Some a
  end.

Section UpdateEvent.
(** What [prisma.event.update] makes of [updateData] before anything is
    written (the schema is outside the source at hand): whether a member
    holds a value its column cannot take, which Prisma's validation of the
    query refuses, and whether a foreign key of the event ([organizerId],
    [ministryId]) names a row that does not exist. *)
Variable invalid : EventBody -> bool.
Variable rejected : Store -> EventBody -> bool.

(** [updateEvent]: [errors] are the messages of [validationResult(req)]. *)
Definition updateEvent (errors : list string) (st : Store) (id : string)
           (body : EventBody) : Store * Outcome :=
  match errors with
  | _ :: _ => (st, Next (ApiError 400 "Validation failed" (Some errors)))
  | [] =>
      if negb (Js.truthy id)
      then (st, Next (ApiError 400 "Event ID is required" None))
      else
        match List.find (fun e => ev_id e =? id) (events st) with
        | None => (st, Next (ApiError 404 "Event not found" None))
        | Some existingEvent =>
            if match b_startTime body, b_endTime body with
               | Some startTime, Some endTime => (startTime >=? endTime)%Z
               | _, _ => false
               end
            then (st, Next (ApiError 400 "Start time must be before end time" None))
            else if invalid body
            then (st, Next PrismaClientValidationError)
            else if rejected st body
            then (st, Next foreignKeyViolation)
            else
              (setEvents st
                 (updateFirst (fun e => ev_id e =? id)
                    (fun e =>
                       mkEvent (ev_id e)
                               (overwrite (b_title body) (ev_title e))
                               (overwrite (b_isActive body) (ev_isActive e))
                               (overwriteNullable (b_maxAttendees body) (ev_maxAttendees e))
                               (overwrite (b_registrationRequired body)
                                          (ev_registrationRequired e))
                               (overwriteNullable (b_registrationDeadline body)
                                                  (ev_registrationDeadline e))
                               (overwriteNullable (b_ministryId body) (ev_ministryId e)))
                    (events st)),
               ok 200 "Event updated successfully")
        end
  end.

End UpdateEvent.

(** [data: { isActive: true, notes }] on the row of a cancelled
    registration: an absent [notes] leaves the column as it is, [null]
    clears it. *)
Definition reactivateRegistration (notes : Js.Field string) (r : EventRegistration)
  : EventRegistration :=
  mkEventRegistration (reg_id r) (reg_eventId r) (reg_memberId r) true
                      (overwriteNullable notes (reg_notes r)).

(** [event.maxAttendees && event._count.registrations >= event.maxAttendees]. *)
Definition isFull (event : Event) (registrations : Z) : bool :=
  match ev_maxAttendees event with
  | None => false
  | Some maxAttendees => Js.truthyNum maxAttendees && (registrations >=? maxAttendees)%Z
  end.

(** [event.registrationRequired && event.registrationDeadline] followed by
    [new Date() > event.registrationDeadline]. *)
Definition deadlinePassed (now : Z) (event : Event) : bool :=
  match ev_registrationDeadline event with
  | None => false
  | Some deadline => ev_registrationRequired event && (now >? deadline)%Z
  end.

(** [registerForEvent]: [id] is [req.params.id], [memberId] and [notes]
    come from the body, which the handler reads without consulting
    [validationResult]; [now] is [new Date()] and [uuid] the key the
    database gives to a created row.  A [memberId] or [notes] that is not
    a string is refused by Prisma's validation of the query it enters. *)
Definition registerForEvent (now : Z) (uuid : string) (st : Store)
           (id : string) (memberId notes : Js.Raw) : Store * Outcome :=
  if negb (Js.truthy id) || negb (Js.truthyRaw memberId)
  then (st, Next (ApiError 400 "Event ID and Member ID are required" None))
  else
    match List.find (fun e => (ev_id e =? id) && ev_isActive e) (events st) with
    | None => (st, Next (ApiError 404 "Event not found or inactive" None))
    | Some event =>
        if deadlinePassed now event
        then (st, Next (ApiError 400 "Registration deadline has passed" None))
        else if isFull event (activeRegistrations st id)
        then (st, Next (ApiError 400 "Event is full" None))
        else
          match memberId with
          | Js.Str (Js.Value memberId) =>
              match List.find (fun m => mem_id m =? memberId) (members st) with
              | None => (st, Next (ApiError 404 "Member not found" None))
              | Some member =>
                  match List.find (fun r => (reg_eventId r =? id)
                                            && (reg_memberId r =? memberId))
                                  (eventRegistrations st) with
                  | Some existingRegistration =>
                      if reg_isActive existingRegistration
                      then (st, Next (ApiError 409
                                        "Member is already registered for this event" None))
                      else
                        match notes with
                        | Js.Str notes =>
                            (setEventRegistrations st
                               (updateFirst (fun r => reg_id r =? reg_id existingRegistration)
                                            (reactivateRegistration notes)
                                            (eventRegistrations st)),
                             ok 201 "Registered for event successfully")
                        | Js.NotStr _ => (st, Next PrismaClientValidationError)
                        end
                  | None =>
                      match notes with
                      | Js.Str notes =>
                          (setEventRegistrations st
                             (eventRegistrations st ++
                              [mkEventRegistration uuid id memberId true
                                                   (Js.toColumn notes)])%list,
                           ok 201 "Registered for event successfully")
                      | Js.NotStr _ => (st, Next PrismaClientValidationError)
                      end
                  end
              end
          | _ => (st, Next PrismaClientValidationError)
          end
    end.

Definition cancel (r : EventRegistration) : EventRegistration :=
  mkEventRegistration (reg_id r) (reg_eventId r) (reg_memberId r) false (reg_notes r).

(** [cancelRegistration]: [id] and [memberId] are the parameters of the
    path. *)
Definition cancelRegistration (st : Store) (id memberId : string) : Store * Outcome :=
  if negb (Js.truthy id) || negb (Js.truthy memberId)
  then (st, Next (ApiError 400 "Event ID and Member ID are required" None))
  else
    match List.find (fun r => (reg_eventId r =? id) && (reg_memberId r =? memberId))
                    (eventRegistrations st) with
    | None => (st, Next (ApiError 404 "Registration not found or already cancelled" None))
    | Some registration =>
        if negb (reg_isActive registration)
        then (st, Next (ApiError 404 "Registration not found or already cancelled" None))
        else
          (setEventRegistrations st
             (updateFirst (fun r => reg_id r =? reg_id registration) cancel
                          (eventRegistrations st)),
           ok 200 "Registration cancelled successfully")
    end.

End EventController.

(* ===================================================================== *)
(** * MinistryController (src/controllers/MinistryController.ts) *)
(* ===================================================================== *)

Module MinistryController.



Section DeleteMinistry.
(** Whether a foreign key of the schema forbids removing the ministry row. *)
Variable restricted : Store -> string -> bool.


End DeleteMinistry.

Definition setMembership (active : bool) (role : string) (m : MemberMinistry)
  : MemberMinistry :=
  mkMemberMinistry (mm_id m) (mm_memberId m) (mm_ministryId m) role active.

Definition setMembershipActive (active : bool) (m : MemberMinistry) : MemberMinistry :=
  mkMemberMinistry (mm_id m) (mm_memberId m) (mm_ministryId m) (mm_role m) active.

(** [findUnique({ where: { memberId_ministryId: { memberId, ministryId } } })]. *)
Definition findMembership (st : Store) (memberId ministryId : string)
  : option MemberMinistry :=
  List.find (fun m => (mm_memberId m =? memberId) && (mm_ministryId m =? ministryId))
            (memberMinistries st).

(** [addMemberToMinistry]: [id] is the ministry of the path, [memberId]
    and [role] come from the body ([role] defaults to 'member'). *)
Definition addMemberToMinistry (uuid : string) (st : Store)
           (id : string) (memberId role : option string) : Store * Outcome :=
  let role := match role with Some r => r | None => "member" end in
  if negb (Js.truthy id) || negb (Js.truthyOpt memberId)
  then (st, Next (ApiError 400 "Ministry ID and Member ID are required" None))
  else
    let memberId := match memberId with Some m => m | None => "" end in
    match List.find (fun m => min_id m =? id) (ministries st) with
    | None => (st, Next (ApiError 404 "Ministry not found" None))
    | Some ministry =>
        match List.find (fun m => mem_id m =? memberId) (members st) with
        | None => (st, Next (ApiError 404 "Member not found" None))
        | Some member =>
            match findMembership st memberId id with
            | Some existingMembership =>
                if mm_isActive existingMembership
                then (st, Next (ApiError 409 "Member is already active in this ministry" None))
                else
                  (setMemberMinistries st
                     (updateFirst (fun m => mm_id m =? mm_id existingMembership)
                                  (setMembership true role) (memberMinistries st)),
                   ok 201 "Member added to ministry successfully")
            | None =>
                (setMemberMinistries st
                   (memberMinistries st ++ [mkMemberMinistry uuid memberId id role true])%list,
                 ok 201 "Member added to ministry successfully")
            end
        end
    end.

(** [removeMemberFromMinistry]. *)
Definition removeMemberFromMinistry (st : Store) (id memberId : string)
  : Store * Outcome :=
  if negb (Js.truthy id) || negb (Js.truthy memberId)
  then (st, Next (ApiError 400 "Ministry ID and Member ID are required" None))
  else
    match findMembership st memberId id with
    | None => (st, Next (ApiError 404 "Member is not active in this ministry" None))
    | Some membership =>
        if negb (mm_isActive membership)
        then (st, Next (ApiError 404 "Member is not active in this ministry" None))
        else
          (setMemberMinistries st
             (updateFirst (fun m => mm_id m =? mm_id membership)
                          (setMembershipActive false) (memberMinistries st)),
           ok 200 "Member removed from ministry successfully")
    end.

(** [findUnique({ where: { ministryId_memberId: { ministryId, memberId } } })]
    on the [ministryMember] model. *)
Definition findMinistryMember (st : Store) (ministryId memberId : string)
  : option MinistryMember :=
  List.find (fun m => (mmb_ministryId m =? ministryId) && (mmb_memberId m =? memberId))
            (ministryMembers st).

Definition rejoin (role : string) (now : Z) (m : MinistryMember) : MinistryMember :=
  mkMinistryMember (mmb_id m) (mmb_ministryId m) (mmb_memberId m) role now true.

Definition setMinistryMemberActive (active : bool) (m : MinistryMember) : MinistryMember :=
  mkMinistryMember (mmb_id m) (mmb_ministryId m) (mmb_memberId m) (mmb_role m)
                   (mmb_joinedAt m) active.

Definition setMinistryMemberRole (role : string) (m : MinistryMember) : MinistryMember :=
  mkMinistryMember (mmb_id m) (mmb_ministryId m) (mmb_memberId m) role
                   (mmb_joinedAt m) (mmb_isActive m).

(** [addMember], the handler of [POST /ministries/:id/members]; [errors]
    are the messages of [validationResult(req)], [role] defaults to
    'MEMBER' and [now] is [new Date()]. *)
Definition addMember (errors : list string) (now : Z) (uuid : string) (st : Store)
           (id : string) (memberId role : option string) : Store * Outcome :=
  match errors with
  | _ :: _ => (st, Next (ApiError 400 "Validation failed" (Some errors)))
  | [] =>
      let role := match role with Some r => r | None => "MEMBER" end in
      match List.find (fun m => min_id m =? id) (ministries st) with
      | None => (st, Next (ApiError 404 "Ministry not found" None))
      | Some ministry =>
          match memberId with
          | None => (st, Next PrismaClientValidationError)
          | Some memberId =>
              match List.find (fun m => mem_id m =? memberId) (members st) with
              | None => (st, Next (ApiError 404 "Member not found" None))
              | Some member =>
                  match findMinistryMember st id memberId with
                  | Some existingMembership =>
                      if mmb_isActive existingMembership
                      then (st, Next (ApiError 409 "Member is already in this ministry" None))
                      else
                        (setMinistryMembers st
                           (updateFirst (fun m => mmb_id m =? mmb_id existingMembership)
                                        (rejoin role now) (ministryMembers st)),
                         ok 201 "Member added to ministry successfully")
                  | None =>
                      (setMinistryMembers st
                         (ministryMembers st
                          ++ [mkMinistryMember uuid id memberId role now true])%list,
                       ok 201 "Member added to ministry successfully")
                  end
              end
          end
      end
  end.

(** [removeMember], the handler of [DELETE /ministries/:id/members/:memberId]. *)
Definition removeMember (st : Store) (id memberId : string) : Store * Outcome :=
  match findMinistryMember st id memberId with
  | None => (st, Next (ApiError 404 "Member not found in this ministry" None))
  | Some membership =>
      if negb (mmb_isActive membership)
      then (st, Next (ApiError 404 "Member not found in this ministry" None))
      else
        (setMinistryMembers st
           (updateFirst (fun m => mmb_id m =? mmb_id membership)
                        (setMinistryMemberActive false) (ministryMembers st)),
         ok 200 "Member removed from ministry successfully")
  end.

(** [updateMemberRole], the handler of [PUT /ministries/:id/members/:memberId]. *)
Definition updateMemberRole (errors : list string) (st : Store)
           (id memberId role : string) : Store * Outcome :=
  match errors with
  | _ :: _ => (st, Next (ApiError 400 "Validation failed" (Some errors)))
  | [] =>
      match findMinistryMember st id memberId with
      | None => (st, Next (ApiError 404 "Member not found in this ministry" None))
      | Some membership =>
          if negb (mmb_isActive membership)
          then (st, Next (ApiError 404 "Member not found in this ministry" None))
          else
            (setMinistryMembers st
               (updateFirst (fun m => mmb_id m =? mmb_id membership)
                            (setMinistryMemberRole role) (ministryMembers st)),
             ok 200 "Member role updated successfully")
      end
  end.

(** The query string of [GET /ministries]; [q_page] and [q_limit] hold
    what [parseInt] makes of the parameters when they are present. *)
Record MinistryQuery := mkMinistryQuery {
  q_page : option Z;
  q_limit : option Z;
  q_search : option string;
  q_type : option string;
  q_isActive : option string;
  q_sortBy : option string;
  q_sortOrder : option string
}.

Section GetMinistries.
Variable orderBy : forall Row : Type, string -> string -> list Row -> list Row.

(** [getMinistries]. *)
Definition getMinistries (st : Store) (q : MinistryQuery) : ListOutcome Ministry :=
  let page := match q_page q with Some p => p | None => 1%Z end in
  let limit := match q_limit q with Some l => l | None => 10%Z end in
  let isActive := Js.withDefault (Js.QBool true) (Js.queryVal (q_isActive q)) in
  let sortBy := match q_sortBy q with Some s => s | None => "name" end in
  let sortOrder := match q_sortOrder q with Some s => s | None => "asc" end in
  let skip := ((page - 1) * limit)%Z in
  let take := limit in
  let where_ :=
    {| mw_OR := if Js.truthyOpt (q_search q) then q_search q else None;
       mw_type := if Js.truthyOpt (q_type q) then q_type q else None;
       mw_isActive := if Js.isDefined isActive
                      then Some (Js.strictEqStr isActive "true") else None |} in
  let selected := List.filter (ministryMatches where_) (ministries st) in
  match findMany orderBy selected sortBy sortOrder skip take with
  | Throw e => ListNext e
  | Return ministries =>
      ListJson ministries page limit (Z.of_nat (List.length selected))
  end.

End GetMinistries.

End MinistryController.

(* ===================================================================== *)
(** * SimpleMemberController (src/controllers/SimpleMemberController.ts) *)
(* ===================================================================== *)

Module SimpleMemberController.

(** The query string of [GET /members]; [q_page] and [q_limit] hold what
    [parseInt] makes of the parameters when they are present. *)
Record MemberQuery := mkMemberQuery {
  q_page : option Z;
  q_limit : option Z;
  q_search : option string;
  q_cellId : option string;
  q_ministryId : option string;
  q_isActive : option string;
  q_sortBy : option string;
  q_sortOrder : option string
}.

Section GetMembers.
Variable orderBy : forall Row : Type, string -> string -> list Row -> list Row.

(** [getMembers]. *)
Definition getMembers (st : Store) (q : MemberQuery) : ListOutcome Member :=
  let page := match q_page q with Some p => p | None => 1%Z end in
  let limit := match q_limit q with Some l => l | None => 10%Z end in
  let isActive := Js.withDefault (Js.QBool true) (Js.queryVal (q_isActive q)) in
  let sortBy := match q_sortBy q with Some s => s | None => "name" end in
  let sortOrder := match q_sortOrder q with Some s => s | None => "asc" end in
  let skip := ((page - 1) * limit)%Z in
  let take := limit in
  let where_ :=
    {| w_OR := match q_search q with
               | Some s => if Js.truthy s then Some ([ColName; ColEmail], s) else None
               | None => None
               end;
       w_cellId := if Js.truthyOpt (q_cellId q) then q_cellId q else None;
       w_isActive := if Js.isDefined isActive
                     then Some (Js.strictEqStr isActive "true") else None;
       w_ministrySome := if Js.truthyOpt (q_ministryId q) then q_ministryId q else None |} in
  let selected := List.filter (memberMatches st where_) (members st) in
  match findMany orderBy selected sortBy sortOrder skip take with
  | Throw e => ListNext e
  | Return members =>
      ListJson members page limit (Z.of_nat (List.length selected))
  end.

End GetMembers.

Definition setMemberActive (b : bool) (m : Member) : Member :=
  mkMember (mem_id m) (mem_name m) (mem_email m) (mem_phone m) (mem_age m)
           (mem_gender m) (mem_address m) (mem_cellId m) (mem_userId m) b
           (mem_birthDate m) (mem_occupation m) (mem_notes m).

(** [_count.contributions]. *)
Definition contributionCount (st : Store) (id : string) : Z :=
  count (fun c => con_memberId c =? id) (contributions st).

(** [_count.ministries] with [where: { isActive: true }]. *)
Definition activeMinistries (st : Store) (id : string) : Z :=
  count (fun m => (mm_memberId m =? id) && mm_isActive m) (memberMinistries st).

Section DeleteMember.
(** Whether a foreign key of the schema forbids removing the member row. *)
Variable restricted : Store -> string -> bool.

(** [deleteMember]. *)
Definition deleteMember (st : Store) (id : string) : Store * Outcome :=
  if negb (Js.truthy id)
  then (st, Next (ApiError 400 "Member ID is required" None))
  else
    match List.find (fun m => mem_id m =? id) (members st) with
    | None => (st, Next (ApiError 404 "Member not found" None))
    | Some member =>
        if (contributionCount st id >? 0)%Z || (activeMinistries st id >? 0)%Z
        then
          (setMembers st (updateFirst (fun m => mem_id m =? id)
                                      (setMemberActive false) (members st)),
           ok 200 "Member deactivated successfully (has existing records)")
        else if restricted st id
        then (st, Next foreignKeyViolation)
        else
          (setMembers st (deleteFirst (fun m => mem_id m =? id) (members st)),
           ok 200 "Member deleted successfully")
    end.

End DeleteMember.

End SimpleMemberController.

(* ===================================================================== *)
(** * MemberService (src/services/MemberService.ts) *)
(* ===================================================================== *)

Module MemberService.

(** [MemberSearchParams]. *)
Record MemberSearchParams := mkParams {
  skip : Z;
  take : Z;
  search : option string;
  cellId : option string;
  ministryId : option string;
  isActive : option bool;
  sortBy : option string;
  sortOrder : option string
}.

Section FindAll.
Variable orderBy : forall Row : Type, string -> string -> list Row -> list Row.

(** [findAll(params)]: the page of members and the total. *)
Definition findAll (st : Store) (params : MemberSearchParams)
  : Result (list Member * Z) :=
  let where_ :=
    {| w_OR := match search params with
               | Some s => if Js.truthy s
                           then Some ([ColName; ColEmail; ColPhone], s) else None
               | None => None
               end;
       w_cellId := if Js.truthyOpt (cellId params) then cellId params else None;
       w_ministrySome :=
         if Js.truthyOpt (ministryId params) then ministryId params else None;
       w_isActive := isActive params |} in
  let column :=
    if Js.truthyOpt (sortBy params)
    then match sortBy params with Some s => s | None => "" end
    else "createdAt" in
  let direction :=
    if Js.truthyOpt (sortBy params)
    then (if Js.truthyOpt (sortOrder params)
          then match sortOrder params with Some s => s | None => "" end
          else "desc")
    else "desc" in
  let selected := List.filter (memberMatches st where_) (members st) in
  match findMany orderBy selected column direction (skip params) (take params) with
  | Throw e => Throw e
  | Return members => Return (members, Z.of_nat (List.length selected))
  end.

End FindAll.

(** [Partial<Member>]: the members of the payload the service reads. *)
Record MemberData := mkData {
  d_name : Js.Field string;
  d_email : Js.Field string;
  d_phone : Js.Field string;
  d_age : Js.Field Z;
  d_gender : Js.Field string;
  d_address : Js.Field string;
  d_cellId : Js.Field string;
  d_userId : Js.Field string;
  d_isActive : Js.Field bool;
  d_birthDate : Js.Field string;
  d_occupation : Js.Field string;
  d_notes : Js.Field string
}.

(** [findUnique({ where: { email } })]. *)
Definition findByEmail (st : Store) (email : string) : option Member :=
  List.find (fun m => Js.optEq (mem_email m) (Some email)) (members st).

(** The unique index on [Member.email]: another row already holds the
    value about to be written. *)
Definition emailTaken (st : Store) (id : string) (email : option string) : bool :=
  match email with
  | None => false
  | Some e =>
      List.existsb (fun m => negb (mem_id m =? id) && Js.optEq (mem_email m) (Some e))
                   (members st)
  end.

Definition uniqueEmailViolation : JsError :=
  PrismaClientKnownRequestError "P2002" "Unique constraint failed on the fields: (`email`)".

Section Create.
(** The key and the [isActive] column default the database gives to a
    created member, and whether a constraint of the schema other than the
    unique e-mail address (the foreign keys of [cellId] and [userId])
    rejects the row. *)
Variable uuid : string.
Variable isActiveDefault : bool.
Variable rejected : Store -> Member -> bool.

(** The [data] object handed to [prisma.member.create], as the row it
    becomes. *)
Definition newMember (data : MemberData) (name : string) : Member :=
  mkMember uuid name (Js.toColumn (d_email data)) (Js.toColumn (d_phone data))
           (Js.toColumn (d_age data)) (Js.toColumn (d_gender data))
           (Js.toColumn (d_address data)) (Js.toColumn (d_cellId data))
           (Js.toColumn (d_userId data)) isActiveDefault
           (if Js.truthyField (d_birthDate data)
            then Js.toColumn (d_birthDate data) else None)
           (Js.toColumn (d_occupation data)) (Js.toColumn (d_notes data)).

(** [create(data)]. *)
Definition create (st : Store) (data : MemberData) : Store * Result Member :=
  let proceed :=
    match d_name data with
    | Js.Value name =>
        let member := newMember data name in
        if emailTaken st uuid (mem_email member)
        then (st, Throw uniqueEmailViolation)
        else if rejected st member
        then (st, Throw foreignKeyViolation)
        else (setMembers st (members st ++ [member])%list, Return member)
    | _ => (st, Throw PrismaClientValidationError)
    end in
  match d_email data with
  | Js.Value email =>
      if Js.truthy email
      then match findByEmail st email with
           | Some existingMember =>
               (st, Throw (ConflictError "Member with this email already exists"))
           | None => proceed
           end
      else proceed
  | _ => proceed
  end.

End Create.

(** A member of the [data] object of [update]: an absent member keeps the
    column, [null] clears it. *)
Definition assign (A : Type) (f : Js.Field A) (old : option A) : option A :=
  match f with
  | Js.Undefined => old
  | Js.Null => None
  | Js.Value a => Some a
  end.

(** [update(id, data)]: [null] when no member has the [id]. *)
Definition update (st : Store) (id : string) (data : MemberData)
  : Store * Result (option Member) :=
  match List.find (fun m => mem_id m =? id) (members st) with
  | None => (st, Return None)
  | Some existingMember =>
      let proceed :=
        match d_isActive data with
        | Js.Null => (st, Throw PrismaClientValidationError)
        | _ =>
            let member :=
              mkMember (mem_id existingMember)
                (if Js.truthyField (d_name data)
                 then match d_name data with Js.Value n => n | _ => mem_name existingMember end
                 else mem_name existingMember)
                (assign (d_email data) (mem_email existingMember))
                (assign (d_phone data) (mem_phone existingMember))
                (assign (d_age data) (mem_age existingMember))
                (assign (d_gender data) (mem_gender existingMember))
                (assign (d_address data) (mem_address existingMember))
                (assign (d_cellId data) (mem_cellId existingMember))
                (mem_userId existingMember)
                (match d_isActive data with
                 | Js.Value b => b
                 | _ => mem_isActive existingMember
                 end)
                (match d_birthDate data with
                 | Js.Undefined => mem_birthDate existingMember
                 | Js.Null => None
                 | Js.Value b => if Js.truthy b then Some b else None
                 end)
                (assign (d_occupation data) (mem_occupation existingMember))
                (assign (d_notes data) (mem_notes existingMember)) in
            if match d_email data with
               | Js.Undefined => false
               | _ => emailTaken st id (mem_email member)
               end
            then (st, Throw uniqueEmailViolation)
            else (setMembers st (updateFirst (fun m => mem_id m =? id)
                                             (fun _ => member) (members st)),
                  Return (Some member))
        end in
      match d_email data with
      | Js.Value email =>
          if Js.truthy email && negb (Js.optEq (Some email) (mem_email existingMember))
          then match findByEmail st email with
               | Some duplicateEmail =>
                   (st, Throw (ConflictError "Member with this email already exists"))
               | None => proceed
               end
          else proceed
      | _ => proceed
      end
  end.

Section Delete.
(** Whether a foreign key of the schema forbids removing the member row
    (the referential actions are declared outside the source at hand). *)
Variable restricted : Store -> string -> bool.

(** [delete(id)]: [true] when the row was removed, [false] when
    [prisma.member.delete] threw. *)
Definition delete (st : Store) (id : string) : Store * bool :=
  match List.find (fun m => mem_id m =? id) (members st) with
  | None => (st, false)
  | Some _ =>
      if restricted st id then (st, false)
      else (setMembers st (deleteFirst (fun m => mem_id m =? id) (members st)), true)
  end.

End Delete.

(** [findById(id)]: the member row ([null] when there is none). *)
Definition findById (st : Store) (id : string) : option Member :=
  List.find (fun m => mem_id m =? id) (members st).

Section Legacy.
Variable orderBy : forall Row : Type, string -> string -> list Row -> list Row.
Variable restricted : Store -> string -> bool.

(** [getAllMembers()]: [findAll({ skip: 0, take: 1000 })]. *)
Definition getAllMembers (st : Store) : Result (list Member) :=
  match findAll orderBy st (mkParams 0%Z 1000%Z None None None None None None) with
  | Throw e => Throw e
  | Return (members, _) => Return members
  end.

(** [deleteMember(id)]. *)
Definition deleteMember (st : Store) (id : string) : Store * Result unit :=
  let (st', deleted) := delete restricted st id in
  if negb deleted then (st', Throw (NotFoundError "Member not found"))
  else (st', Return tt).

End Legacy.

(** [addToMinistry(memberId, ministryId, role = 'member')]. *)
Definition addToMinistry (uuid : string) (st : Store)
           (memberId ministryId : string) (role : option string)
  : Store * Result MemberMinistry :=
  let role := match role with Some r => r | None => "member" end in
  match List.find (fun m => mem_id m =? memberId) (members st) with
  | None => (st, Throw (NotFoundError "Member not found"))
  | Some member =>
      match List.find (fun m => min_id m =? ministryId) (ministries st) with
      | None => (st, Throw (NotFoundError "Ministry not found"))
      | Some ministry =>
          match MinistryController.findMembership st memberId ministryId with
          | Some existingMembership =>
              if mm_isActive existingMembership
              then (st, Throw (ConflictError "Member is already part of this ministry"))
              else
                (setMemberMinistries st
                   (updateFirst (fun m => mm_id m =? mm_id existingMembership)
                                (MinistryController.setMembership true role)
                                (memberMinistries st)),
                 Return (MinistryController.setMembership true role existingMembership))
          | None =>
              let created := mkMemberMinistry uuid memberId ministryId role true in
              (setMemberMinistries st (memberMinistries st ++ [created])%list,
               Return created)
          end
      end
  end.

(** [removeFromMinistry(memberId, ministryId)]. *)
Definition removeFromMinistry (st : Store) (memberId ministryId : string)
  : Store * Result unit :=
  match MinistryController.findMembership st memberId ministryId with
  | None => (st, Throw (NotFoundError "Member is not part of this ministry"))
  | Some membership =>
      (setMemberMinistries st
         (updateFirst (fun m => mm_id m =? mm_id membership)
                      (MinistryController.setMembershipActive false)
                      (memberMinistries st)),
       Return tt)
  end.

(** The object literal [ageGroups]. *)
Definition ageGroups0 : Js.Obj Z :=
  [("0-17", 0%Z); ("18-25", 0%Z); ("26-35", 0%Z);
   ("36-50", 0%Z); ("51-65", 0%Z); ("65+", 0%Z)].

(** The key chosen by the [if]/[else if] chain of the loop body. *)
Definition ageGroupOf (age : Z) : string :=
  if (age <=? 17)%Z then "0-17"
  else if (age <=? 25)%Z then "18-25"
  else if (age <=? 35)%Z then "26-35"
  else if (age <=? 50)%Z then "36-50"
  else if (age <=? 65)%Z then "51-65"
  else "65+".

(** [ageGroups[k]++] on a key of the literal (every key the loop uses is
    one of them). *)
Definition increment (o : Js.Obj Z) (k : string) : Js.Obj Z :=
  match Js.get o k with
  | Some n => Js.set o k (n + 1)%Z
  | None => o
  end.

Record AgeGroupStat := mkAgeGroupStat {
  ageGroup : string;
  ageCount : Z
}.

(** The rows of [findMany({ where: { isActive: true, age: { not: null } },
    select: { age: true } })]. *)
Definition agesOfActiveMembers (st : Store) : list Z :=
  List.flat_map (fun m => if mem_isActive m
                          then match mem_age m with Some a => [a] | None => [] end
                          else [])
                (members st).

(** [getAgeGroupStats()]. *)
Definition getAgeGroupStats (st : Store) : list AgeGroupStat :=
  let ageGroups :=
    List.fold_left (fun o age => increment o (ageGroupOf age))
                   (agesOfActiveMembers st) ageGroups0 in
  List.map (fun '(k, n) => mkAgeGroupStat k n) (Js.entries ageGroups).

End MemberService.

(* ===================================================================== *)
(** * BaseController (src/controllers/BaseController.ts) *)
(* ===================================================================== *)

Module BaseController.

(** The value of [Math.ceil(total / limit)]: an integer, or what the
    division by zero gives.  On integers below 2^53 in magnitude (row
    counts and page sizes) the floating-point quotient rounds to an
    integer only when the exact quotient is one, so the ceiling is the
    one of the exact quotient. *)
Inductive Num :=
| Int (n : Z)
| Infinity
| NegInfinity
| NaN.

(** [Math.ceil(total / limit)]. *)
Definition ceilDiv (total limit : Z) : Num :=
  if (limit =? 0)%Z
  then (if (total =? 0)%Z then NaN
        else if (0 <? total)%Z then Infinity else NegInfinity)
  else Int (- ((- total) / limit))%Z.

(** [page < totalPages]: a comparison with NaN is false. *)
Definition lessThan (page : Z) (totalPages : Num) : bool :=
  match totalPages with
  | Int n => (page <? n)%Z
  | Infinity => true
  | NegInfinity => false
  | NaN => false
  end.

(** [getPagination(page, limit)]: the [skip] and [take] of the query,
    for an integer [page] and [limit].  The product is the exact one; the
    floating-point product of the code is equal to it as long as it stays
    below 2^53 in magnitude. *)
Definition getPagination (page limit : Z) : Z * Z :=
  let skip := ((page - 1) * limit)%Z in
  (skip, limit).

Record Pagination := mkPagination {
  pg_page : Z;
  pg_limit : Z;
  pg_total : Z;
  pg_totalPages : Num;
  pg_hasNext : bool;
  pg_hasPrev : bool
}.

(** [buildPaginatedResponse(data, total, page, limit)]. *)
Definition buildPaginatedResponse (Row : Type) (data : list Row)
           (total page limit : Z) : list Row * Pagination :=
  let totalPages := ceilDiv total limit in
  (data,
   {| pg_page := page;
      pg_limit := limit;
      pg_total := total;
      pg_totalPages := totalPages;
      pg_hasNext := lessThan page totalPages;
      pg_hasPrev := (1 <? page)%Z |}).

(** [handleNoContent(res, message)]. *)
Definition handleNoContent (message : string) : Outcome := ok 204 message.

End BaseController.

(* ===================================================================== *)
(** * MemberController (src/unnamed/part_002) *)
(* ===================================================================== *)

Module MemberController.

Section GetAll.
Variable orderBy : forall Row : Type, string -> string -> list Row -> list Row.

(** [getAll]: [q_page] and [q_limit] hold what [Number] makes of the
    parameters when they are present. *)
Definition getAll (st : Store) (q : SimpleMemberController.MemberQuery)
  : ListOutcome Member :=
  let page := match SimpleMemberController.q_page q with Some p => p | None => 1%Z end in
  let limit := match SimpleMemberController.q_limit q with Some l => l | None => 10%Z end in
  let isActive := Js.queryVal (SimpleMemberController.q_isActive q) in
  let sortBy :=
    match SimpleMemberController.q_sortBy q with Some s => s | None => "createdAt" end in
  let sortOrder :=
    match SimpleMemberController.q_sortOrder q with Some s => s | None => "desc" end in
  let params :=
    MemberService.mkParams ((page - 1) * limit)%Z limit
      (SimpleMemberController.q_search q) (SimpleMemberController.q_cellId q)
      (SimpleMemberController.q_ministryId q)
      (Some (Js.strictEqStr isActive "true"))
      (Some sortBy) (Some sortOrder) in
  match MemberService.findAll orderBy st params with
  | Throw e => ListNext e
  | Return (members, total) => ListJson members page limit total
  end.

(** The body [getAll] sends: the rows and the [pagination] object. *)
Definition getAllResponse (st : Store) (q : SimpleMemberController.MemberQuery)
  : option (list Member * BaseController.Pagination) :=
  match getAll st q with
  | ListNext _ => None
  | ListJson members page limit total =>
      Some (BaseController.buildPaginatedResponse members total page limit)
  end.

End GetAll.

Section Delete.
Variable restricted : Store -> string -> bool.

(** [delete]. *)
Definition delete (st : Store) (id : string) : Store * Outcome :=
  let (st', deleted) := MemberService.delete restricted st id in
  if negb deleted then (st', Next (NotFoundError "Member not found"))
  else (st', BaseController.handleNoContent "Member deleted successfully").

End Delete.

End MemberController.

(* ===================================================================== *)
(** * ContributionController (src/controllers/BaseController.ts) *)
(* ===================================================================== *)

Module ContributionController.

(** The [where] object built by [getContributionStats]: the bounds on
    [date] that were supplied. *)
Record DateWhere := mkDateWhere {
  gte : option Z;
  lte : option Z
}.

Definition dateMatches (w : DateWhere) (c : Contribution) : bool :=
  optTest (gte w) (fun t => (t <=? getTime (con_date c))%Z)
  && optTest (lte w) (fun t => (getTime (con_date c) <=? t)%Z).

Fixpoint insertByDate (c : Contribution) (l : list Contribution) : list Contribution :=
  match l with
  | [] => [c]
  | c' :: l' =>
      if (getTime (con_date c) <? getTime (con_date c'))%Z
      then c :: c' :: l'
      else c' :: insertByDate c l'
  end.

(** [orderBy: { date: 'asc' }]; rows of equal date keep their order. *)
Definition sortByDate (l : list Contribution) : list Contribution :=
  List.fold_left (fun sorted c => insertByDate c sorted) l [].

(** [prisma.contribution.findMany({ where, select, orderBy })]. *)
Definition findContributions (st : Store) (w : DateWhere) : list Contribution :=
  sortByDate (List.filter (dateMatches w) (contributions st)).

(** [deleteContribution]: [id] is [req.params.id]. *)
Definition deleteContribution (st : Store) (id : string) : Store * Outcome :=
  if negb (Js.truthy id)
  then (st, Next (ApiError 400 "Contribution ID is required" None))
  else
    match List.find (fun c => con_id c =? id) (contributions st) with
    | None => (st, Next (ApiError 404 "Contribution not found" None))
    | Some contribution =>
        (mkStore (users st) (members st) (ministries st) (events st)
                 (memberMinistries st) (ministryMembers st) (eventRegistrations st)
                 (eventAttendances st)
                 (deleteFirst (fun c => con_id c =? id) (contributions st)),
         ok 200 "Contribution deleted successfully")
    end.

(** The value of [periodKey] after the [switch]. *)
Definition periodKeyOf (groupBy : string) (date : Date) : string :=
  if groupBy =? "month"
  then Js.String_ (getFullYear date) ++ "-"
       ++ Js.padStart2 (Js.String_ (getMonth date + 1))
  else if groupBy =? "quarter"
  then let quarter := (getMonth date / 3 + 1)%Z in
       Js.String_ (getFullYear date) ++ "-Q" ++ Js.String_ quarter
  else if groupBy =? "year"
  then Js.String_ (getFullYear date)
  else toISODate date.

(** A value of [groupedStats]. *)
Record Bucket := mkBucket {
  amount : float;
  count_ : Z
}.

(** The body of the [forEach]. *)
Definition addContribution (groupBy : string) (groupedStats : Js.Obj Bucket)
           (contrib : Contribution) : Js.Obj Bucket :=
  let periodKey := periodKeyOf groupBy (con_date contrib) in
  let groupedStats :=
    match Js.get groupedStats periodKey with
    | None => Js.set groupedStats periodKey (mkBucket 0%float 0)
    | Some _ => groupedStats
    end in
  match Js.get groupedStats periodKey with
  | Some b =>
      Js.set groupedStats periodKey
             (mkBucket (PrimFloat.add (amount b) (con_amount contrib)) (count_ b + 1)%Z)
  | None => groupedStats
  end.

Record PeriodStat := mkPeriodStat {
  period : string;
  totalAmount : float;
  count : Z;
  averageAmount : float
}.

(** The number a count becomes as the divisor of [stats.amount / stats.count]. *)
Definition numberOf (n : Z) : float := PrimFloat.of_uint63 (Uint63.of_Z n).

(** [getPeriodicStats(where, groupBy)]. *)
Definition getPeriodicStats (st : Store) (w : DateWhere) (groupBy : string)
  : list PeriodStat :=
  let contributions := findContributions st w in
  let groupedStats := List.fold_left (addContribution groupBy) contributions [] in
  List.map (fun '(p, stats) =>
              mkPeriodStat p (amount stats) (count_ stats)
                           (PrimFloat.div (amount stats) (numberOf (count_ stats))))
           (Js.entries groupedStats).

End ContributionController.

(* ===================================================================== *)
(** * NewAuthController (src/unnamed/part_003) *)
(* ===================================================================== *)

Module NewAuthController.

Section ForgotPassword.
(** [isEmail] of the validator package, behind express-validator's
    [body('email').isEmail()]. *)
Variable isEmail : string -> bool.
(** [String.prototype.toLowerCase], which lowers every cased letter of
    the Unicode tables. *)
Variable toLowerCase : string -> string.

(** [validationResult(req)] for the chain of [POST /forgot-password]:
    the messages of the failed checks. *)
Definition validationResult (email : Js.Field string) : list string :=
  match email with
  | Js.Value e => if isEmail e then [] else ["Valid email is required"]
  | _ => ["Valid email is required"]
  end.

Definition setResetToken (token : string) (expires : Z) (u : User) : User :=
  mkUser (usr_id u) (usr_email u) (usr_isActive u) (usr_roles u) (usr_lastLogin u)
         (Some token) (Some expires).

(** The error of calling [toLowerCase] on a body without [email]. *)
Definition TypeError : JsError :=
  {| err_name := "TypeError";
     err_message := "Cannot read properties of undefined (reading 'toLowerCase')";
     err_statusCode := None; err_code := None; err_errors := None |}.

(** [forgotPassword]: [email] is [req.body.email], [now] is [Date.now()]
    and [resetToken] the hex string of [crypto.randomBytes(32)]. *)
Definition forgotPassword (now : Z) (resetToken : string) (st : Store)
           (email : Js.Field string) : Store * Outcome :=
  match validationResult email with
  | (_ :: _) as errors => (st, Next (ApiError 400 "Validation failed" (Some errors)))
  | [] =>
      match email with
      | Js.Value email =>
          let user := List.find (fun u => usr_email u =? toLowerCase email) (users st) in
          let sent := ok 200 "If the email exists, a password reset link has been sent" in
          match user with
          | Some user =>
              (setUsers st (updateFirst (fun u => usr_id u =? usr_id user)
                                        (setResetToken resetToken (now + 3600000)%Z)
                                        (users st)),
               sent)
          | None => (st, sent)
          end
      | _ => (st, Next TypeError)
      end
  end.

End ForgotPassword.

(** The [password] column of the user table, kept beside the rows: the
    bcrypt hash stored for each user [id]. *)
Definition Passwords := string -> string.


Section Credentials.
Variable isEmail : string -> bool.
(** [bcrypt.compare(password, hash)], and [bcrypt.hash(password, 12)] with
    the salt it draws. *)
Variable compare : string -> string -> bool.
Variable hash : string -> string -> string.
(** [process.env.JWT_SECRET]. *)
Variable JWT_SECRET : option string.
(** The length that [isLength] of the validator package measures: the
    characters of the string, a surrogate pair counting once and a
    variation selector not at all. *)
Variable length : string -> nat.

(** [body(field).notEmpty().withMessage(message)]. *)
Definition notEmpty (message : string) (v : Js.Field string) : list string :=
  match v with
  | Js.Value s => if Js.truthy s then [] else [message]
  | _ => [message]
  end.


(** [validationResult(req)] for [loginValidation]. *)
Definition loginValidation (email password : Js.Field string) : list string :=
  (validationResult isEmail email ++ notEmpty "Password is required" password)%list.

(** [login]: [email] and [password] are the members of the body, [now]
    is [new Date()]. *)
Definition login (now : Z) (st : Store) (pw : Passwords)
           (email password : Js.Field string) : Store * Outcome :=
  match loginValidation email password with
  | (_ :: _) as errors => (st, Next (ApiError 400 "Validation failed" (Some errors)))
  | [] =>
      match email, password with
      | Js.Value email, Js.Value password =>
          match List.find (fun u => usr_email u =? email) (users st) with
          | None => (st, Next (UnauthorizedError "Invalid credentials"))
          | Some user =>
              if negb (usr_isActive user)
              then (st, Next (UnauthorizedError "Account is deactivated"))
              else if negb (compare password (pw (usr_id user)))
              then (st, Next (UnauthorizedError "Invalid credentials"))
              else
                let st' := setUsers st (updateFirst (fun u => usr_id u =? usr_id user)
                                                    (setLastLogin now) (users st)) in
                if negb (Js.truthyOpt JWT_SECRET)
                then (st', Next (PlainError "JWT_SECRET is not configured"))
                else (st', ok 200 "Login successful")
          end
      | _, _ => (st, Next PrismaClientValidationError)
      end
  end.





End Credentials.

End NewAuthController.

(* ===================================================================== *)
(** * AnnouncementController (src/controllers/SimpleMemberController.ts) *)
(* ===================================================================== *)

Module AnnouncementController.

(** A row of the [announcement] model; the dates are time values.  No
    other handler of the repository reads or writes this table, so the
    handlers below take it and return it on its own. *)
Record Announcement := mkAnnouncement {
  ann_id : string;
  ann_title : string;
  ann_content : string;
  ann_priority : string;
  ann_targetAudience : string;
  ann_publishDate : option Z;
  ann_expiryDate : option Z;
  ann_isPublished : bool;
  ann_isActive : bool;
  ann_authorId : string;
  ann_attachments : list string
}.

Definition Table := list Announcement.

(** The reply of a handler that reads: the [data] member of the body, or
    the error passed to [next]. *)
Inductive Reply (A : Type) :=
| Data (data : A) (message : string)
| Error (e : JsError).
Arguments Error {A} e.

(** [getAnnouncementById]. *)
Definition getAnnouncementById (tbl : Table) (id : string) : Reply Announcement :=
  if negb (Js.truthy id)
  then Error (ApiError 400 "Announcement ID is required" None)
  else
    match List.find (fun a => ann_id a =? id) tbl with
    | None => Error (ApiError 404 "Announcement not found" None)
    | Some announcement => Data announcement "Announcement retrieved successfully"
    end.

Definition softDelete (a : Announcement) : Announcement :=
  mkAnnouncement (ann_id a) (ann_title a) (ann_content a) (ann_priority a)
                 (ann_targetAudience a) (ann_publishDate a) (ann_expiryDate a)
                 false false (ann_authorId a) (ann_attachments a).

(** [deleteAnnouncement]. *)
Definition deleteAnnouncement (tbl : Table) (id : string) : Table * Outcome :=
  if negb (Js.truthy id)
  then (tbl, Next (ApiError 400 "Announcement ID is required" None))
  else
    match List.find (fun a => ann_id a =? id) tbl with
    | None => (tbl, Next (ApiError 404 "Announcement not found" None))
    | Some announcement =>
        (updateFirst (fun a => ann_id a =? id) softDelete tbl,
         ok 200 "Announcement deleted successfully")
    end.

(** The [data] of the update of [publishAnnouncement]; [publishDate] is
    [announcement.publishDate || new Date()] (a Date is truthy). *)
Definition publish (publishDate : Z) (a : Announcement) : Announcement :=
  mkAnnouncement (ann_id a) (ann_title a) (ann_content a) (ann_priority a)
                 (ann_targetAudience a) (Some publishDate) (ann_expiryDate a)
                 true (ann_isActive a) (ann_authorId a) (ann_attachments a).

(** [publishAnnouncement]; [now] is [new Date()]. *)
Definition publishAnnouncement (now : Z) (tbl : Table) (id : string) : Table * Outcome :=
  if negb (Js.truthy id)
  then (tbl, Next (ApiError 400 "Announcement ID is required" None))
  else
    match List.find (fun a => ann_id a =? id) tbl with
    | None => (tbl, Next (ApiError 404 "Announcement not found" None))
    | Some announcement =>
        if negb (ann_isActive announcement)
        then (tbl, Next (ApiError 400 "Cannot publish inactive announcement" None))
        else
          let publishDate :=
            match ann_publishDate announcement with
            | Some d => d
            | None => now
            end in
          (updateFirst (fun a => ann_id a =? id) (publish publishDate) tbl,
           ok 200 "Announcement published successfully")
    end.

Definition unpublish (a : Announcement) : Announcement :=
  mkAnnouncement (ann_id a) (ann_title a) (ann_content a) (ann_priority a)
                 (ann_targetAudience a) (ann_publishDate a) (ann_expiryDate a)
                 false (ann_isActive a) (ann_authorId a) (ann_attachments a).

(** [unpublishAnnouncement]. *)
Definition unpublishAnnouncement (tbl : Table) (id : string) : Table * Outcome :=
  if negb (Js.truthy id)
  then (tbl, Next (ApiError 400 "Announcement ID is required" None))
  else
    match List.find (fun a => ann_id a =? id) tbl with
    | None => (tbl, Next (ApiError 404 "Announcement not found" None))
    | Some announcement =>
        (updateFirst (fun a => ann_id a =? id) unpublish tbl,
         ok 200 "Announcement unpublished successfully")
    end.

(** The members of the body of [PUT /announcements/:id], each absent or
    present; [ab_publishDate] and [ab_expiryDate] hold the time values of
    [new Date(publishDate)] and [new Date(expiryDate)].  (The validators of
    the route leave no other case when they report no error: a null or an
    empty member fails them.) *)
Record AnnouncementBody := mkAnnouncementBody {
  ab_title : option string;
  ab_content : option string;
  ab_priority : option string;
  ab_targetAudience : option string;
  ab_publishDate : option Z;
  ab_expiryDate : option Z;
  ab_isPublished : option bool;
  ab_isActive : option bool;
  ab_attachments : option (list string)
}.

(** A member of [updateData]: written when the body has it. *)
Definition orKeep (A : Type) (v : option A) (old : A) : A :=
  match v with
  | Some a => a
  | None => old
  end.

(** A date of [updateData]: written when the body has it. *)
Definition orKeepDate (v : option Z) (old : option Z) : option Z :=
  match v with
  | Some d => Some d
  | None => old
  end.

(** [updateAnnouncement]: [errors] are the messages of
    [validationResult(req)]. *)
Definition updateAnnouncement (errors : list string) (tbl : Table) (id : string)
           (body : AnnouncementBody) : Table * Outcome :=
  match errors with
  | _ :: _ => (tbl, Next (ApiError 400 "Validation failed" (Some errors)))
  | [] =>
      if negb (Js.truthy id)
      then (tbl, Next (ApiError 400 "Announcement ID is required" None))
      else
        match List.find (fun a => ann_id a =? id) tbl with
        | None => (tbl, Next (ApiError 404 "Announcement not found" None))
        | Some existingAnnouncement =>
            if match ab_publishDate body, ab_expiryDate body with
               | Some publishDate, Some expiryDate => (publishDate >=? expiryDate)%Z
               | _, _ => false
               end
            then (tbl, Next (ApiError 400 "Publish date must be before expiry date" None))
            else
              (updateFirst (fun a => ann_id a =? id)
                 (fun a =>
                    mkAnnouncement (ann_id a)
                      (orKeep (ab_title body) (ann_title a))
                      (orKeep (ab_content body) (ann_content a))
                      (orKeep (ab_priority body) (ann_priority a))
                      (orKeep (ab_targetAudience body) (ann_targetAudience a))
                      (orKeepDate (ab_publishDate body) (ann_publishDate a))
                      (orKeepDate (ab_expiryDate body) (ann_expiryDate a))
                      (orKeep (ab_isPublished body) (ann_isPublished a))
                      (orKeep (ab_isActive body) (ann_isActive a))
                      (ann_authorId a)
                      (orKeep (ab_attachments body) (ann_attachments a)))
                 tbl,
               ok 200 "Announcement updated successfully")
        end
  end.

(** The conditions on [publishDate] and [expiryDate] of the public
    queries: not before the one, not after the other. *)
Definition inPeriod (now : Z) (a : Announcement) : bool :=
  match ann_publishDate a with
  | None => true
  | Some d => (d <=? now)%Z
  end
  && match ann_expiryDate a with
     | None => true
     | Some d => (now <=? d)%Z
     end.

(** The [where] object of [getAnnouncements]: each member is absent until
    the handler assigns it; [aw_AND] holds the [now] of the two conditions
    on the dates. *)
Record AnnouncementWhere := mkAnnouncementWhere {
  aw_OR : option string;
  aw_priority : option string;
  aw_isActive : option bool;
  aw_targetAudience : option string;
  aw_isPublished : option bool;
  aw_AND : option Z
}.

Definition announcementMatches (w : AnnouncementWhere) (a : Announcement) : bool :=
  optTest (aw_OR w)
          (fun s => Js.containsInsensitive s (Some (ann_title a))
                    || Js.containsInsensitive s (Some (ann_content a)))
  && optTest (aw_priority w) (fun p => ann_priority a =? p)
  && optTest (aw_isActive w) (fun b => Bool.eqb (ann_isActive a) b)
  && optTest (aw_targetAudience w) (fun t => ann_targetAudience a =? t)
  && optTest (aw_isPublished w) (fun b => Bool.eqb (ann_isPublished a) b)
  && optTest (aw_AND w) (fun now => inPeriod now a).

(** The query string of [GET /announcements]; [aq_page] and [aq_limit]
    hold what [parseInt] makes of the parameters when they are present. *)
Record AnnouncementQuery := mkAnnouncementQuery {
  aq_page : option Z;
  aq_limit : option Z;
  aq_search : option string;
  aq_priority : option string;
  aq_isActive : option string;
  aq_targetAudience : option string;
  aq_publishedOnly : option string;
  aq_sortBy : option string;
  aq_sortOrder : option string
}.

Section Queries.
Variable orderBy : forall Row : Type, string -> string -> list Row -> list Row.

(** [getAnnouncements]; [now] is [new Date()]. *)
Definition getAnnouncements (now : Z) (tbl : Table) (q : AnnouncementQuery)
  : ListOutcome Announcement :=
  let page := match aq_page q with Some p => p | None => 1%Z end in
  let limit := match aq_limit q with Some l => l | None => 10%Z end in
  let isActive := Js.queryVal (aq_isActive q) in
  let publishedOnly := Js.withDefault (Js.QStr "true") (Js.queryVal (aq_publishedOnly q)) in
  let sortBy := match aq_sortBy q with Some s => s | None => "createdAt" end in
  let sortOrder := match aq_sortOrder q with Some s => s | None => "desc" end in
  let skip := ((page - 1) * limit)%Z in
  let take := limit in
  let where_ :=
    {| aw_OR := if Js.truthyOpt (aq_search q) then aq_search q else None;
       aw_priority := if Js.truthyOpt (aq_priority q) then aq_priority q else None;
       aw_isActive := if Js.isDefined isActive
                      then Some (Js.strictEqStr isActive "true") else None;
       aw_targetAudience :=
         if Js.truthyOpt (aq_targetAudience q) then aq_targetAudience q else None;
       aw_isPublished := None;
       aw_AND := None |} in
  let where_ :=
    if Js.strictEqStr publishedOnly "true"
    then {| aw_OR := aw_OR where_;
            aw_priority := aw_priority where_;
            aw_isActive := Some true;
            aw_targetAudience := aw_targetAudience where_;
            aw_isPublished := Some true;
            aw_AND := Some now |}
    else where_ in
  let selected := List.filter (announcementMatches where_) tbl in
  match findMany orderBy selected sortBy sortOrder skip take with
  | Throw e => ListNext e
  | Return announcements =>
      ListJson announcements page limit (Z.of_nat (List.length selected))
  end.

End Queries.

End AnnouncementController.

(* ===================================================================== *)
(** * Properties *)
(* ===================================================================== *)

(** ** Helper lemmas on lists and tables *)

Lemma includes_In (l : list string) (x : string) :
  Js.includes l x = true <-> In x l.
Proof.
  induction l as [|y l IH]; simpl.
  - split; [discriminate | tauto].
  - rewrite orb_true_iff, IH, String.eqb_eq. tauto.
Qed.

Lemma truthy_true (s : string) : Js.truthy s = true <-> s <> "".
Proof.
  unfold Js.truthy. rewrite negb_true_iff. split.
  - intros H E. subst s. discriminate.
  - intros H. apply String.eqb_neq. exact H.
Qed.

(** ** The central error handler *)

(** An error that none of the handler's rules on [name] and [code]
    rewrites. *)
Definition ruleFree (err : JsError) : bool :=
  negb (err_name err =? "CastError")
  && negb (codeIs11000 (err_code err))
  && negb (err_name err =? "ValidationError")
  && negb (err_name err =? "JsonWebTokenError")
  && negb (err_name err =? "TokenExpiredError")
  && negb (err_name err =? "PrismaClientKnownRequestError").

(** The body's [message] for an error message [m]. *)
Definition shownMessage (m : string) : string :=
  if Js.truthy m then m else "Internal Server Error".

Lemma errorHandler_ruleFree (development : bool) (err : JsError) :
  ruleFree err = true ->
  errorHandler development err =
  Some {| res_status := statusOr500 (spread err);
          res_success := false;
          res_message := shownMessage (err_message err);
          res_debug := development |}.
Proof.
  unfold ruleFree. rewrite !andb_true_iff, !negb_true_iff.
  intros [[[[[H1 H2] H3] H4] H5] H6].
  unfold errorHandler. rewrite H1, H2, H3, H4, H5, H6. reflexivity.
Qed.

(** The error the verification of a malformed token throws. *)
Definition malformedToken : JsError :=
  {| err_name := "JsonWebTokenError"; err_message := "jwt malformed";
     err_statusCode := None; err_code := None; err_errors := None |}.

(** C3, counterexample: the error Prisma raises on a unique-constraint
    violation has no [statusCode]; it is answered with 409 and a message of
    the handler's own, not with 500 and the error's message. *)
Lemma errorHandler_statusless_error_409 :
  err_statusCode MemberService.uniqueEmailViolation = None /\
  errorHandler false MemberService.uniqueEmailViolation =
  Some {| res_status := 409; res_success := false;
          res_message := "Duplicate field value entered"; res_debug := false |}.
Proof. split; reflexivity. Qed.

(** C3, as amended: the status follows the class of the error (400 for a
    ValidationError, 401 for an UnauthorizedError, 403 for a
    ForbiddenError, 404 for a NotFoundError, 409 for a ConflictError), an
    error without statusCode that none of the rules on name and code
    rewrites is answered with 500, these replies carry the error's message
    (the default text when it is empty), and every reply of the handler has
    success set to false. *)
Theorem errorHandler_status_by_kind (development : bool) :
  (forall m, errorHandler development (ValidationError m)
             = Some (mkResponse 400 false (shownMessage m) development)) /\
  (forall m, errorHandler development (UnauthorizedError m)
             = Some (mkResponse 401 false (shownMessage m) development)) /\
  (forall m, errorHandler development (ForbiddenError m)
             = Some (mkResponse 403 false (shownMessage m) development)) /\
  (forall m, errorHandler development (NotFoundError m)
             = Some (mkResponse 404 false (shownMessage m) development)) /\
  (forall m, errorHandler development (ConflictError m)
             = Some (mkResponse 409 false (shownMessage m) development)) /\
  (forall err, err_statusCode err = None -> ruleFree err = true ->
               errorHandler development err
               = Some (mkResponse 500 false (shownMessage (err_message err)) development)) /\
  (forall err r, errorHandler development err = Some r -> res_success r = false).
Proof.
  repeat split; try (intros m; reflexivity).
  - intros err Hs Hr. rewrite (errorHandler_ruleFree development err Hr).
    unfold statusOr500, spread; simpl. rewrite Hs. reflexivity.
  - intros err r. unfold errorHandler.
    destruct (err_name err =? "ValidationError");
      [destruct (err_errors err); [|discriminate]|];
      intros H; injection H as <-; reflexivity.
Qed.

(** The handler on a plain [Error]: the sixth clause at a concrete input. *)
Lemma errorHandler_status_by_kind_witness :
  errorHandler false (PlainError "boom")
  = Some (mkResponse 500 false "boom" false).
Proof.
  destruct (errorHandler_status_by_kind false) as (_ & _ & _ & _ & _ & H & _).
  apply (H (PlainError "boom")); reflexivity.
Defined.

(** ** Authorization *)

Lemma authorize_Continue (allowedRoles : AllowedRoles) (user user' : option ReqUser) :
  authorize allowedRoles user = Continue user' ->
  user' = user /\ exists u, user = Some u /\ In (user_role u) (rolesOf allowedRoles).
Proof.
  unfold authorize. destruct user as [u|]; [|discriminate].
  destruct (Js.includes (rolesOf allowedRoles) (user_role u)) eqn:E; [|discriminate].
  intros H. injection H as <-. split; [reflexivity|].
  exists u. split; [reflexivity|]. apply includes_In. exact E.
Qed.

Section EventRoutes.
Variable verify : string -> string -> JwtResult.
Variable JWT_SECRET : option string.
Variable now : Z.
Variable authorization : option string.

Let route := dispatch verify JWT_SECRET now authorization eventRoutes.

(** What [DELETE /events/:id] does once [authenticate] has run. *)
Lemma dispatch_delete_event (st : Store) (id : string) (user0 : option ReqUser) :
  Js.truthy id = true ->
  route DELETE [id] st user0 =
  match authenticate verify JWT_SECRET now st authorization with
  | (st', Fail e) => (st', Forwarded e)
  | (st', Continue user) =>
      match authorize (RolesArray ["ADMIN"; "SUPER_ADMIN"; "EVENT_ORGANIZER"; "MINISTRY_LEADER"])
                      user with
      | Fail e => (st', Forwarded e)
      | Continue user1 =>
          match authorize (RolesArray ["SUPER_ADMIN"]) user1 with
          | Fail e => (st', Forwarded e)
          | Continue user2 => (st', Handled "deleteEvent" user2)
          end
      end
  end.
Proof.
  intros Hid. unfold route, eventRoutes.
  cbn [dispatch runStack methodEqb andb matchPath runMiddleware].
  rewrite Hid. cbn [andb runStack runMiddleware].
  destruct (authenticate verify JWT_SECRET now st authorization) as [st' [user|e]];
    [|reflexivity].
  cbn [dispatch runStack methodEqb andb matchPath runMiddleware].
  destruct (authorize _ user) as [user1|e]; [|reflexivity].
  cbn [dispatch runStack methodEqb andb matchPath runMiddleware].
  destruct (authorize _ user1) as [user2|e]; [|reflexivity].
  reflexivity.
Qed.

Lemma dispatch_delete_event_unmatched (st : Store) (id : string) (user0 : option ReqUser) :
  Js.truthy id = false ->
  forall st' c u, route DELETE [id] st user0 <> (st', Handled c u).
Proof.
  intros Hid st' c u. unfold route, eventRoutes.
  cbn [dispatch runStack methodEqb andb matchPath runMiddleware].
  rewrite Hid. cbn [andb runStack runMiddleware].
  destruct (authenticate verify JWT_SECRET now st authorization) as [st1 [user|e]];
    [|discriminate].
  cbn [dispatch runStack methodEqb andb matchPath runMiddleware].
  destruct (authorize _ user) as [user1|e]; [|discriminate].
  cbn [dispatch runStack methodEqb andb matchPath runMiddleware].
  destruct (authorize _ user1) as [user2|e]; [|discriminate].
  discriminate.
Qed.

End EventRoutes.

(** C4: [authorize] forwards an UnauthorizedError (401) when the request
    has no user and a ForbiddenError (403) when the user's role is not in
    the list, and calls the next handler exactly when there is a user
    whose role is in the list; on [DELETE /events/:id] the controller runs
    only for an authenticated user whose role is 'SUPER_ADMIN', and it does
    run for every such user. *)
Theorem authorize_gates_handler :
  (forall roles,
      authorize roles None = Fail (UnauthorizedError "Authentication required")) /\
  (forall roles u, ~ In (user_role u) (rolesOf roles) ->
      authorize roles (Some u) = Fail (ForbiddenError "Insufficient permissions")) /\
  (forall roles u, In (user_role u) (rolesOf roles) ->
      authorize roles (Some u) = Continue (Some u)) /\
  (forall roles user,
      (exists user', authorize roles user = Continue user') <->
      (exists u, user = Some u /\ In (user_role u) (rolesOf roles))) /\
  (forall development m,
      option_map res_status (errorHandler development (UnauthorizedError m)) = Some 401%Z /\
      option_map res_status (errorHandler development (ForbiddenError m)) = Some 403%Z) /\
  (forall verify JWT_SECRET now authorization st id user0 st' c user,
      dispatch verify JWT_SECRET now authorization eventRoutes DELETE [id] st user0
      = (st', Handled c user) ->
      c = "deleteEvent" /\
      exists u, user = Some u /\ user_role u = "SUPER_ADMIN" /\
                authenticate verify JWT_SECRET now st authorization
                = (st', Continue (Some u))) /\
  (forall verify JWT_SECRET now authorization st id user0 st' u,
      id <> "" ->
      authenticate verify JWT_SECRET now st authorization = (st', Continue (Some u)) ->
      user_role u = "SUPER_ADMIN" ->
      dispatch verify JWT_SECRET now authorization eventRoutes DELETE [id] st user0
      = (st', Handled "deleteEvent" (Some u))).
Proof.
  assert (Hin : forall roles u, In (user_role u) (rolesOf roles) ->
                  authorize roles (Some u) = Continue (Some u)).
  { intros roles u H. unfold authorize.
    apply includes_In in H. rewrite H. reflexivity. }
  split; [reflexivity|].
  split.
  { intros roles u H. unfold authorize.
    destruct (Js.includes (rolesOf roles) (user_role u)) eqn:E; [|reflexivity].
    apply includes_In in E. contradiction. }
  split; [exact Hin|].
  split.
  { intros roles user. split.
    - intros [user' H]. apply authorize_Continue in H. tauto.
    - intros [u [-> H]]. exists (Some u). apply Hin. exact H. }
  split.
  { intros development m. split; reflexivity. }
  split.
  - intros verify JWT_SECRET now authorization st id user0 st' c user.
    destruct (Js.truthy id) eqn:Hid.
    + rewrite (@dispatch_delete_event verify JWT_SECRET now authorization st id user0 Hid).
      destruct (authenticate verify JWT_SECRET now st authorization) as [st1 [u1|e]];
        [|discriminate].
      destruct (authorize _ u1) as [u2|e] eqn:A1; [|discriminate].
      destruct (authorize _ u2) as [u3|e] eqn:A2; [|discriminate].
      intros H; injection H as <- <- <-.
      apply authorize_Continue in A1. destruct A1 as [-> _].
      apply authorize_Continue in A2. destruct A2 as [-> [u [-> Hr]]].
      split; [reflexivity|].
      exists u. simpl in Hr. destruct Hr as [Hr|[]]. auto.
    + intros H. exfalso.
      exact (@dispatch_delete_event_unmatched verify JWT_SECRET now authorization
               st id user0 Hid st' c user H).
  - intros verify JWT_SECRET now authorization st id user0 st' u Hid Ha Hr.
    apply truthy_true in Hid.
    rewrite (@dispatch_delete_event verify JWT_SECRET now authorization st id user0 Hid).
    rewrite Ha. rewrite !Hin; [reflexivity| |]; simpl; rewrite Hr; auto.
Qed.

(** ** Sample data

    A small database used to run the handlers on concrete requests. *)

Definition admin : User :=
  mkUser "u-1" "admin@church.org" true ["SUPER_ADMIN"] None None None.

Definition alice : Member :=
  mkMember "m-1" "Alice" (Some "alice@church.org") None (Some 34%Z) (Some "FEMALE")
           None None None true None None None.

Definition bob : Member :=
  mkMember "m-2" "Bob" (Some "bob@church.org") None (Some 17%Z) (Some "MALE")
           None None None false None None None.

Definition carol : Member :=
  mkMember "m-3" "Carol" None None (Some 66%Z) None None None None true None None None.

Definition choir : Ministry := mkMinistry "min-1" "Choir" None "WORSHIP" true.

Definition ushers : Ministry := mkMinistry "min-2" "Ushers" None "SERVICE" false.

Definition retreat : Event :=
  mkEvent "ev-1" "Retreat" true (Some 1%Z) true (Some 1000%Z) (Some "min-1").

Definition picnic : Event :=
  mkEvent "ev-2" "Picnic" true None false None None.

Definition bazaar : Event :=
  mkEvent "ev-3" "Bazaar" false (Some 1%Z) false None None.

Definition sampleStore : Store :=
  {| users := [admin];
     members := [alice; bob; carol];
     ministries := [choir; ushers];
     events := [retreat; picnic; bazaar];
     memberMinistries :=
       [mkMemberMinistry "mm-1" "m-1" "min-1" "LEADER" true;
        mkMemberMinistry "mm-2" "m-2" "min-1" "member" false];
     ministryMembers :=
       [mkMinistryMember "mb-1" "min-1" "m-3" "MEMBER" 50 true];
     eventRegistrations :=
       [mkEventRegistration "reg-1" "ev-1" "m-1" true None;
        mkEventRegistration "reg-2" "ev-3" "m-1" true None];
     eventAttendances := [];
     contributions :=
       [mkContribution "c-1" "m-1" (mkDate 100 2024 0 "2024-01-15") 10.5%float;
        mkContribution "c-2" "m-1" (mkDate 200 2024 1 "2024-02-03") 20.25%float;
        mkContribution "c-3" "m-3" (mkDate 150 2024 0 "2024-01-28") 4.5%float] |}.

(** [jwt.verify] for the sample: the token "tok" belongs to user "u-1". *)
Definition sampleVerify (token secret : string) : JwtResult :=
  if (token =? "tok") && (secret =? "s3cret") then Decoded "u-1"
  else Thrown true false malformedToken.

(** The last clause of the theorem on a request of the sample
    administrator. *)
Lemma authorize_gates_handler_witness :
  snd (dispatch sampleVerify (Some "s3cret") 5%Z (Some "Bearer tok") eventRoutes
                DELETE ["ev-2"] sampleStore None)
  = Handled "deleteEvent" (Some (mkReqUser "u-1" "admin@church.org" "SUPER_ADMIN" true)).
Proof.
  destruct authorize_gates_handler as (_ & _ & _ & _ & _ & _ & H).
  rewrite (H sampleVerify (Some "s3cret") 5%Z (Some "Bearer tok") sampleStore "ev-2" None
             (fst (authenticate sampleVerify (Some "s3cret") 5%Z sampleStore
                                (Some "Bearer tok")))
             (mkReqUser "u-1" "admin@church.org" "SUPER_ADMIN" true)).
  - reflexivity.
  - discriminate.
  - reflexivity.
  - reflexivity.
Defined.

(** ** Tables: lookups after an update or a delete *)

Section TableFacts.
Variable Row : Type.
Variable key : Row -> string.

Lemma find_key_Some (k : string) (l : list Row) (r : Row) :
  List.find (fun x => key x =? k) l = Some r -> In r l /\ key r = k.
Proof.
  intros H. apply List.find_some in H. destruct H as [H1 H2].
  split; [exact H1|]. apply String.eqb_eq. exact H2.
Qed.

Lemma length_updateFirst (p : Row -> bool) (f : Row -> Row) (l : list Row) :
  List.length (updateFirst p f l) = List.length l.
Proof.
  induction l as [|r l IH]; simpl; [reflexivity|].
  destruct (p r); simpl; congruence.
Qed.

Lemma map_updateFirst (A : Type) (g : Row -> A) (p : Row -> bool) (f : Row -> Row)
      (l : list Row) :
  (forall r, g (f r) = g r) -> List.map g (updateFirst p f l) = List.map g l.
Proof.
  intros Hg. induction l as [|r l IH]; simpl; [reflexivity|].
  destruct (p r); simpl; [rewrite Hg|rewrite IH]; reflexivity.
Qed.

Lemma find_updateFirst (k : string) (f : Row -> Row) (l : list Row) (r : Row) :
  (forall x, key (f x) = key x) ->
  List.find (fun x => key x =? k) l = Some r ->
  List.find (fun x => key x =? k) (updateFirst (fun x => key x =? k) f l) = Some (f r).
Proof.
  intros Hf. induction l as [|x l IH]; simpl; [discriminate|].
  destruct (key x =? k) eqn:E; simpl.
  - intros H. injection H as ->. rewrite Hf, E. reflexivity.
  - rewrite E. exact IH.
Qed.

Lemma length_deleteFirst (p : Row -> bool) (l : list Row) (r : Row) :
  List.find p l = Some r -> S (List.length (deleteFirst p l)) = List.length l.
Proof.
  induction l as [|x l IH]; simpl; [discriminate|].
  destruct (p x); simpl; [reflexivity|]. intros H. rewrite (IH H). reflexivity.
Qed.

Lemma In_deleteFirst (p : Row -> bool) (l : list Row) (x : Row) :
  In x (deleteFirst p l) -> In x l.
Proof.
  induction l as [|y l IH]; simpl; [tauto|].
  destruct (p y); simpl; tauto.
Qed.

Lemma find_deleteFirst (k : string) (l : list Row) :
  NoDup (List.map key l) ->
  List.find (fun x => key x =? k) (deleteFirst (fun x => key x =? k) l) = None.
Proof.
  induction l as [|x l IH]; simpl; [reflexivity|].
  intros H. inversion H as [|? ? Hnin Hnd]; subst.
  destruct (key x =? k) eqn:E; simpl.
  - apply String.eqb_eq in E. subst k.
    destruct (List.find (fun y => key y =? key x) l) eqn:F; [|reflexivity].
    apply find_key_Some in F. destruct F as [F1 F2].
    exfalso. apply Hnin. rewrite <- F2. apply List.in_map. exact F1.
  - rewrite E. apply IH. exact Hnd.
Qed.

(** The first row that satisfies [p] is still the first after a rewrite
    of that row which keeps [p]. *)
Lemma find_after_updateFirst (p : Row -> bool) (f : Row -> Row)
      (l : list Row) (r : Row) :
  NoDup (List.map key l) ->
  (forall x, p (f x) = p x) ->
  List.find p l = Some r ->
  List.find p (updateFirst (fun x => key x =? key r) f l) = Some (f r).
Proof.
  intros Hnd Hf. induction l as [|x l IH]; cbn [List.find updateFirst]; [discriminate|].
  inversion Hnd as [|? ? Hnin Hnd']; subst.
  destruct (p x) eqn:E.
  - intros H. injection H as ->. rewrite String.eqb_refl. cbn [List.find].
    rewrite Hf, E. reflexivity.
  - intros H. destruct (key x =? key r) eqn:K.
    + exfalso. apply String.eqb_eq in K. apply Hnin. rewrite K.
      apply List.in_map. apply List.find_some in H. tauto.
    + cbn [List.find]. rewrite E. exact (IH Hnd' H).
Qed.

Lemma count_nonneg (p : Row -> bool) (l : list Row) : (0 <= count p l)%Z.
Proof. unfold count. lia. Qed.

End TableFacts.

(** ** Deleting events, members and ministries *)



(** The request was answered with status 200. *)
Definition succeeded (out : Outcome) : Prop :=
  exists r, out = Json r /\ res_status r = 200%Z.


Lemma sampleStore_keys : PrimaryKeys sampleStore.
Proof.
  split; simpl; repeat constructor; simpl; intuition discriminate.
Qed.




Lemma In_firstn (A : Type) (n : nat) (l : list A) (x : A) :
  In x (List.firstn n l) -> In x l.
Proof.
  intros H. rewrite <- (List.firstn_skipn n l). apply List.in_or_app. left. exact H.
Qed.

Lemma In_skipn (A : Type) (n : nat) (l : list A) (x : A) :
  In x (List.skipn n l) -> In x l.
Proof.
  intros H. rewrite <- (List.firstn_skipn n l). apply List.in_or_app. right. exact H.
Qed.

(** ** The list endpoints and the isActive filter *)

(** A request without query string. *)
Definition noQuery : SimpleMemberController.MemberQuery :=
  SimpleMemberController.mkMemberQuery None None None None None None None None.

Definition noMinistryQuery : MinistryController.MinistryQuery :=
  MinistryController.mkMinistryQuery None None None None None None None.

Section ListEndpoints.
Variable orderBy : forall Row : Type, string -> string -> list Row -> list Row.
Hypothesis orderBy_perm :
  forall (Row : Type) (column direction : string) (l : list Row),
    Permutation (orderBy column direction l) l.

Lemma findMany_In (Row : Type) (selected : list Row) (column direction : string)
      (skip take : Z) (page : list Row) (r : Row) :
  findMany orderBy selected column direction skip take = Return page ->
  In r page -> In r selected.
Proof.
  unfold findMany. destruct (_ || _)%bool; [discriminate|].
  intros H Hin. injection H as <-.
  apply (Permutation_in r (orderBy_perm column direction selected)).
  apply (In_skipn (Z.to_nat skip)), (In_firstn (Z.to_nat take)). exact Hin.
Qed.

(** Without an [isActive] parameter the three list handlers put
    [isActive: false] into the filter: every row of the page is an
    inactive one. *)
Lemma list_default_rows_inactive (st : Store) :
  (forall q data page limit total m,
      SimpleMemberController.q_isActive q = None ->
      SimpleMemberController.getMembers orderBy st q = ListJson data page limit total ->
      In m data -> mem_isActive m = false) /\
  (forall q data page limit total m,
      SimpleMemberController.q_isActive q = None ->
      MemberController.getAll orderBy st q = ListJson data page limit total ->
      In m data -> mem_isActive m = false) /\
  (forall q data page limit total m,
      MinistryController.q_isActive q = None ->
      MinistryController.getMinistries orderBy st q = ListJson data page limit total ->
      In m data -> min_isActive m = false).
Proof.
  split; [|split].
  - intros q data page limit total m Hq. unfold SimpleMemberController.getMembers.
    rewrite Hq. simpl.
    destruct (findMany _ _ _ _ _ _) as [rows|e] eqn:F; [|discriminate].
    intros H Hin. injection H as <- _ _ _.
    apply (@findMany_In _ _ _ _ _ _ _ _ F) in Hin.
    apply List.filter_In in Hin. destruct Hin as [_ Hm].
    unfold memberMatches in Hm. rewrite !andb_true_iff in Hm.
    destruct Hm as [_ Hm]. simpl in Hm. apply Bool.eqb_prop in Hm. exact Hm.
  - intros q data page limit total m Hq. unfold MemberController.getAll.
    rewrite Hq. simpl. unfold MemberService.findAll.
    destruct (findMany _ _ _ _ _ _) as [rows|e] eqn:F; [|discriminate].
    intros H Hin. injection H as <- _ _ _.
    apply (@findMany_In _ _ _ _ _ _ _ _ F) in Hin.
    apply List.filter_In in Hin. destruct Hin as [_ Hm].
    unfold memberMatches in Hm. rewrite !andb_true_iff in Hm.
    destruct Hm as [_ Hm]. simpl in Hm. apply Bool.eqb_prop in Hm. exact Hm.
  - intros q data page limit total m Hq. unfold MinistryController.getMinistries.
    rewrite Hq. simpl.
    destruct (findMany _ _ _ _ _ _) as [rows|e] eqn:F; [|discriminate].
    intros H Hin. injection H as <- _ _ _.
    apply (@findMany_In _ _ _ _ _ _ _ _ F) in Hin.
    apply List.filter_In in Hin. destruct Hin as [_ Hm].
    unfold ministryMatches in Hm. rewrite !andb_true_iff in Hm.
    destruct Hm as [_ Hm]. simpl in Hm. apply Bool.eqb_prop in Hm. exact Hm.
Qed.

Lemma orderBy_singleton (Row : Type) (r : Row) (column direction : string) :
  orderBy column direction [r] = [r].
Proof. apply Permutation_length_1_inv, Permutation_sym, orderBy_perm. Qed.

(** C2, the defect at a concrete request: the sample holds two active
    members and one inactive member, one active and one inactive ministry;
    the lists requested without any query parameter consist of the inactive
    rows alone. *)
Theorem list_default_returns_inactive_rows :
  SimpleMemberController.getMembers orderBy sampleStore noQuery = ListJson [bob] 1 10 1 /\
  MemberController.getAll orderBy sampleStore noQuery = ListJson [bob] 1 10 1 /\
  MinistryController.getMinistries orderBy sampleStore noMinistryQuery
  = ListJson [ushers] 1 10 1.
Proof.
  split; [|split].
  - unfold SimpleMemberController.getMembers. simpl.
    rewrite orderBy_singleton. reflexivity.
  - unfold MemberController.getAll, MemberService.findAll. simpl.
    rewrite orderBy_singleton. reflexivity.
  - unfold MinistryController.getMinistries. simpl.
    rewrite orderBy_singleton. reflexivity.
Qed.

End ListEndpoints.

(** The defect with the rows left in table order. *)
Lemma list_default_returns_inactive_rows_witness :
  SimpleMemberController.getMembers (fun _ _ _ l => l) sampleStore noQuery
  = ListJson [bob] 1 10 1.
Proof.
  apply (@list_default_returns_inactive_rows (fun _ _ _ l => l)).
  intros Row column direction l. apply Permutation_refl.
Defined.

(** ** Duplicate e-mail addresses *)

Lemma find_exists (A : Type) (p : A -> bool) (l : list A) (x : A) :
  In x l -> p x = true -> exists y, List.find p l = Some y.
Proof.
  intros Hin Hp. destruct (List.find p l) as [y|] eqn:F.
  - exists y. reflexivity.
  - rewrite (List.find_none p l F x Hin) in Hp. discriminate.
Qed.

Lemma findByEmail_bearer (st : Store) (email : string) (m : Member) :
  In m (members st) -> mem_email m = Some email ->
  exists m', MemberService.findByEmail st email = Some m'.
Proof.
  intros Hin He. unfold MemberService.findByEmail.
  apply (@find_exists _ _ _ m Hin). rewrite He. simpl. apply String.eqb_refl.
Qed.

(** C5: creating a member with an e-mail address that a member already
    bears throws a ConflictError (status 409) and creates nothing; updating
    a member to an e-mail address other than its own that a member bears
    throws a ConflictError and changes nothing; a create whose payload has
    no email looks at no other member's address and appends the new member
    (unless another constraint of the schema rejects the row). *)
Theorem member_email_conflict (uuid : string) (isActiveDefault : bool)
        (rejected : Store -> Member -> bool) (st : Store) :
  (forall data email bearer,
      MemberService.d_email data = Js.Value email -> email <> "" ->
      In bearer (members st) -> mem_email bearer = Some email ->
      MemberService.create uuid isActiveDefault rejected st data
      = (st, Throw (ConflictError "Member with this email already exists"))) /\
  (forall id data email existing bearer,
      List.find (fun m => mem_id m =? id) (members st) = Some existing ->
      MemberService.d_email data = Js.Value email -> email <> "" ->
      mem_email existing <> Some email ->
      In bearer (members st) -> mem_email bearer = Some email ->
      MemberService.update st id data
      = (st, Throw (ConflictError "Member with this email already exists"))) /\
  (forall data name,
      Js.toColumn (MemberService.d_email data) = None ->
      MemberService.d_name data = Js.Value name ->
      let member := MemberService.newMember uuid isActiveDefault data name in
      rejected st member = false ->
      MemberService.create uuid isActiveDefault rejected st data
      = (setMembers st (members st ++ [member]), Return member)
      /\ mem_id member = uuid /\ mem_name member = name /\ mem_email member = None) /\
  (forall m, option_map res_status (errorHandler false (ConflictError m)) = Some 409%Z).
Proof.
  split; [|split; [|split]].
  - intros data email bearer He Hne Hin Hb. unfold MemberService.create.
    rewrite He. apply truthy_true in Hne. rewrite Hne.
    destruct (@findByEmail_bearer st email bearer Hin Hb) as [m' ->]. reflexivity.
  - intros id data email existing bearer Hf He Hne Hdiff Hin Hb.
    unfold MemberService.update. rewrite Hf, He.
    apply truthy_true in Hne. rewrite Hne.
    assert (Hneq : Js.optEq (Some email) (mem_email existing) = false).
    { destruct (mem_email existing) as [e|]; simpl; [|reflexivity].
      apply String.eqb_neq. intros ->. apply Hdiff. reflexivity. }
    rewrite Hneq. simpl.
    destruct (@findByEmail_bearer st email bearer Hin Hb) as [m' ->]. reflexivity.
  - intros data name He Hn member Hr. unfold MemberService.create.
    fold member. rewrite Hn. fold member.
    assert (Hm : mem_email member = None) by exact He.
    rewrite Hm, Hr. simpl.
    destruct (MemberService.d_email data); try discriminate; auto.
  - reflexivity.
Qed.

(** The first clause on the sample: a second member with Alice's address. *)
Lemma member_email_conflict_witness :
  MemberService.create "m-9" true (fun _ _ => false) sampleStore
    (MemberService.mkData (Js.Value "Zoe") (Js.Value "alice@church.org")
       Js.Undefined Js.Undefined Js.Undefined Js.Undefined Js.Undefined Js.Undefined
       Js.Undefined Js.Undefined Js.Undefined Js.Undefined)
  = (sampleStore, Throw (ConflictError "Member with this email already exists")).
Proof.
  destruct (member_email_conflict "m-9" true (fun _ _ => false) sampleStore) as [H _].
  apply (H _ "alice@church.org" alice).
  - reflexivity.
  - discriminate.
  - simpl. auto.
  - reflexivity.
Defined.

(** ** Objects as maps *)

Section ObjFacts.
Variable V : Type.

Lemma get_set_same (o : Js.Obj V) (k : string) (v : V) :
  Js.get (Js.set o k v) k = Some v.
Proof.
  induction o as [|[k' v'] o IH]; simpl.
  - rewrite String.eqb_refl. reflexivity.
  - destruct (k' =? k) eqn:E; simpl; rewrite E; [reflexivity|exact IH].
Qed.

Lemma get_set_other (o : Js.Obj V) (k k' : string) (v : V) :
  k <> k' -> Js.get (Js.set o k v) k' = Js.get o k'.
Proof.
  intros Hne. induction o as [|[k0 v0] o IH]; simpl.
  - apply String.eqb_neq in Hne. rewrite Hne. reflexivity.
  - destruct (k0 =? k) eqn:E; simpl.
    + apply String.eqb_eq in E. subst k0.
      apply String.eqb_neq in Hne. rewrite Hne. reflexivity.
    + destruct (k0 =? k'); [reflexivity|exact IH].
Qed.

Lemma keys_set_present (o : Js.Obj V) (k : string) (v v0 : V) :
  Js.get o k = Some v0 -> List.map fst (Js.set o k v) = List.map fst o.
Proof.
  induction o as [|[k' v'] o IH]; simpl; [discriminate|].
  destruct (k' =? k); simpl; [reflexivity|].
  intros H. rewrite (IH H). reflexivity.
Qed.

Lemma keys_set_absent (o : Js.Obj V) (k : string) (v : V) :
  Js.get o k = None -> List.map fst (Js.set o k v) = (List.map fst o ++ [k])%list.
Proof.
  induction o as [|[k' v'] o IH]; simpl; [reflexivity|].
  destruct (k' =? k); simpl; [discriminate|].
  intros H. rewrite (IH H). reflexivity.
Qed.

Lemma get_None_keys (o : Js.Obj V) (k : string) :
  Js.get o k = None -> ~ In k (List.map fst o).
Proof.
  induction o as [|[k' v'] o IH]; simpl; [tauto|].
  destruct (k' =? k) eqn:E; [discriminate|].
  intros H [Hk|Hk]; [|exact (IH H Hk)].
  apply String.eqb_neq in E. contradiction.
Qed.

Lemma get_In (o : Js.Obj V) (k : string) (v : V) :
  Js.get o k = Some v -> In (k, v) o.
Proof.
  induction o as [|[k' v'] o IH]; simpl; [discriminate|].
  destruct (k' =? k) eqn:E.
  - apply String.eqb_eq in E. subst k'. intros H. injection H as ->. left. reflexivity.
  - intros H. right. exact (IH H).
Qed.

Lemma In_get (o : Js.Obj V) (k : string) (v : V) :
  NoDup (List.map fst o) -> In (k, v) o -> Js.get o k = Some v.
Proof.
  induction o as [|[k' v'] o IH]; simpl; [tauto|].
  intros Hnd [H|H].
  - injection H as -> ->. rewrite String.eqb_refl. reflexivity.
  - inversion Hnd as [|? ? Hnin Hnd']; subst.
    destruct (k' =? k) eqn:E.
    + apply String.eqb_eq in E. subst k'. exfalso. apply Hnin.
      change k with (fst (k, v)). apply List.in_map. exact H.
    + exact (IH Hnd' H).
Qed.

Lemma insertIndexed_perm (e : N * (string * V)) (l : list (N * (string * V))) :
  Permutation (Js.insertIndexed e l) (e :: l).
Proof.
  induction l as [|e' l IH]; simpl; [apply Permutation_refl|].
  destruct (fst e <=? fst e')%N; [apply Permutation_refl|].
  apply Permutation_trans with (e' :: e :: l).
  - apply perm_skip. exact IH.
  - apply perm_swap.
Qed.

Lemma splitEntries_perm (o : Js.Obj V) :
  Permutation (List.map snd (fst (Js.splitEntries o)) ++ snd (Js.splitEntries o)) o.
Proof.
  induction o as [|[k v] o IH]; simpl; [apply Permutation_refl|].
  destruct (Js.splitEntries o) as [ix named]. simpl in IH.
  destruct (Js.arrayIndex k) as [n|]; simpl.
  - apply Permutation_trans with (List.map snd ((n, (k, v)) :: ix) ++ named)%list.
    + apply Permutation_app_tail, Permutation_map, insertIndexed_perm.
    + simpl. apply perm_skip. exact IH.
  - apply Permutation_trans with ((k, v) :: List.map snd ix ++ named)%list.
    + apply Permutation_sym, Permutation_middle.
    + apply perm_skip. exact IH.
Qed.

(** [Object.entries] lists every entry of the object exactly once. *)
Lemma entries_perm (o : Js.Obj V) : Permutation (Js.entries o) o.
Proof.
  unfold Js.entries. pose proof (splitEntries_perm o) as H.
  destruct (Js.splitEntries o) as [ix named]. exact H.
Qed.

End ObjFacts.

(** ** The age-group statistic *)

Definition ageLabels : list string :=
  ["0-17"; "18-25"; "26-35"; "36-50"; "51-65"; "65+"].

(** The object whose six entries hold the numbers [f] gives to the labels. *)
Definition countsObj (f : string -> Z) : Js.Obj Z :=
  List.map (fun k => (k, f k)) ageLabels.

Definition oneIf (b : bool) : Z := if b then 1%Z else 0%Z.

Lemma count_cons (A : Type) (p : A -> bool) (a : A) (l : list A) :
  count p (a :: l) = (oneIf (p a) + count p l)%Z.
Proof.
  unfold count, oneIf. cbn [List.filter]. destruct (p a); cbn [List.length]; lia.
Qed.

(** Case analysis along the [if]/[else if] chain of [ageGroupOf]. *)
Ltac by_age_group :=
  unfold MemberService.ageGroupOf;
  repeat match goal with
         | |- context [if (?a <=? ?b)%Z then _ else _] => destruct (a <=? b)%Z
         end.

Lemma increment_countsObj (f : string -> Z) (age : Z) :
  MemberService.increment (countsObj f) (MemberService.ageGroupOf age)
  = countsObj (fun k => (f k + oneIf (String.eqb (MemberService.ageGroupOf age) k))%Z).
Proof.
  by_age_group;
    unfold countsObj, MemberService.increment, oneIf; simpl;
    rewrite ?Z.add_0_r; reflexivity.
Qed.

Lemma fold_increment (ages : list Z) (f : string -> Z) :
  List.fold_left (fun o age => MemberService.increment o (MemberService.ageGroupOf age))
                 ages (countsObj f)
  = countsObj (fun k => (f k + count (fun a => String.eqb (MemberService.ageGroupOf a) k) ages)%Z).
Proof.
  revert f. induction ages as [|a ages IH]; intros f; simpl.
  - unfold countsObj. apply List.map_ext. intros k. unfold count. simpl.
    rewrite Z.add_0_r. reflexivity.
  - rewrite increment_countsObj, IH. unfold countsObj. apply List.map_ext.
    intros k. rewrite count_cons. cbn beta. f_equal. lia.
Qed.

Lemma entries_countsObj (f : string -> Z) : Js.entries (countsObj f) = countsObj f.
Proof. reflexivity. Qed.

(** The age [a] falls in the group labelled [k]. *)
Definition inAgeGroup (k : string) (a : Z) : bool := MemberService.ageGroupOf a =? k.

Lemma ageGroup_counts_sum (ages : list Z) :
  (count (inAgeGroup "0-17") ages
   + count (inAgeGroup "18-25") ages
   + count (inAgeGroup "26-35") ages
   + count (inAgeGroup "36-50") ages
   + count (inAgeGroup "51-65") ages
   + count (inAgeGroup "65+") ages
   = Z.of_nat (List.length ages))%Z.
Proof.
  induction ages as [|a ages IH].
  - reflexivity.
  - rewrite !count_cons. cbn [List.length]. rewrite Nat2Z.inj_succ.
    assert (H : (oneIf (inAgeGroup "0-17" a)
                 + oneIf (inAgeGroup "18-25" a)
                 + oneIf (inAgeGroup "26-35" a)
                 + oneIf (inAgeGroup "36-50" a)
                 + oneIf (inAgeGroup "51-65" a)
                 + oneIf (inAgeGroup "65+" a) = 1)%Z).
    { unfold inAgeGroup. by_age_group; reflexivity. }
    lia.
Qed.

Lemma ageGroupOf_bounds (a : Z) :
  (MemberService.ageGroupOf a = "0-17" <-> (a <= 17)%Z) /\
  (MemberService.ageGroupOf a = "18-25" <-> (18 <= a <= 25)%Z) /\
  (MemberService.ageGroupOf a = "26-35" <-> (26 <= a <= 35)%Z) /\
  (MemberService.ageGroupOf a = "36-50" <-> (36 <= a <= 50)%Z) /\
  (MemberService.ageGroupOf a = "51-65" <-> (51 <= a <= 65)%Z) /\
  (MemberService.ageGroupOf a = "65+" <-> (65 < a)%Z).
Proof.
  unfold MemberService.ageGroupOf.
  destruct (Z.leb_spec a 17); [repeat split; intros; try discriminate; lia|].
  destruct (Z.leb_spec a 25); [repeat split; intros; try discriminate; lia|].
  destruct (Z.leb_spec a 35); [repeat split; intros; try discriminate; lia|].
  destruct (Z.leb_spec a 50); [repeat split; intros; try discriminate; lia|].
  destruct (Z.leb_spec a 65); repeat split; intros; try discriminate; lia.
Qed.

Lemma agesOfActiveMembers_In (st : Store) (a : Z) :
  In a (MemberService.agesOfActiveMembers st) <->
  exists m, In m (members st) /\ mem_isActive m = true /\ mem_age m = Some a.
Proof.
  unfold MemberService.agesOfActiveMembers. rewrite List.in_flat_map. split.
  - intros [m [Hin H]]. exists m. split; [exact Hin|].
    destruct (mem_isActive m); [|destruct H].
    destruct (mem_age m) as [a'|]; [|destruct H].
    destruct H as [->|[]]. auto.
  - intros [m [Hin [Ha Hage]]]. exists m. split; [exact Hin|].
    rewrite Ha, Hage. left. reflexivity.
Qed.

Lemma agesOfActiveMembers_length (st : Store) :
  Z.of_nat (List.length (MemberService.agesOfActiveMembers st))
  = count (fun m => mem_isActive m && match mem_age m with Some _ => true | None => false end)
          (members st).
Proof.
  unfold MemberService.agesOfActiveMembers.
  induction (members st) as [|m l IH]; [reflexivity|].
  rewrite count_cons. cbn [List.flat_map]. rewrite List.length_app, Nat2Z.inj_add, IH.
  destruct (mem_isActive m); [destruct (mem_age m)|]; reflexivity.
Qed.

(** C6: the age-group statistic lists the six groups '0-17', '18-25',
    '26-35', '36-50', '51-65', '65+' in this order, zero counts included;
    the count of a group is the number of active members with an age whose
    age falls in it, the groups are bounded by age <= 17, 18-25, 26-35,
    36-50, 51-65 and age > 65, every age falls in exactly one group, and
    the six counts add up to the number of those members. *)
Theorem ageGroupStats_partition (st : Store) :
  let ages := MemberService.agesOfActiveMembers st in
  let inGroup := fun k => count (inAgeGroup k) ages in
  MemberService.getAgeGroupStats st
  = [ MemberService.mkAgeGroupStat "0-17" (inGroup "0-17");
      MemberService.mkAgeGroupStat "18-25" (inGroup "18-25");
      MemberService.mkAgeGroupStat "26-35" (inGroup "26-35");
      MemberService.mkAgeGroupStat "36-50" (inGroup "36-50");
      MemberService.mkAgeGroupStat "51-65" (inGroup "51-65");
      MemberService.mkAgeGroupStat "65+" (inGroup "65+") ] /\
  (inGroup "0-17" + inGroup "18-25" + inGroup "26-35" + inGroup "36-50"
   + inGroup "51-65" + inGroup "65+" = Z.of_nat (List.length ages))%Z /\
  Z.of_nat (List.length ages)
  = count (fun m => mem_isActive m && match mem_age m with Some _ => true | None => false end)
          (members st) /\
  (forall a, In a ages <->
             exists m, In m (members st) /\ mem_isActive m = true /\ mem_age m = Some a) /\
  (forall a,
      (MemberService.ageGroupOf a = "0-17" <-> (a <= 17)%Z) /\
      (MemberService.ageGroupOf a = "18-25" <-> (18 <= a <= 25)%Z) /\
      (MemberService.ageGroupOf a = "26-35" <-> (26 <= a <= 35)%Z) /\
      (MemberService.ageGroupOf a = "36-50" <-> (36 <= a <= 50)%Z) /\
      (MemberService.ageGroupOf a = "51-65" <-> (51 <= a <= 65)%Z) /\
      (MemberService.ageGroupOf a = "65+" <-> (65 < a)%Z)) /\
  (forall a, In (MemberService.ageGroupOf a) ageLabels) /\
  NoDup ageLabels.
Proof.
  intros ages inGroup.
  split; [|split; [|split; [|split; [|split; [|split]]]]].
  - unfold MemberService.getAgeGroupStats. fold ages.
    change MemberService.ageGroups0 with (countsObj (fun _ => 0%Z)).
    rewrite fold_increment, entries_countsObj. reflexivity.
  - apply ageGroup_counts_sum.
  - apply agesOfActiveMembers_length.
  - apply agesOfActiveMembers_In.
  - apply ageGroupOf_bounds.
  - intros a. unfold ageLabels. by_age_group; simpl; auto 10.
  - unfold ageLabels. repeat constructor; simpl; intuition discriminate.
Qed.

(** ** The periodic contribution statistic *)

Lemma insertByDate_perm (c : Contribution) (l : list Contribution) :
  Permutation (ContributionController.insertByDate c l) (c :: l).
Proof.
  induction l as [|c' l IH]; simpl; [apply Permutation_refl|].
  destruct (_ <? _)%Z; [apply Permutation_refl|].
  apply Permutation_trans with (c' :: c :: l).
  - apply perm_skip. exact IH.
  - apply perm_swap.
Qed.

Lemma sortByDate_perm (l : list Contribution) :
  Permutation (ContributionController.sortByDate l) l.
Proof.
  unfold ContributionController.sortByDate.
  assert (H : forall acc,
             Permutation
               (List.fold_left (fun sorted c => ContributionController.insertByDate c sorted)
                               l acc)
               (acc ++ l)%list).
  { induction l as [|c l IH]; intros acc; simpl.
    - rewrite List.app_nil_r. apply Permutation_refl.
    - apply Permutation_trans with (ContributionController.insertByDate c acc ++ l)%list.
      + apply IH.
      + apply Permutation_trans with ((c :: acc) ++ l)%list.
        * apply Permutation_app_tail, insertByDate_perm.
        * simpl. apply Permutation_middle. }
  exact (H []).
Qed.

Section PeriodicStats.
Variable groupBy : string.

(** The period of a contribution. *)
Definition periodOf (c : Contribution) : string :=
  ContributionController.periodKeyOf groupBy (con_date c).

(** The contributions of [l] that fall in the period [k], in the order of [l]. *)
Definition inPeriod (k : string) (l : list Contribution) : list Contribution :=
  List.filter (fun c => periodOf c =? k) l.

(** The sum the loop accumulates: the amounts added one after the other
    to 0, in the order of the list. *)
Definition sumAmounts (l : list Contribution) : float :=
  List.fold_left PrimFloat.add (List.map con_amount l) 0%float.

Definition bucketOf (k : string) (l : list Contribution) : ContributionController.Bucket :=
  ContributionController.mkBucket (sumAmounts (inPeriod k l))
                                  (Z.of_nat (List.length (inPeriod k l))).

(** What [groupedStats] holds once the contributions [l] have been seen. *)
Definition Grouped (o : Js.Obj ContributionController.Bucket) (l : list Contribution) : Prop :=
  NoDup (List.map fst o) /\
  forall k, Js.get o k = match inPeriod k l with
                         | [] => None
                         | _ :: _ => Some (bucketOf k l)
                         end.

Lemma inPeriod_snoc (k : string) (l : list Contribution) (c : Contribution) :
  inPeriod k (l ++ [c]) =
  if periodOf c =? k then (inPeriod k l ++ [c])%list else inPeriod k l.
Proof.
  unfold inPeriod. rewrite List.filter_app. simpl.
  destruct (periodOf c =? k); [reflexivity|apply List.app_nil_r].
Qed.

Lemma sumAmounts_snoc (l : list Contribution) (c : Contribution) :
  sumAmounts (l ++ [c]) = PrimFloat.add (sumAmounts l) (con_amount c).
Proof.
  unfold sumAmounts. rewrite List.map_app, List.fold_left_app. reflexivity.
Qed.

Lemma Grouped_step (o : Js.Obj ContributionController.Bucket)
      (l : list Contribution) (c : Contribution) :
  Grouped o l ->
  Grouped (ContributionController.addContribution groupBy o c) (l ++ [c]).
Proof.
  intros [Hnd Hget]. unfold ContributionController.addContribution.
  fold (periodOf c). set (kc := periodOf c).
  pose proof (Hget kc) as Hkc.
  destruct (Js.get o kc) as [b|] eqn:G.
  - (* the period has a bucket already *)
    rewrite G. split.
    + rewrite (keys_set_present _ _ _ G). exact Hnd.
    + intros k. rewrite inPeriod_snoc. fold kc.
      destruct (kc =? k) eqn:E.
      * apply String.eqb_eq in E. subst k. rewrite get_set_same.
        destruct (inPeriod kc l) as [|c0 l0] eqn:P; [discriminate|].
        injection Hkc as ->. cbn [List.app].
        unfold bucketOf. rewrite inPeriod_snoc. fold kc. rewrite String.eqb_refl, P.
        rewrite sumAmounts_snoc, List.length_app.
        cbn [ContributionController.amount ContributionController.count_].
        do 2 f_equal. cbn [List.length]. lia.
      * apply String.eqb_neq in E. rewrite (get_set_other _ _ E), Hget.
        destruct (inPeriod k l) eqn:P; [reflexivity|].
        unfold bucketOf. rewrite inPeriod_snoc. fold kc.
        apply String.eqb_neq in E. rewrite E. reflexivity.
  - (* first contribution of the period *)
    rewrite get_set_same.
    assert (P : inPeriod kc l = []).
    { destruct (inPeriod kc l); [reflexivity|discriminate]. }
    split.
    + rewrite (keys_set_present _ _ _ (get_set_same o kc _)).
      rewrite (keys_set_absent _ _ _ G).
      apply NoDup_app; [exact Hnd| repeat constructor; simpl; tauto |].
      intros x Hx [<-|[]]. exact (get_None_keys _ _ G Hx).
    + intros k. rewrite inPeriod_snoc. fold kc.
      destruct (kc =? k) eqn:E.
      * apply String.eqb_eq in E. subst k. rewrite get_set_same, P. simpl.
        unfold bucketOf. rewrite inPeriod_snoc. fold kc. rewrite String.eqb_refl, P.
        reflexivity.
      * apply String.eqb_neq in E.
        rewrite (get_set_other _ _ E), (get_set_other _ _ E), Hget.
        destruct (inPeriod k l) eqn:Pk; [reflexivity|].
        unfold bucketOf. rewrite inPeriod_snoc. fold kc.
        apply String.eqb_neq in E. rewrite E. reflexivity.
Qed.

Lemma Grouped_fold (l' l : list Contribution) (o : Js.Obj ContributionController.Bucket) :
  Grouped o l ->
  Grouped (List.fold_left (ContributionController.addContribution groupBy) l' o) (l ++ l').
Proof.
  revert l o. induction l' as [|c l' IH]; intros l o H; simpl.
  - rewrite List.app_nil_r. exact H.
  - replace (l ++ c :: l')%list with ((l ++ [c]) ++ l')%list
      by (rewrite <- List.app_assoc; reflexivity).
    apply IH, Grouped_step, H.
Qed.

Lemma Grouped_all (l : list Contribution) :
  Grouped (List.fold_left (ContributionController.addContribution groupBy) l []) l.
Proof.
  apply (@Grouped_fold l [] []). split; [constructor|]. intros k. reflexivity.
Qed.

End PeriodicStats.

(** The statistic on the sample, grouped by month: two contributions in
    January, one in February. *)
Example periodicStats_sample_by_month :
  ContributionController.getPeriodicStats
    sampleStore (ContributionController.mkDateWhere None None) "month"
  = [ ContributionController.mkPeriodStat "2024-01" 15%float 2 7.5%float;
      ContributionController.mkPeriodStat "2024-02" 20.25%float 1 20.25%float ].
Proof. vm_compute. reflexivity. Qed.

(** With year keys the entries come out in ascending numeric order. *)
Example entries_integer_keys_first :
  Js.entries [("b", 1%Z); ("2024", 2%Z); ("a", 3%Z); ("2023", 4%Z)]
  = [("2023", 4%Z); ("2024", 2%Z); ("b", 1%Z); ("a", 3%Z)].
Proof. reflexivity. Qed.

(** C7: the contributions the statistic works on are those matching the
    filter; the period key of a contribution is year-month for 'month',
    year-quarter with quarter = floor(month / 3) + 1 for 'quarter', the
    year for 'year' and the calendar day otherwise; every contribution
    falls in exactly one emitted period (the emitted periods are pairwise
    distinct and each contribution's period is among them); and for each
    emitted period, count is the number of its contributions and at least
    1, totalAmount is the sum of their amounts and averageAmount is
    totalAmount divided by count. *)
Theorem periodicStats_by_period (st : Store) (w : ContributionController.DateWhere)
        (groupBy : string) :
  let contribs := ContributionController.findContributions st w in
  let stats := ContributionController.getPeriodicStats st w groupBy in
  Permutation contribs
              (List.filter (ContributionController.dateMatches w) (contributions st)) /\
  (forall date,
      ContributionController.periodKeyOf "month" date
      = Js.String_ (getFullYear date) ++ "-"
        ++ Js.padStart2 (Js.String_ (getMonth date + 1)) /\
      ContributionController.periodKeyOf "quarter" date
      = Js.String_ (getFullYear date) ++ "-Q" ++ Js.String_ (getMonth date / 3 + 1) /\
      ContributionController.periodKeyOf "year" date = Js.String_ (getFullYear date) /\
      (groupBy <> "month" -> groupBy <> "quarter" -> groupBy <> "year" ->
       ContributionController.periodKeyOf groupBy date = toISODate date)) /\
  NoDup (List.map ContributionController.period stats) /\
  (forall c, In c contribs ->
             exists s, In s stats /\ ContributionController.period s = periodOf groupBy c) /\
  (forall s, In s stats ->
      let group := inPeriod groupBy (ContributionController.period s) contribs in
      group <> [] /\
      ContributionController.count s = Z.of_nat (List.length group) /\
      (1 <= ContributionController.count s)%Z /\
      ContributionController.totalAmount s = sumAmounts group /\
      ContributionController.averageAmount s
      = PrimFloat.div (ContributionController.totalAmount s)
                      (ContributionController.numberOf (ContributionController.count s))).
Proof.
  intros contribs stats.
  pose proof (Grouped_all groupBy contribs) as [Hnd Hget].
  set (G := List.fold_left (ContributionController.addContribution groupBy) contribs [])
    in Hnd, Hget.
  assert (Hstats : stats = List.map
                     (fun '(p, b) =>
                        ContributionController.mkPeriodStat
                          p (ContributionController.amount b)
                          (ContributionController.count_ b)
                          (PrimFloat.div (ContributionController.amount b)
                             (ContributionController.numberOf
                                (ContributionController.count_ b))))
                     (Js.entries G)) by reflexivity.
  split; [|split; [|split; [|split]]].
  - apply sortByDate_perm.
  - intros date. repeat split.
    intros H1 H2 H3. unfold ContributionController.periodKeyOf.
    apply String.eqb_neq in H1, H2, H3. rewrite H1, H2, H3. reflexivity.
  - rewrite Hstats, List.map_map.
    rewrite (List.map_ext _ fst) by (intros [p b]; reflexivity).
    apply (Permutation_NoDup (l := List.map fst G)); [|exact Hnd].
    apply Permutation_map, Permutation_sym, entries_perm.
  - intros c Hc.
    pose proof (Hget (periodOf groupBy c)) as Hk.
    destruct (inPeriod groupBy (periodOf groupBy c) contribs) as [|c0 l0] eqn:P.
    + exfalso. assert (Hin : In c (inPeriod groupBy (periodOf groupBy c) contribs)).
      { apply List.filter_In. split; [exact Hc|apply String.eqb_refl]. }
      rewrite P in Hin. exact Hin.
    + apply get_In in Hk.
      apply (Permutation_in _ (Permutation_sym (entries_perm G))) in Hk.
      rewrite Hstats. eexists. split.
      * apply List.in_map_iff. eexists. split; [reflexivity|exact Hk].
      * reflexivity.
  - intros s Hs. rewrite Hstats in Hs. apply List.in_map_iff in Hs.
    destruct Hs as [[p b] [<- Hin]].
    apply (Permutation_in _ (entries_perm G)) in Hin.
    apply (@In_get _ G p b Hnd) in Hin. rewrite Hget in Hin.
    cbn [ContributionController.period ContributionController.count
         ContributionController.totalAmount ContributionController.averageAmount].
    destruct (inPeriod groupBy p contribs) as [|c0 l0] eqn:P; [discriminate|].
    injection Hin as <-. unfold bucketOf. rewrite P.
    cbn [ContributionController.amount ContributionController.count_].
    repeat split; try discriminate. cbn [List.length]. lia.
Qed.

(** ** Event registration and capacity *)

Section CountFacts.
Variable Row : Type.

Lemma count_app (p : Row -> bool) (l l' : list Row) :
  count p (l ++ l') = (count p l + count p l')%Z.
Proof.
  unfold count. rewrite List.filter_app, List.length_app. lia.
Qed.

Lemma count_updateFirst_le (p q : Row -> bool) (f : Row -> Row) (l : list Row) :
  (count p (updateFirst q f l) <= count p l + 1)%Z.
Proof.
  induction l as [|r l IH]; cbn [updateFirst].
  - lia.
  - destruct (q r).
    + rewrite !count_cons. pose proof (count_nonneg p l).
      unfold oneIf. destruct (p (f r)), (p r); lia.
    + rewrite !count_cons. lia.
Qed.

Lemma count_updateFirst_same (p q : Row -> bool) (f : Row -> Row) (l : list Row) :
  (forall r, In r l -> q r = true -> p (f r) = p r) ->
  count p (updateFirst q f l) = count p l.
Proof.
  induction l as [|r l IH]; cbn [updateFirst]; intros H; [reflexivity|].
  destruct (q r) eqn:Q.
  - rewrite !count_cons, (H r (or_introl eq_refl) Q). reflexivity.
  - rewrite !count_cons, IH; [reflexivity|].
    intros r' Hin. apply H. right. exact Hin.
Qed.

Lemma count_updateFirst_decr (p q : Row -> bool) (f : Row -> Row) (l : list Row) :
  (forall r, p (f r) = false) ->
  (count p (updateFirst q f l) <= count p l)%Z.
Proof.
  intros Hf. induction l as [|r l IH]; cbn [updateFirst].
  - lia.
  - destruct (q r).
    + rewrite !count_cons, Hf. unfold oneIf. destruct (p r); lia.
    + rewrite !count_cons. lia.
Qed.

Lemma NoDup_key_eq (key : Row -> string) (l : list Row) (x y : Row) :
  NoDup (List.map key l) -> In x l -> In y l -> key x = key y -> x = y.
Proof.
  induction l as [|r l IH]; simpl; [tauto|].
  intros Hnd Hx Hy Hk. inversion Hnd as [|? ? Hnin Hnd']; subst.
  destruct Hx as [->|Hx], Hy as [->|Hy].
  - reflexivity.
  - exfalso. apply Hnin. rewrite Hk. apply List.in_map. exact Hy.
  - exfalso. apply Hnin. rewrite <- Hk. apply List.in_map. exact Hx.
  - exact (IH Hnd' Hx Hy Hk).
Qed.

End CountFacts.

(** No event with a non-zero [maxAttendees] has more active registrations
    than that. *)
Definition withinCapacity (st : Store) : Prop :=
  forall e m, In e (events st) -> ev_maxAttendees e = Some m -> m <> 0%Z ->
              (EventController.activeRegistrations st (ev_id e) <= m)%Z.

(** The stores reached from [st0] by registration and cancellation
    requests handled one after the other; the database gives each created
    row a key that is not in use. *)
Inductive afterRegistrations (st0 : Store) : Store -> Prop :=
| registrations_none : afterRegistrations st0 st0
| registrations_register (st : Store) (now : Z) (uuid id : string)
                         (memberId notes : Js.Raw) :
    afterRegistrations st0 st ->
    ~ In uuid (List.map reg_id (eventRegistrations st)) ->
    afterRegistrations st0
      (fst (EventController.registerForEvent now uuid st id memberId notes))
| registrations_cancel (st : Store) (id memberId : string) :
    afterRegistrations st0 st ->
    afterRegistrations st0 (fst (EventController.cancelRegistration st id memberId)).

(** The request was turned down and the store kept: first disjunct of
    the case analysis below. *)
Ltac turned_down := left; split; [reflexivity | eexists; reflexivity].

(** The two ways a registration request changes the store. *)
Lemma registerForEvent_cases (now : Z) (uuid : string) (st : Store)
      (id : string) (memberId notes : Js.Raw) :
  let st' := fst (EventController.registerForEvent now uuid st id memberId notes) in
  let out := snd (EventController.registerForEvent now uuid st id memberId notes) in
  (st' = st /\ exists e, out = Next e) \/
  (exists event mid text,
      memberId = Js.Str (Js.Value mid) /\ notes = Js.Str text /\
      List.find (fun e => (ev_id e =? id) && ev_isActive e) (events st) = Some event /\
      EventController.isFull event (EventController.activeRegistrations st id) = false /\
      out = ok 201 "Registered for event successfully" /\
      ((exists existing,
           In existing (eventRegistrations st) /\ reg_eventId existing = id /\
           reg_isActive existing = false /\
           st' = setEventRegistrations st
                   (updateFirst (fun r => reg_id r =? reg_id existing)
                                (EventController.reactivateRegistration text)
                                (eventRegistrations st))) \/
       st' = setEventRegistrations st
               (eventRegistrations st
                ++ [mkEventRegistration uuid id mid true (Js.toColumn text)]))).
Proof.
  cbv zeta. unfold EventController.registerForEvent.
  destruct (negb (Js.truthy id) || negb (Js.truthyRaw memberId))%bool eqn:Hreq;
    [turned_down|].
  destruct (List.find (fun e => (ev_id e =? id) && ev_isActive e) (events st))
    as [event|] eqn:Hev; [|turned_down].
  destruct (EventController.deadlinePassed now event);
    [turned_down|].
  destruct (EventController.isFull event _) eqn:Hfull;
    [turned_down|].
  destruct memberId as [[| |mid]|other]; try turned_down.
  destruct (List.find (fun m => mem_id m =? mid) (members st));
    [|turned_down].
  destruct (List.find _ (eventRegistrations st)) as [existing|] eqn:Hreg.
  - destruct (reg_isActive existing) eqn:Hact;
      [turned_down|].
    destruct notes as [text|other]; [|turned_down].
    right. exists event, mid, text.
    split; [reflexivity|]. split; [reflexivity|]. split; [reflexivity|].
    split; [exact Hfull|].
    split; [reflexivity|]. left. exists existing.
    apply List.find_some in Hreg. destruct Hreg as [Hin Hk].
    apply andb_true_iff in Hk. destruct Hk as [Hk _]. apply String.eqb_eq in Hk.
    split; [exact Hin|]. split; [exact Hk|]. split; [exact Hact|reflexivity].
  - destruct notes as [text|other]; [|turned_down].
    right. exists event, mid, text.
    split; [reflexivity|]. split; [reflexivity|]. split; [reflexivity|].
    split; [exact Hfull|].
    split; [reflexivity|]. right. reflexivity.
Qed.

Lemma find_active_event (st : Store) (id : string) (e event : Event) :
  PrimaryKeys st -> In e (events st) -> ev_id e = id ->
  List.find (fun e' => (ev_id e' =? id) && ev_isActive e') (events st) = Some event ->
  event = e.
Proof.
  intros Hpk Hin Hid Hf. apply List.find_some in Hf. destruct Hf as [Hin' Hk].
  apply andb_true_iff in Hk. destruct Hk as [Hk _]. apply String.eqb_eq in Hk.
  apply (@NoDup_key_eq _ ev_id (events st)); [apply (pk_events Hpk) | assumption..|congruence].
Qed.

Lemma isFull_false (event : Event) (m n : Z) :
  ev_maxAttendees event = Some m -> m <> 0%Z ->
  EventController.isFull event n = false -> (n < m)%Z.
Proof.
  unfold EventController.isFull, Js.truthyNum. intros -> Hm.
  apply Z.eqb_neq in Hm. rewrite Hm. simpl. intros H.
  rewrite Z.geb_leb in H. apply Z.leb_gt in H. exact H.
Qed.

Lemma isFull_true (event : Event) (m n : Z) :
  ev_maxAttendees event = Some m -> m <> 0%Z -> (m <= n)%Z ->
  EventController.isFull event n = true.
Proof.
  unfold EventController.isFull, Js.truthyNum. intros -> Hm Hn.
  apply Z.eqb_neq in Hm. rewrite Hm. simpl. rewrite Z.geb_leb. apply Z.leb_le. exact Hn.
Qed.

Lemma registerForEvent_keeps_capacity (now : Z) (uuid : string) (st : Store)
      (id : string) (memberId notes : Js.Raw) :
  PrimaryKeys st -> withinCapacity st ->
  withinCapacity (fst (EventController.registerForEvent now uuid st id memberId notes)).
Proof.
  intros Hpk Hcap.
  pose proof (registerForEvent_cases now uuid st id memberId notes) as Hcases.
  cbv zeta in Hcases.
  destruct Hcases as [[Hsame _]|(event & mid & text & _ & _ & Hev & Hfull & _ & Hst)];
    [rewrite Hsame; exact Hcap|].
  intros e m Hin Hmax Hm.
  assert (Hin0 : In e (events st))
    by (destruct Hst as [(? & _ & _ & _ & Hst)|Hst]; rewrite Hst in Hin; exact Hin).
  specialize (Hcap e m Hin0 Hmax Hm).
  unfold EventController.activeRegistrations in *.
  destruct (String.eqb_spec (ev_id e) id) as [Heq|Hne].
  - (* the event of the request: it was not full *)
    assert (event = e) by (exact (@find_active_event st id e event Hpk Hin0 Heq Hev)).
    subst event.
    pose proof (@isFull_false e m _ Hmax Hm Hfull) as Hlt.
    unfold EventController.activeRegistrations in Hlt. rewrite <- Heq in Hlt.
    destruct Hst as [(existing & _ & _ & _ & Hst)|Hst]; rewrite Hst; simpl.
    + pose proof (count_updateFirst_le
                    (fun r => (reg_eventId r =? ev_id e) && reg_isActive r)
                    (fun r => reg_id r =? reg_id existing)
                    (EventController.reactivateRegistration text)
                    (eventRegistrations st)). lia.
    + rewrite count_app. unfold count at 2. simpl.
      destruct (_ && _)%bool; simpl; lia.
  - (* another event: its registrations are untouched *)
    destruct Hst as [(existing & Hex & Hexid & _ & Hst)|Hst]; rewrite Hst; simpl.
    + rewrite count_updateFirst_same; [exact Hcap|].
      intros r Hr Hq. apply String.eqb_eq in Hq.
      assert (r = existing)
        by (exact (@NoDup_key_eq _ reg_id _ r existing (pk_eventRegistrations Hpk) Hr Hex Hq)).
      subst r. simpl. rewrite Hexid.
      apply String.eqb_neq in Hne. rewrite String.eqb_sym, Hne. reflexivity.
    + rewrite count_app. unfold count at 2. simpl.
      apply String.eqb_neq in Hne. rewrite String.eqb_sym, Hne. simpl. lia.
Qed.

Lemma registerForEvent_keeps_keys (now : Z) (uuid : string) (st : Store)
      (id : string) (memberId notes : Js.Raw) :
  PrimaryKeys st -> ~ In uuid (List.map reg_id (eventRegistrations st)) ->
  PrimaryKeys (fst (EventController.registerForEvent now uuid st id memberId notes)).
Proof.
  intros Hpk Hfresh.
  pose proof (registerForEvent_cases now uuid st id memberId notes) as Hcases.
  cbv zeta in Hcases.
  destruct Hcases as [[Hsame _]|(event & mid & text & _ & _ & _ & _ & _ & Hst)];
    [rewrite Hsame; exact Hpk|].
  destruct Hpk as [H1 H2 H3 H4 H5].
  destruct Hst as [(existing & _ & _ & _ & Hst)|Hst]; rewrite Hst; split; simpl;
    try assumption.
  - rewrite map_updateFirst; [exact H5|reflexivity].
  - rewrite List.map_app. simpl. apply NoDup_app; [exact H5| |].
    + repeat constructor. simpl. tauto.
    + intros x Hx [<-|[]]. exact (Hfresh Hx).
Qed.

Lemma cancelRegistration_keeps (st : Store) (id memberId : string) :
  PrimaryKeys st -> withinCapacity st ->
  PrimaryKeys (fst (EventController.cancelRegistration st id memberId)) /\
  withinCapacity (fst (EventController.cancelRegistration st id memberId)).
Proof.
  intros Hpk Hcap. unfold EventController.cancelRegistration.
  destruct (_ || _)%bool; [split; assumption|].
  destruct (List.find _ (eventRegistrations st)) as [registration|];
    [|split; assumption].
  destruct (negb (reg_isActive registration)); [split; assumption|].
  simpl. split.
  - destruct Hpk as [H1 H2 H3 H4 H5]. split; simpl; try assumption.
    rewrite map_updateFirst; [exact H5|reflexivity].
  - intros e m Hin Hmax Hm. specialize (Hcap e m Hin Hmax Hm).
    unfold EventController.activeRegistrations in *. simpl.
    pose proof (count_updateFirst_decr
                  (fun r => (reg_eventId r =? ev_id e) && reg_isActive r)
                  (fun r => reg_id r =? reg_id registration)
                  EventController.cancel (eventRegistrations st)) as Hle.
    assert (forall r : EventRegistration,
               (reg_eventId (EventController.cancel r) =? ev_id e)
               && reg_isActive (EventController.cancel r) = false)
      by (intros r; apply andb_false_r).
    specialize (Hle H). lia.
Qed.

(** A retreat for two with two active registrations. *)
Definition crowdedStore : Store :=
  setEventRegistrations
    (setEvents sampleStore
               [mkEvent "ev-1" "Retreat" true (Some 2%Z) false None None; bazaar])
    [mkEventRegistration "reg-1" "ev-1" "m-1" true None;
     mkEventRegistration "reg-2" "ev-3" "m-1" true None;
     mkEventRegistration "reg-3" "ev-1" "m-3" true None].

(** The body [{ "maxAttendees": 1 }]. *)
Definition shrinkToOne : EventController.EventBody :=
  EventController.mkEventBody Js.Undefined None None (Js.Value 1%Z)
                              Js.Undefined Js.Undefined Js.Undefined Js.Undefined
                              Js.Undefined.

(** C8, counterexample: the bazaar has reached its maxAttendees of 1, and
    it is inactive; the registration request is answered with 404, not
    with 400 'Event is full'.  And an update request that lowers
    maxAttendees, which the database accepts, leaves an event with more
    active registrations (2) than its maxAttendees (1). *)
Lemma registerForEvent_full_inactive_event_404 :
  (In bazaar (events sampleStore) /\
   ev_maxAttendees bazaar = Some 1%Z /\
   EventController.activeRegistrations sampleStore "ev-3" = 1%Z /\
   EventController.registerForEvent 0 "reg-9" sampleStore "ev-3"
     (Js.Str (Js.Value "m-3")) (Js.Str Js.Undefined)
   = (sampleStore, Next (ApiError 404 "Event not found or inactive" None)) /\
   reply false (Next (ApiError 404 "Event not found or inactive" None))
   = Some (mkResponse 404 false "Event not found or inactive" false)) /\
  (let st' := fst (EventController.updateEvent (fun _ => false) (fun _ _ => false)
                     [] crowdedStore "ev-1" shrinkToOne) in
   snd (EventController.updateEvent (fun _ => false) (fun _ _ => false)
          [] crowdedStore "ev-1" shrinkToOne)
   = ok 200 "Event updated successfully" /\
   option_map ev_maxAttendees (List.find (fun e => ev_id e =? "ev-1") (events st'))
   = Some (Some 1%Z) /\
   EventController.activeRegistrations st' "ev-1" = 2%Z).
Proof. split; [repeat split; simpl; auto | repeat split]. Qed.

(** C8, as amended: a registration request that names an event and a
    member, on an active event whose registration deadline has not passed
    and whose non-zero maxAttendees is reached by its active registrations,
    fails with status 400 'Event is full'; a request on any event at
    capacity, active or not, fails and leaves every registration row as it
    was; and registration and cancellation requests handled one after the
    other never take the active registrations of an event above its
    non-zero maxAttendees. *)
Theorem registration_respects_capacity :
  (forall now uuid st id mid notes event m,
      id <> "" -> mid <> "" ->
      List.find (fun e => (ev_id e =? id) && ev_isActive e) (events st) = Some event ->
      EventController.deadlinePassed now event = false ->
      ev_maxAttendees event = Some m -> m <> 0%Z ->
      (m <= EventController.activeRegistrations st id)%Z ->
      EventController.registerForEvent now uuid st id (Js.Str (Js.Value mid)) notes
      = (st, Next (ApiError 400 "Event is full" None)) /\
      reply false (Next (ApiError 400 "Event is full" None))
      = Some (mkResponse 400 false "Event is full" false)) /\
  (forall now uuid st id memberId notes event m,
      PrimaryKeys st -> In event (events st) -> ev_id event = id ->
      ev_maxAttendees event = Some m -> m <> 0%Z ->
      (m <= EventController.activeRegistrations st id)%Z ->
      exists e,
        EventController.registerForEvent now uuid st id memberId notes = (st, Next e)) /\
  (forall st0 st,
      PrimaryKeys st0 -> withinCapacity st0 -> afterRegistrations st0 st ->
      withinCapacity st).
Proof.
  split; [|split].
  - intros now uuid st id mid notes event m Hid Hmid Hev Hdl Hmax Hm Hn.
    split; [|reflexivity].
    unfold EventController.registerForEvent.
    apply truthy_true in Hid, Hmid. simpl. rewrite Hid, Hmid, Hev, Hdl. simpl.
    rewrite (@isFull_true event m _ Hmax Hm Hn). reflexivity.
  - intros now uuid st id memberId notes event m Hpk Hin Hid Hmax Hm Hn.
    pose proof (registerForEvent_cases now uuid st id memberId notes) as Hcases.
    cbv zeta in Hcases.
    destruct (EventController.registerForEvent now uuid st id memberId notes)
      as [st' out].
    simpl in Hcases.
    destruct Hcases as [[-> [e ->]]|(ev & mid & text & _ & _ & Hev & Hfull & _)].
    + exists e. reflexivity.
    + exfalso.
      assert (ev = event) by (exact (@find_active_event st id event ev Hpk Hin Hid Hev)).
      subst ev. rewrite (@isFull_true event m _ Hmax Hm Hn) in Hfull. discriminate.
  - intros st0 st Hpk Hcap Hreach.
    assert (H : PrimaryKeys st /\ withinCapacity st).
    { induction Hreach as [|st now uuid id memberId notes Hreach IH Hfresh
                            |st id memberId Hreach IH].
      - split; assumption.
      - destruct IH as [IH1 IH2]. split.
        + apply registerForEvent_keeps_keys; assumption.
        + apply registerForEvent_keeps_capacity; assumption.
      - destruct IH as [IH1 IH2]. apply cancelRegistration_keeps; assumption. }
    exact (proj2 H).
Qed.

(** The first clause on the retreat of the sample, which is active, has
    room for one attendee and holds one active registration. *)
Lemma registration_respects_capacity_witness :
  EventController.registerForEvent 7 "reg-9" sampleStore "ev-1"
    (Js.Str (Js.Value "m-3")) (Js.Str Js.Undefined)
  = (sampleStore, Next (ApiError 400 "Event is full" None)).
Proof.
  destruct registration_respects_capacity as [H _].
  apply (H 7%Z "reg-9" sampleStore "ev-1" "m-3" (Js.Str Js.Undefined) retreat 1%Z).
  - discriminate.
  - discriminate.
  - reflexivity.
  - reflexivity.
  - reflexivity.
  - discriminate.
  - discriminate.
Defined.

(** ** Ministry membership *)

(** The pair a membership row stands for. *)
Definition pairOf (m : MemberMinistry) : string * string :=
  (mm_memberId m, mm_ministryId m).

(** The pair a row of the [ministryMember] model stands for. *)
Definition memberPairOf (m : MinistryMember) : string * string :=
  (mmb_memberId m, mmb_ministryId m).

(** Each (memberId, ministryId) pair has at most one membership row, in
    either membership table. *)
Definition uniquePairs (st : Store) : Prop :=
  NoDup (List.map pairOf (memberMinistries st)) /\
  NoDup (List.map memberPairOf (ministryMembers st)).

Lemma findMembership_Some (st : Store) (memberId ministryId : string) (m : MemberMinistry) :
  MinistryController.findMembership st memberId ministryId = Some m ->
  In m (memberMinistries st) /\ pairOf m = (memberId, ministryId).
Proof.
  unfold MinistryController.findMembership. intros H.
  apply List.find_some in H. destruct H as [Hin Hk].
  apply andb_true_iff in Hk. destruct Hk as [H1 H2].
  apply String.eqb_eq in H1, H2. unfold pairOf. rewrite H1, H2. auto.
Qed.

Lemma findMembership_None (st : Store) (memberId ministryId : string) :
  MinistryController.findMembership st memberId ministryId = None ->
  ~ In (memberId, ministryId) (List.map pairOf (memberMinistries st)).
Proof.
  unfold MinistryController.findMembership. intros H Hin.
  apply List.in_map_iff in Hin. destruct Hin as [m [Hp Hin]].
  pose proof (List.find_none _ _ H m Hin) as Hk. simpl in Hk.
  unfold pairOf in Hp. injection Hp as H1 H2. rewrite H1, H2 in Hk.
  rewrite !String.eqb_refl in Hk. discriminate.
Qed.

Lemma find_pair_updateFirst (l : list MemberMinistry) (memberId ministryId : string)
      (f : MemberMinistry -> MemberMinistry) (existing : MemberMinistry) :
  NoDup (List.map mm_id l) ->
  (forall r, pairOf (f r) = pairOf r) ->
  List.find (fun m => (mm_memberId m =? memberId) && (mm_ministryId m =? ministryId)) l
  = Some existing ->
  List.find (fun m => (mm_memberId m =? memberId) && (mm_ministryId m =? ministryId))
            (updateFirst (fun m => mm_id m =? mm_id existing) f l)
  = Some (f existing).
Proof.
  intros Hnd Hf. induction l as [|r l IH]; simpl; [discriminate|].
  inversion Hnd as [|? ? Hnin Hnd']; subst.
  destruct ((mm_memberId r =? memberId) && (mm_ministryId r =? ministryId))%bool eqn:K.
  - intros H. injection H as <-. rewrite String.eqb_refl. simpl.
    pose proof (Hf r) as Hp. unfold pairOf in Hp. injection Hp as H1 H2.
    rewrite H1, H2, K. reflexivity.
  - intros H. pose proof (List.find_some _ _ H) as [Hin _].
    destruct (mm_id r =? mm_id existing) eqn:E.
    + exfalso. apply String.eqb_eq in E. apply Hnin. rewrite E.
      apply List.in_map. exact Hin.
    + simpl. rewrite K. exact (IH Hnd' H).
Qed.

(** How the two operations that add a membership change the table. *)
Inductive Added (st : Store) (memberId ministryId role : string) (uuid : string)
  : Store -> Prop :=
| added_nothing : Added st memberId ministryId role uuid st
| added_reactivated (existing : MemberMinistry) :
    MinistryController.findMembership st memberId ministryId = Some existing ->
    mm_isActive existing = false ->
    Added st memberId ministryId role uuid
          (setMemberMinistries st
             (updateFirst (fun m => mm_id m =? mm_id existing)
                          (MinistryController.setMembership true role)
                          (memberMinistries st)))
| added_created :
    MinistryController.findMembership st memberId ministryId = None ->
    Added st memberId ministryId role uuid
          (setMemberMinistries st
             (memberMinistries st ++ [mkMemberMinistry uuid memberId ministryId role true])).

Lemma Added_uniquePairs (st st' : Store) (memberId ministryId role uuid : string) :
  Added st memberId ministryId role uuid st' -> uniquePairs st -> uniquePairs st'.
Proof.
  unfold uniquePairs. intros [|existing Hf Hact|Hf] [Hu Hu']; simpl.
  - split; assumption.
  - split; [|exact Hu']. rewrite map_updateFirst; [exact Hu|reflexivity].
  - split; [|exact Hu'].
    rewrite List.map_app. simpl. apply NoDup_app; [exact Hu| |].
    + repeat constructor. simpl. tauto.
    + intros x Hx [<-|[]]. exact (findMembership_None _ _ _ Hf Hx).
Qed.

Lemma addToMinistry_Added (uuid : string) (st : Store)
      (memberId ministryId : string) (role : option string) :
  Added st memberId ministryId (match role with Some r => r | None => "member" end) uuid
        (fst (MemberService.addToMinistry uuid st memberId ministryId role)).
Proof.
  unfold MemberService.addToMinistry.
  destruct (List.find _ (members st)); [|constructor].
  destruct (List.find _ (ministries st)); [|constructor].
  destruct (MinistryController.findMembership st memberId ministryId) as [ex|] eqn:F.
  - destruct (mm_isActive ex) eqn:A; [constructor|].
    simpl. apply added_reactivated; assumption.
  - simpl. apply added_created. exact F.
Qed.

Lemma addMemberToMinistry_Added (uuid : string) (st : Store)
      (id : string) (memberId role : option string) :
  Added st (match memberId with Some m => m | None => "" end) id
        (match role with Some r => r | None => "member" end) uuid
        (fst (MinistryController.addMemberToMinistry uuid st id memberId role)).
Proof.
  unfold MinistryController.addMemberToMinistry.
  destruct (_ || _)%bool; [constructor|].
  destruct (List.find _ (ministries st)); [|constructor].
  destruct (List.find _ (members st)); [|constructor].
  destruct (MinistryController.findMembership st _ id) as [ex|] eqn:F.
  - destruct (mm_isActive ex) eqn:A; [constructor|].
    simpl. apply added_reactivated; assumption.
  - simpl. apply added_created. exact F.
Qed.

(** The rows of the table with their [isActive] column masked: what a
    removal may not change. *)
Definition rowsButActive (st : Store) : list (string * string * string * string) :=
  List.map (fun m => (mm_id m, mm_memberId m, mm_ministryId m, mm_role m))
           (memberMinistries st).

Lemma removeFromMinistry_rows (st : Store) (memberId ministryId : string) :
  rowsButActive (fst (MemberService.removeFromMinistry st memberId ministryId))
  = rowsButActive st.
Proof.
  unfold MemberService.removeFromMinistry, rowsButActive.
  destruct (MinistryController.findMembership st memberId ministryId); [|reflexivity].
  simpl. apply map_updateFirst. reflexivity.
Qed.

Lemma removeMemberFromMinistry_rows (st : Store) (id memberId : string) :
  rowsButActive (fst (MinistryController.removeMemberFromMinistry st id memberId))
  = rowsButActive st.
Proof.
  unfold MinistryController.removeMemberFromMinistry, rowsButActive.
  destruct (_ || _)%bool; [reflexivity|].
  destruct (MinistryController.findMembership st memberId id) as [m|]; [|reflexivity].
  destruct (negb (mm_isActive m)); [reflexivity|].
  simpl. apply map_updateFirst. reflexivity.
Qed.

Lemma rowsButActive_pairs (st st' : Store) :
  rowsButActive st' = rowsButActive st ->
  List.map pairOf (memberMinistries st') = List.map pairOf (memberMinistries st).
Proof.
  unfold rowsButActive. intros H.
  apply (f_equal (List.map (fun r : string * string * string * string =>
                              (snd (fst (fst r)), snd (fst r))))) in H.
  rewrite !List.map_map in H. exact H.
Qed.

(** The rows of the [ministryMember] table with [isActive] masked. *)
Definition memberRowsButActive (st : Store)
  : list (string * string * string * string * Z) :=
  List.map (fun m => (mmb_id m, mmb_ministryId m, mmb_memberId m, mmb_role m, mmb_joinedAt m))
           (ministryMembers st).

Lemma findMinistryMember_None (st : Store) (ministryId memberId : string) :
  MinistryController.findMinistryMember st ministryId memberId = None ->
  ~ In (memberId, ministryId) (List.map memberPairOf (ministryMembers st)).
Proof.
  unfold MinistryController.findMinistryMember. intros H Hin.
  apply List.in_map_iff in Hin. destruct Hin as [m [Hp Hin]].
  pose proof (List.find_none _ _ H m Hin) as Hk. simpl in Hk.
  unfold memberPairOf in Hp. injection Hp as H1 H2. rewrite H1, H2 in Hk.
  rewrite !String.eqb_refl in Hk. discriminate.
Qed.

Lemma addMember_uniquePairs (errors : list string) (now : Z) (uuid : string) (st : Store)
      (id : string) (memberId role : option string) :
  uniquePairs st ->
  uniquePairs (fst (MinistryController.addMember errors now uuid st id memberId role)).
Proof.
  intros [Hu Hu']. unfold MinistryController.addMember.
  destruct errors; [|split; assumption].
  destruct (List.find _ (ministries st)); [|split; assumption].
  destruct memberId as [memberId|]; [|split; assumption].
  destruct (List.find _ (members st)); [|split; assumption].
  destruct (MinistryController.findMinistryMember st id memberId) as [ex|] eqn:F.
  - destruct (mmb_isActive ex); [split; assumption|].
    split; [exact Hu|]. simpl. rewrite map_updateFirst; [exact Hu'|reflexivity].
  - split; [exact Hu|]. simpl. rewrite List.map_app. simpl.
    apply NoDup_app; [exact Hu'| |].
    + repeat constructor. simpl. tauto.
    + intros x Hx [<-|[]]. exact (findMinistryMember_None _ _ _ F Hx).
Qed.

Lemma removeMember_rows (st : Store) (id memberId : string) :
  memberRowsButActive (fst (MinistryController.removeMember st id memberId))
  = memberRowsButActive st /\
  memberMinistries (fst (MinistryController.removeMember st id memberId))
  = memberMinistries st.
Proof.
  unfold MinistryController.removeMember, memberRowsButActive.
  destruct (MinistryController.findMinistryMember st id memberId) as [m|];
    [|split; reflexivity].
  destruct (negb (mmb_isActive m)); [split; reflexivity|].
  simpl. split; [|reflexivity]. apply map_updateFirst. reflexivity.
Qed.

Lemma updateMemberRole_pairs (errors : list string) (st : Store) (id memberId role : string) :
  List.map memberPairOf
           (ministryMembers (fst (MinistryController.updateMemberRole errors st id memberId role)))
  = List.map memberPairOf (ministryMembers st) /\
  memberMinistries (fst (MinistryController.updateMemberRole errors st id memberId role))
  = memberMinistries st.
Proof.
  unfold MinistryController.updateMemberRole.
  destruct errors; [|split; reflexivity].
  destruct (MinistryController.findMinistryMember st id memberId) as [m|];
    [|split; reflexivity].
  destruct (negb (mmb_isActive m)); [split; reflexivity|].
  simpl. split; [|reflexivity]. apply map_updateFirst. reflexivity.
Qed.

Lemma memberRowsButActive_pairs (st st' : Store) :
  memberRowsButActive st' = memberRowsButActive st ->
  List.map memberPairOf (ministryMembers st') = List.map memberPairOf (ministryMembers st).
Proof.
  unfold memberRowsButActive. intros H.
  apply (f_equal (List.map (fun r : string * string * string * string * Z =>
                              (snd (fst (fst r)), snd (fst (fst (fst r))))))) in H.
  rewrite !List.map_map in H. exact H.
Qed.

Lemma removeFromMinistry_others (st : Store) (memberId ministryId : string) :
  ministryMembers (fst (MemberService.removeFromMinistry st memberId ministryId))
  = ministryMembers st.
Proof.
  unfold MemberService.removeFromMinistry.
  destruct (MinistryController.findMembership st memberId ministryId); reflexivity.
Qed.

Lemma removeMemberFromMinistry_others (st : Store) (id memberId : string) :
  ministryMembers (fst (MinistryController.removeMemberFromMinistry st id memberId))
  = ministryMembers st.
Proof.
  unfold MinistryController.removeMemberFromMinistry.
  destruct (_ || _)%bool; [reflexivity|].
  destruct (MinistryController.findMembership st memberId id) as [m|]; [|reflexivity].
  destruct (negb (mm_isActive m)); reflexivity.
Qed.

(** C9: adding or removing a ministry member or changing a member's
    role, through the service or through the controller, keeps at most one
    membership row per (memberId, ministryId) pair; adding a member whose
    row is active is refused with a conflict (409); adding one whose row is
    inactive rewrites that row in place, active and with the new role,
    without adding a row; removing a member, through the service or
    through either handler, leaves the row in the table with its isActive
    flag false and changes no other column and no other row. *)
Theorem membership_rows_unique :
  (forall st, uniquePairs st ->
      (forall uuid memberId ministryId role,
          uniquePairs (fst (MemberService.addToMinistry uuid st memberId ministryId role))) /\
      (forall memberId ministryId,
          uniquePairs (fst (MemberService.removeFromMinistry st memberId ministryId))) /\
      (forall uuid id memberId role,
          uniquePairs (fst (MinistryController.addMemberToMinistry uuid st id memberId role))) /\
      (forall id memberId,
          uniquePairs (fst (MinistryController.removeMemberFromMinistry st id memberId))) /\
      (forall errors now uuid id memberId role,
          uniquePairs (fst (MinistryController.addMember errors now uuid st id memberId role))) /\
      (forall id memberId,
          uniquePairs (fst (MinistryController.removeMember st id memberId))) /\
      (forall errors id memberId role,
          uniquePairs (fst (MinistryController.updateMemberRole errors st id memberId role)))) /\
  (forall uuid st memberId ministryId role member ministry existing,
      List.find (fun m => mem_id m =? memberId) (members st) = Some member ->
      List.find (fun m => min_id m =? ministryId) (ministries st) = Some ministry ->
      MinistryController.findMembership st memberId ministryId = Some existing ->
      mm_isActive existing = true ->
      MemberService.addToMinistry uuid st memberId ministryId role
      = (st, Throw (ConflictError "Member is already part of this ministry")) /\
      (memberId <> "" -> ministryId <> "" ->
       MinistryController.addMemberToMinistry uuid st ministryId (Some memberId) role
       = (st, Next (ApiError 409 "Member is already active in this ministry" None))) /\
      (forall now joined,
          MinistryController.findMinistryMember st ministryId memberId = Some joined ->
          mmb_isActive joined = true ->
          MinistryController.addMember [] now uuid st ministryId (Some memberId) role
          = (st, Next (ApiError 409 "Member is already in this ministry" None))) /\
      option_map res_status
        (errorHandler false (ConflictError "Member is already part of this ministry"))
      = Some 409%Z /\
      option_map res_status
        (errorHandler false (ApiError 409 "Member is already active in this ministry" None))
      = Some 409%Z) /\
  (forall uuid st memberId ministryId role member ministry existing,
      PrimaryKeys st ->
      List.find (fun m => mem_id m =? memberId) (members st) = Some member ->
      List.find (fun m => min_id m =? ministryId) (ministries st) = Some ministry ->
      MinistryController.findMembership st memberId ministryId = Some existing ->
      mm_isActive existing = false ->
      memberId <> "" -> ministryId <> "" ->
      let newRole := match role with Some r => r | None => "member" end in
      let st1 := fst (MemberService.addToMinistry uuid st memberId ministryId role) in
      let st2 := fst (MinistryController.addMemberToMinistry
                        uuid st ministryId (Some memberId) role) in
      st1 = st2 /\
      List.length (memberMinistries st1) = List.length (memberMinistries st) /\
      MinistryController.findMembership st1 memberId ministryId
      = Some (mkMemberMinistry (mm_id existing) memberId ministryId newRole true)) /\
  (forall st memberId ministryId,
      rowsButActive (fst (MemberService.removeFromMinistry st memberId ministryId))
      = rowsButActive st /\
      rowsButActive (fst (MinistryController.removeMemberFromMinistry st ministryId memberId))
      = rowsButActive st /\
      memberRowsButActive (fst (MinistryController.removeMember st ministryId memberId))
      = memberRowsButActive st) /\
  (forall st memberId ministryId membership,
      PrimaryKeys st ->
      MinistryController.findMembership st memberId ministryId = Some membership ->
      option_map mm_isActive
        (MinistryController.findMembership
           (fst (MemberService.removeFromMinistry st memberId ministryId))
           memberId ministryId)
      = Some false) /\
  (forall st memberId ministryId membership,
      PrimaryKeys st -> memberId <> "" -> ministryId <> "" ->
      MinistryController.findMembership st memberId ministryId = Some membership ->
      option_map mm_isActive
        (MinistryController.findMembership
           (fst (MinistryController.removeMemberFromMinistry st ministryId memberId))
           memberId ministryId)
      = Some false /\
      (mm_isActive membership = true ->
       snd (MinistryController.removeMemberFromMinistry st ministryId memberId)
       = ok 200 "Member removed from ministry successfully")) /\
  (forall st memberId ministryId membership,
      NoDup (List.map mmb_id (ministryMembers st)) ->
      MinistryController.findMinistryMember st ministryId memberId = Some membership ->
      option_map mmb_isActive
        (MinistryController.findMinistryMember
           (fst (MinistryController.removeMember st ministryId memberId))
           ministryId memberId)
      = Some false /\
      (mmb_isActive membership = true ->
       snd (MinistryController.removeMember st ministryId memberId)
       = ok 200 "Member removed from ministry successfully")).
Proof.
  split; [|split; [|split; [|split; [|split; [|split]]]]].
  - intros st Hu.
    split; [|split; [|split; [|split; [|split; [|split]]]]]; intros.
    + exact (Added_uniquePairs (addToMinistry_Added _ _ _ _ _) Hu).
    + unfold uniquePairs.
      rewrite (rowsButActive_pairs _ _ (removeFromMinistry_rows st memberId ministryId)).
      rewrite removeFromMinistry_others. exact Hu.
    + exact (Added_uniquePairs (addMemberToMinistry_Added _ _ _ _ _) Hu).
    + unfold uniquePairs.
      rewrite (rowsButActive_pairs _ _ (removeMemberFromMinistry_rows st id memberId)).
      rewrite removeMemberFromMinistry_others. exact Hu.
    + apply addMember_uniquePairs. exact Hu.
    + unfold uniquePairs.
      destruct (removeMember_rows st id memberId) as [H1 H2].
      rewrite (memberRowsButActive_pairs _ _ H1), H2. exact Hu.
    + unfold uniquePairs.
      destruct (updateMemberRole_pairs errors st id memberId role) as [H1 H2].
      rewrite H1, H2. exact Hu.
  - intros uuid st memberId ministryId role member ministry existing Hm Hmin Hf Hact.
    split; [|split; [|split; [|split; reflexivity]]].
    + unfold MemberService.addToMinistry. rewrite Hm, Hmin, Hf, Hact. reflexivity.
    + intros H1 H2. unfold MinistryController.addMemberToMinistry.
      apply truthy_true in H1, H2. simpl. rewrite H1, H2, Hm, Hmin. simpl.
      rewrite Hf, Hact. reflexivity.
    + intros now joined Hj Hja. unfold MinistryController.addMember.
      rewrite Hmin, Hm, Hj, Hja. reflexivity.
  - intros uuid st memberId ministryId role member ministry existing
           Hpk Hm Hmin Hf Hact H1 H2 newRole st1 st2.
    assert (E1 : st1 = setMemberMinistries st
                         (updateFirst (fun m => mm_id m =? mm_id existing)
                                      (MinistryController.setMembership true newRole)
                                      (memberMinistries st))).
    { unfold st1, MemberService.addToMinistry. rewrite Hm, Hmin, Hf, Hact. reflexivity. }
    assert (E2 : st2 = st1).
    { rewrite E1. unfold st2, MinistryController.addMemberToMinistry.
      apply truthy_true in H1, H2. simpl. rewrite H1, H2, Hm, Hmin. simpl.
      rewrite Hf, Hact. reflexivity. }
    split; [symmetry; exact E2|]. rewrite E1. simpl. split.
    + apply length_updateFirst.
    + pose proof (findMembership_Some _ _ _ Hf) as [_ Hp].
      unfold pairOf in Hp. injection Hp as Hp1 Hp2.
      unfold MinistryController.findMembership in *. simpl.
      rewrite (@find_pair_updateFirst _ memberId ministryId
                 (MinistryController.setMembership true newRole) existing
                 (pk_memberMinistries Hpk) (fun _ => eq_refl) Hf).
      unfold MinistryController.setMembership. rewrite Hp1, Hp2. reflexivity.
  - intros st memberId ministryId. split; [|split].
    + apply removeFromMinistry_rows.
    + apply removeMemberFromMinistry_rows.
    + apply removeMember_rows.
  - intros st memberId ministryId membership Hpk Hf.
    unfold MemberService.removeFromMinistry. rewrite Hf. simpl.
    unfold MinistryController.findMembership in *. simpl.
    rewrite (@find_pair_updateFirst _ memberId ministryId
               (MinistryController.setMembershipActive false) membership
               (pk_memberMinistries Hpk) (fun _ => eq_refl) Hf).
    reflexivity.
  - intros st memberId ministryId membership Hpk H1 H2 Hf.
    apply truthy_true in H1, H2.
    unfold MinistryController.removeMemberFromMinistry.
    rewrite H1, H2, Hf. cbn [negb orb].
    destruct (mm_isActive membership) eqn:A; cbn [negb fst snd].
    + split; [|reflexivity].
      unfold MinistryController.findMembership in *. cbn [memberMinistries setMemberMinistries].
      rewrite (@find_pair_updateFirst _ memberId ministryId
                 (MinistryController.setMembershipActive false) membership
                 (pk_memberMinistries Hpk) (fun _ => eq_refl) Hf).
      reflexivity.
    + split; [|discriminate]. rewrite Hf. cbn [option_map]. rewrite A. reflexivity.
  - intros st memberId ministryId membership Hnd Hf.
    unfold MinistryController.removeMember. rewrite Hf.
    destruct (mmb_isActive membership) eqn:A; cbn [negb fst snd].
    + split; [|reflexivity].
      unfold MinistryController.findMinistryMember in *.
      cbn [ministryMembers setMinistryMembers].
      rewrite (@find_after_updateFirst _ mmb_id
                 (fun m => (mmb_ministryId m =? ministryId) && (mmb_memberId m =? memberId))
                 (MinistryController.setMinistryMemberActive false)
                 (ministryMembers st) membership Hnd (fun _ => eq_refl) Hf).
      reflexivity.
    + split; [|discriminate]. rewrite Hf. cbn [option_map]. rewrite A. reflexivity.
Qed.

(** The theorem on the sample: Alice is an active member of the choir,
    so adding her is a conflict, and removing her through the handler
    leaves her row, inactive; so does removing Carol through the handler
    of the route. *)
Lemma membership_rows_unique_witness :
  MemberService.addToMinistry "mm-9" sampleStore "m-1" "min-1" None
  = (sampleStore, Throw (ConflictError "Member is already part of this ministry")) /\
  option_map mm_isActive
    (MinistryController.findMembership
       (fst (MinistryController.removeMemberFromMinistry sampleStore "min-1" "m-1"))
       "m-1" "min-1")
  = Some false /\
  option_map mmb_isActive
    (MinistryController.findMinistryMember
       (fst (MinistryController.removeMember sampleStore "min-1" "m-3"))
       "min-1" "m-3")
  = Some false.
Proof.
  destruct membership_rows_unique as (_ & H & _ & _ & _ & H6 & H7).
  split; [|split].
  - apply (H "mm-9" sampleStore "m-1" "min-1" None alice choir
             (mkMemberMinistry "mm-1" "m-1" "min-1" "LEADER" true));
      reflexivity.
  - apply (H6 sampleStore "m-1" "min-1" (mkMemberMinistry "mm-1" "m-1" "min-1" "LEADER" true)).
    + exact sampleStore_keys.
    + discriminate.
    + discriminate.
    + reflexivity.
  - apply (H7 sampleStore "m-3" "min-1" (mkMinistryMember "mb-1" "min-1" "m-3" "MEMBER" 50 true)).
    + repeat constructor. simpl. tauto.
    + reflexivity.
Defined.

(** ** Forgotten passwords *)

Definition resetLinkSent : Response :=
  mkResponse 200 true "If the email exists, a password reset link has been sent" false.

Lemma forgotPassword_valid (isEmail : string -> bool) (toLowerCase : string -> string)
      (now : Z) (resetToken : string) (st : Store) (email : string) :
  isEmail email = true ->
  snd (NewAuthController.forgotPassword isEmail toLowerCase now resetToken st
         (Js.Value email))
  = Json resetLinkSent.
Proof.
  intros H. unfold NewAuthController.forgotPassword, NewAuthController.validationResult.
  rewrite H. destruct (List.find _ (users st)); reflexivity.
Qed.

(** C10: two forgot-password requests with valid addresses, one of an
    existing user and one of no user, receive the same response, 200 with
    the message 'If the email exists, a password reset link has been sent';
    moreover the response to a request is the same whatever the users table
    holds. *)
Theorem forgotPassword_reply_independent (isEmail : string -> bool)
        (toLowerCase : string -> string) :
  (forall now resetToken st known unknown user,
      isEmail known = true -> isEmail unknown = true ->
      In user (users st) -> usr_email user = toLowerCase known ->
      (forall u, In u (users st) -> usr_email u <> toLowerCase unknown) ->
      reply false (snd (NewAuthController.forgotPassword
                          isEmail toLowerCase now resetToken st (Js.Value known)))
      = Some resetLinkSent /\
      reply false (snd (NewAuthController.forgotPassword
                          isEmail toLowerCase now resetToken st (Js.Value unknown)))
      = Some resetLinkSent) /\
  (forall now now' resetToken resetToken' st st' email,
      snd (NewAuthController.forgotPassword isEmail toLowerCase now resetToken st email)
      = snd (NewAuthController.forgotPassword isEmail toLowerCase now' resetToken' st' email)).
Proof.
  split.
  - intros now resetToken st known unknown user Hk Hu _ _ _.
    rewrite !forgotPassword_valid by assumption. split; reflexivity.
  - intros now now' resetToken resetToken' st st' email.
    unfold NewAuthController.forgotPassword.
    destruct (NewAuthController.validationResult isEmail email); [|reflexivity].
    destruct email; try reflexivity.
    destruct (List.find _ (users st)), (List.find _ (users st')); reflexivity.
Qed.

(** The theorem on the sample, with a validator that asks for an '@' and
    the lower-casing of the letters A to Z: the administrator's address and
    an address nobody has. *)
Lemma forgotPassword_reply_independent_witness :
  reply false (snd (NewAuthController.forgotPassword
                      (Js.contains "@") Js.foldAscii 5 "0f3a" sampleStore
                      (Js.Value "Admin@Church.org")))
  = Some resetLinkSent /\
  reply false (snd (NewAuthController.forgotPassword
                      (Js.contains "@") Js.foldAscii 5 "0f3a" sampleStore
                      (Js.Value "nobody@church.org")))
  = Some resetLinkSent /\
  fst (NewAuthController.forgotPassword
         (Js.contains "@") Js.foldAscii 5 "0f3a" sampleStore (Js.Value "Admin@Church.org"))
  <> sampleStore.
Proof.
  destruct (forgotPassword_reply_independent (Js.contains "@") Js.foldAscii) as [H _].
  destruct (H 5%Z "0f3a" sampleStore "Admin@Church.org" "nobody@church.org" admin)
    as [H1 H2].
  - reflexivity.
  - reflexivity.
  - simpl. auto.
  - reflexivity.
  - intros u [<-|[]]. discriminate.
  - split; [exact H1|]. split; [exact H2|]. discriminate.
Defined.

(* ===================================================================== *)
(** * Routers, authentication, pagination and round trips *)
(* ===================================================================== *)

(** ** General facts on table updates *)

Section UpdateFacts.
Variable Row : Type.

Lemma updateFirst_twice (p : Row -> bool) (f g : Row -> Row) (l : list Row) :
  (forall r, p (g r) = p r) ->
  updateFirst p f (updateFirst p g l) = updateFirst p (fun r => f (g r)) l.
Proof.
  intros Hp. induction l as [|r l IH]; cbn [updateFirst]; [reflexivity|].
  destruct (p r) eqn:E; cbn [updateFirst].
  - rewrite Hp, E. reflexivity.
  - rewrite E, IH. reflexivity.
Qed.

Lemma updateFirst_same (p : Row -> bool) (f : Row -> Row) (l : list Row) :
  (forall r, In r l -> p r = true -> f r = r) -> updateFirst p f l = l.
Proof.
  induction l as [|r l IH]; cbn [updateFirst]; intros H; [reflexivity|].
  destruct (p r) eqn:E.
  - rewrite (H r (or_introl eq_refl) E). reflexivity.
  - rewrite IH; [reflexivity|]. intros x Hx. apply H. right. exact Hx.
Qed.

Lemma In_updateFirst_other (p : Row -> bool) (f : Row -> Row) (l : list Row) (x : Row) :
  In x l -> p x = false -> In x (updateFirst p f l).
Proof.
  induction l as [|r l IH]; cbn [updateFirst]; [tauto|].
  intros [->|Hin] Hp.
  - rewrite Hp. left. reflexivity.
  - destruct (p r); right; [exact Hin|exact (IH Hin Hp)].
Qed.

Lemma count_deleteFirst (p q : Row -> bool) (l : list Row) (r : Row) :
  List.find q l = Some r ->
  count p (deleteFirst q l) = (count p l - oneIf (p r))%Z.
Proof.
  induction l as [|x l IH]; cbn [List.find deleteFirst]; [discriminate|].
  destruct (q x) eqn:Q.
  - intros H. injection H as ->. rewrite count_cons. lia.
  - intros H. rewrite !count_cons, (IH H). lia.
Qed.

Lemma filter_deleteFirst (q : Row -> bool) (l : list Row) :
  List.filter (fun x => negb (q x)) (deleteFirst q l) = List.filter (fun x => negb (q x)) l.
Proof.
  induction l as [|x l IH]; cbn [deleteFirst List.filter]; [reflexivity|].
  destruct (q x) eqn:Q; cbn [negb List.filter]; [reflexivity|].
  rewrite Q. cbn [negb]. rewrite IH. reflexivity.
Qed.

Lemma filter_all (p : Row -> bool) (l : list Row) :
  (forall x, p x = true) -> List.filter p l = l.
Proof.
  intros H. induction l as [|x l IH]; simpl; [reflexivity|]. rewrite H, IH. reflexivity.
Qed.

Lemma NoDup_app_disjoint (l l' : list Row) (x : Row) :
  NoDup (l ++ l') -> In x l -> ~ In x l'.
Proof.
  induction l as [|a l IH]; simpl; [tauto|].
  intros H. inversion H as [|? ? Hnin Hnd]; subst. intros [->|Hin] Hx.
  - apply Hnin. apply List.in_or_app. right. exact Hx.
  - exact (IH Hnd Hin Hx).
Qed.

Lemma skipn_add (n m : nat) (xs : list Row) :
  List.skipn (n + m) xs = List.skipn m (List.skipn n xs).
Proof.
  revert xs. induction n as [|n IH]; intros xs; [reflexivity|].
  destruct xs as [|x xs]; simpl; [destruct m; reflexivity|]. apply IH.
Qed.

(** The pages of size [l] laid end to end. *)
Lemma pages_concat (l : nat) (n : nat) (xs : list Row) :
  (List.length xs <= n * l)%nat ->
  List.flat_map (fun p => List.firstn l (List.skipn (p * l) xs)) (List.seq 0 n) = xs.
Proof.
  revert xs. induction n as [|n IH]; intros xs Hlen.
  - destruct xs; [reflexivity|simpl in Hlen; lia].
  - cbn [List.seq List.flat_map]. cbn [Nat.mul List.skipn].
    rewrite <- List.seq_shift, List.flat_map_concat_map, List.map_map,
      <- List.flat_map_concat_map.
    transitivity (List.firstn l xs ++ List.skipn l xs)%list;
      [|apply List.firstn_skipn].
    f_equal.
    transitivity (List.flat_map
                    (fun p => List.firstn l (List.skipn (p * l) (List.skipn l xs)))
                    (List.seq 0 n)).
    + apply List.flat_map_ext. intros p. cbn [Nat.mul].
      rewrite skipn_add. reflexivity.
    + apply IH. rewrite List.length_skipn. simpl in Hlen. lia.
Qed.

End UpdateFacts.

(** ** The routers of src/routes *)


(** One step of a request through a router: the next test on the path,
    on the outcome of [authenticate] or on the outcome of [authorize]. *)
Ltac route_step :=
  cbn [dispatch runStack runMiddleware methodEqb matchPath andb];
  match goal with
  | H : authenticate ?v ?s ?n ?st ?a = _ |- context [authenticate ?v ?s ?n ?st ?a] =>
      rewrite H
  | |- context [authorize ?r ?u] => destruct (authorize r u) as [?|?] eqn:?
  | |- context [Js.truthy ?x] => destruct (Js.truthy x) eqn:?
  | |- context [Js.eqIgnoreCase ?x ?y] => destruct (Js.eqIgnoreCase x y) eqn:?
  end.

(** Every method, and every path of up to three segments or more. *)
Ltac route_cases method path :=
  destruct method; destruct path as [|? [|? [|? [|? ?]]]];
  repeat route_step;
  cbn [dispatch runStack runMiddleware methodEqb matchPath andb].


(** The request was handled by the controller method [c]. *)
Definition handledBy (c : string) (d : Dispatch) : bool :=
  match d with
  | Handled c' _ => c' =? c
  | _ => false
  end.

(** [req.user] of the sample administrator. *)
Definition adminUser : ReqUser := mkReqUser "u-1" "admin@church.org" "SUPER_ADMIN" true.


(** A literal segment of a route never takes an empty segment. *)
Ltac no_empty_literal :=
  match goal with
  | H : Js.eqIgnoreCase _ ?s = true, G : Js.truthy ?s = false |- _ =>
      unfold Js.truthy in G; apply negb_false_iff, String.eqb_eq in G;
      subst; discriminate H
  end.



(** X2: the member router never looks at the Authorization header: no
    request is turned down, none writes to the users table, and the
    handlers run without a user; a request without any credentials reaches
    [deleteMember], [updateMember] and [createMember]. *)
Theorem memberRoutes_unauthenticated :
  (forall verify JWT_SECRET now authorization method path st st' d,
      dispatch verify JWT_SECRET now authorization memberRoutes method path st None
      = (st', d) ->
      st' = st /\ (d = Unmatched \/ exists c, d = Handled c None)) /\
  (forall verify JWT_SECRET now authorization st id,
      id <> "" ->
      dispatch verify JWT_SECRET now authorization memberRoutes DELETE [id] st None
      = (st, Handled "deleteMember" None) /\
      dispatch verify JWT_SECRET now authorization memberRoutes PUT [id] st None
      = (st, Handled "updateMember" None)) /\
  (forall verify JWT_SECRET now authorization st,
      dispatch verify JWT_SECRET now authorization memberRoutes POST [] st None
      = (st, Handled "createMember" None)).
Proof.
  split; [|split].
  - intros verify JWT_SECRET now authorization method path st st' d.
    unfold memberRoutes. route_cases method path.
    all: intros H; injection H as <- <-.
    all: split; [reflexivity|].
    all: try (left; reflexivity).
    all: right; eexists; reflexivity.
  - intros verify JWT_SECRET now authorization st id Hid.
    apply truthy_true in Hid. unfold memberRoutes.
    cbn [dispatch runStack runMiddleware methodEqb matchPath andb].
    rewrite Hid. cbn [dispatch runStack runMiddleware methodEqb matchPath andb].
    split; reflexivity.
  - intros. reflexivity.
Qed.

(** X3: on the contribution router no request is ever handled by
    [exportContributions]: [GET /export] is taken by the route [GET /:id]
    registered before it, so an authenticated request for the export runs
    [getContributionById] with "export" as the id. *)
Theorem contributionRoutes_export_shadowed :
  (forall verify JWT_SECRET now authorization method path st user0,
      handledBy "exportContributions"
        (snd (dispatch verify JWT_SECRET now authorization contributionRoutes
                       method path st user0)) = false) /\
  (forall verify JWT_SECRET now authorization st st' u user0,
      authenticate verify JWT_SECRET now st authorization = (st', Continue (Some u)) ->
      dispatch verify JWT_SECRET now authorization contributionRoutes
               GET ["export"] st user0
      = (st', Handled "getContributionById" (Some u))).
Proof.
  split.
  - intros verify JWT_SECRET now authorization method path st user0.
    destruct (authenticate verify JWT_SECRET now st authorization) as [s1 [u1|e1]] eqn:Hauth.
    all: unfold contributionRoutes; route_cases method path.
    all: try reflexivity.
    all: try match goal with
         | H : Js.truthy "export" = false |- _ => discriminate H
         end.
    all: no_empty_literal.
  - intros verify JWT_SECRET now authorization st st' u user0 Hauth.
    unfold contributionRoutes.
    cbn [dispatch runStack runMiddleware methodEqb matchPath andb].
    change (Js.eqIgnoreCase "stats" "export") with false.
    change (Js.truthy "export") with true.
    cbn [dispatch runStack runMiddleware methodEqb matchPath andb].
    rewrite Hauth. reflexivity.
Qed.

(** ** The authentication middleware *)

(** A user row without its [lastLogin] column. *)
Definition forgetLastLogin (u : User) : User :=
  mkUser (usr_id u) (usr_email u) (usr_isActive u) (usr_roles u) None
         (usr_passwordResetToken u) (usr_passwordResetExpires u).

(** [authHeader.substring(7)] of a header that starts with "Bearer ". *)
Definition bearerToken (authorization : option string) : option string :=
  match authorization with
  | Some h =>
      if Js.truthy h && Js.startsWith "Bearer " h
      then Some (String.substring 7 (String.length h - 7) h)
      else None
  | None => None
  end.

Lemma forgetLastLogin_updateFirst (p : User -> bool) (now : Z) (l : list User) :
  List.map forgetLastLogin (updateFirst p (setLastLogin now) l)
  = List.map forgetLastLogin l.
Proof.
  induction l as [|u l IH]; simpl; [reflexivity|].
  destruct (p u); simpl; [reflexivity|]. rewrite IH. reflexivity.
Qed.

(** X4: when [authenticate] turns a request down it has written
    nothing; when it lets a request through, the header carried a bearer
    token that [jwt.verify] decoded to the id of a row of the users table,
    that row is active, [req.user] is made of that row, and nothing but
    [lastLogin] columns of the users table has changed. *)
Theorem authenticate_sound (verify : string -> string -> JwtResult)
        (JWT_SECRET : option string) (now : Z) (st : Store)
        (authorization : option string) (st' : Store) (r : MwResult) :
  authenticate verify JWT_SECRET now st authorization = (st', r) ->
  match r with
  | Fail e => st' = st
  | Continue user =>
      exists secret token row,
        JWT_SECRET = Some secret /\
        bearerToken authorization = Some token /\
        verify token secret = Decoded (usr_id row) /\
        In row (users st) /\ usr_isActive row = true /\
        user = Some (mkReqUser (usr_id row) (usr_email row) (primaryRole row) true) /\
        st' = setUsers st (users st') /\
        List.map forgetLastLogin (users st') = List.map forgetLastLogin (users st)
  end.
Proof.
  unfold authenticate, bearerToken.
  destruct authorization as [h|]; [|intros H; injection H as <- <-; reflexivity].
  destruct (Js.truthy h); cbn [negb orb andb];
    [|intros H; injection H as <- <-; reflexivity].
  destruct (Js.startsWith "Bearer " h); cbn [negb];
    [|intros H; injection H as <- <-; reflexivity].
  destruct JWT_SECRET as [secret|]; cbn [Js.truthyOpt];
    [|intros H; injection H as <- <-; reflexivity].
  destruct (Js.truthy secret); cbn [negb];
    [|intros H; injection H as <- <-; reflexivity].
  destruct (verify _ secret) as [id|isJwt isExpired e] eqn:V.
  - destruct (List.find _ (users st)) as [row|] eqn:F;
      [|intros H; injection H as <- <-; reflexivity].
    destruct (usr_isActive row) eqn:A; cbn [negb];
      [|intros H; injection H as <- <-; reflexivity].
    intros H; injection H as <- <-.
    apply List.find_some in F. destruct F as [Hin Hid].
    apply String.eqb_eq in Hid. subst id.
    exists secret, (String.substring 7 (String.length h - 7) h), row.
    repeat split; try assumption; try reflexivity.
    cbn [users setUsers]. apply forgetLastLogin_updateFirst.
  - destruct isJwt; [intros H; injection H as <- <-; reflexivity|].
    destruct isExpired; intros H; injection H as <- <-; reflexivity.
Qed.

(** The request of the sample administrator: only [lastLogin] changes. *)
Lemma authenticate_sound_witness :
  snd (authenticate sampleVerify (Some "s3cret") 5%Z sampleStore (Some "Bearer tok"))
  = Continue (Some adminUser) /\
  List.map forgetLastLogin
    (users (fst (authenticate sampleVerify (Some "s3cret") 5%Z sampleStore
                              (Some "Bearer tok"))))
  = List.map forgetLastLogin (users sampleStore).
Proof.
  split; [reflexivity|].
  destruct (@authenticate_sound sampleVerify (Some "s3cret") 5%Z sampleStore
              (Some "Bearer tok")
              (fst (authenticate sampleVerify (Some "s3cret") 5%Z sampleStore
                                 (Some "Bearer tok")))
              (Continue (Some adminUser)) eq_refl)
    as (secret & token & row & _ & _ & _ & _ & _ & _ & _ & H).
  exact H.
Defined.

(** X5: [optionalAuth] never turns a request down and never writes;
    it attaches exactly the user [authenticate] would attach to the same
    request, and leaves [req.user] as it was where [authenticate] would
    fail. *)
Theorem optionalAuth_agrees (verify : string -> string -> JwtResult)
        (JWT_SECRET : option string) (now : Z) (st : Store)
        (authorization : option string) (user0 : option ReqUser) :
  match snd (authenticate verify JWT_SECRET now st authorization) with
  | Continue user => optionalAuth verify JWT_SECRET st authorization user0 = Continue user
  | Fail _ => optionalAuth verify JWT_SECRET st authorization user0 = Continue user0
  end.
Proof.
  unfold authenticate, optionalAuth.
  destruct authorization as [h|]; [|reflexivity].
  destruct (negb (Js.truthy h) || negb (Js.startsWith "Bearer " h))%bool; [reflexivity|].
  destruct (negb (Js.truthyOpt JWT_SECRET)); [reflexivity|].
  destruct (verify _ _) as [id|isJwt isExpired e].
  - destruct (List.find _ (users st)) as [row|]; [|reflexivity].
    destruct (usr_isActive row); reflexivity.
  - destruct isJwt; [reflexivity|]. destruct isExpired; reflexivity.
Qed.

(** ** Pagination *)

Lemma ceil_gt (t l p : Z) : (0 < l)%Z -> (p < - ((- t) / l))%Z <-> (p * l < t)%Z.
Proof.
  intros Hl.
  pose proof (Z.div_mod (- t) l ltac:(lia)) as E.
  pose proof (Z.mod_pos_bound (- t) l Hl) as B.
  split; intros H; nia.
Qed.

Lemma ceil_bounds (t l : Z) :
  (0 < l)%Z -> (t <= - ((- t) / l) * l < t + l)%Z.
Proof.
  intros Hl.
  pose proof (Z.div_mod (- t) l ltac:(lia)) as E.
  pose proof (Z.mod_pos_bound (- t) l Hl) as B.
  nia.
Qed.

(** The rows of a page, none when the query was refused. *)
Definition rowsOf (Row : Type) (r : Result (list Row)) : list Row :=
  match r with
  | Return rows => rows
  | Throw _ => []
  end.

(** The query string [?page=..&limit=..] with the other parameters. *)
Definition pageQuery (page limit : Z)
           (search cellId ministryId isActive sortBy sortOrder : option string)
  : SimpleMemberController.MemberQuery :=
  SimpleMemberController.mkMemberQuery (Some page) (Some limit) search cellId
                                       ministryId isActive sortBy sortOrder.

Section Pagination.
Variable orderBy : forall Row : Type, string -> string -> list Row -> list Row.
Hypothesis orderBy_perm :
  forall (Row : Type) (column direction : string) (l : list Row),
    Permutation (orderBy column direction l) l.

(** X6: with a page size of at least 1, [totalPages] is a number
    [n] of pages, and the pages 1 to [n] that [getPagination] and
    [findMany] cut out of a selection, laid end to end, are the whole
    selection in its order: no row is lost and none comes twice. *)
Theorem pages_cover_the_selection (Row : Type) (selected : list Row)
        (column direction : string) (limit : Z) :
  (1 <= limit)%Z ->
  exists n : nat,
    BaseController.ceilDiv (Z.of_nat (List.length selected)) limit
    = BaseController.Int (Z.of_nat n) /\
    List.flat_map
      (fun page =>
         let (skip, take) := BaseController.getPagination page limit in
         rowsOf (findMany orderBy selected column direction skip take))
      (List.map Z.of_nat (List.seq 1 n))
    = orderBy column direction selected.
Proof.
  intros Hl.
  set (total := Z.of_nat (List.length selected)).
  pose proof (@ceil_bounds total limit ltac:(lia)) as [B1 B2].
  set (c := (- ((- total) / limit))%Z) in *.
  assert (Hc : (0 <= c)%Z) by (subst total; nia).
  exists (Z.to_nat c). split.
  - unfold BaseController.ceilDiv.
    destruct (limit =? 0)%Z eqn:E; [apply Z.eqb_eq in E; lia|].
    fold total. fold c. rewrite Z2Nat.id by exact Hc. reflexivity.
  - rewrite <- List.seq_shift, List.map_map.
    rewrite <- (@pages_concat Row (Z.to_nat limit) (Z.to_nat c)
                  (orderBy column direction selected)).
    + rewrite !List.flat_map_concat_map, List.map_map. f_equal.
      apply List.map_ext. intros p.
      unfold BaseController.getPagination, findMany.
      destruct (_ || _)%bool eqn:E.
      * apply orb_true_iff in E. destruct E as [E|E]; apply Z.ltb_lt in E; lia.
      * cbn [rowsOf]. do 2 f_equal. lia.
    + rewrite (Permutation_length (orderBy_perm column direction selected)).
      subst total. nia.
Qed.

(** X7: for a page number and a page size of at least 1, the
    [hasNext] flag of the reply of [getAll] is true exactly when the next
    page holds a row; the next page has [hasPrev] set and the same total,
    and the page holds [limit] rows or what is left of the selection. *)
Theorem hasNext_iff_next_page (st : Store) (page limit : Z)
        (search cellId ministryId isActive sortBy sortOrder : option string) :
  (1 <= page)%Z -> (1 <= limit)%Z ->
  exists data pg data' pg',
    MemberController.getAllResponse orderBy st
      (pageQuery page limit search cellId ministryId isActive sortBy sortOrder)
    = Some (data, pg) /\
    MemberController.getAllResponse orderBy st
      (pageQuery (page + 1) limit search cellId ministryId isActive sortBy sortOrder)
    = Some (data', pg') /\
    (BaseController.pg_hasNext pg = true <-> data' <> []) /\
    BaseController.pg_hasPrev pg' = true /\
    BaseController.pg_total pg' = BaseController.pg_total pg /\
    Z.of_nat (List.length data)
    = Z.min limit (Z.max 0 (BaseController.pg_total pg - (page - 1) * limit)).
Proof.
  intros Hp Hl.
  unfold MemberController.getAllResponse, MemberController.getAll, MemberService.findAll,
    pageQuery.
  cbn [SimpleMemberController.q_page SimpleMemberController.q_limit
       SimpleMemberController.q_search SimpleMemberController.q_cellId
       SimpleMemberController.q_ministryId SimpleMemberController.q_isActive
       SimpleMemberController.q_sortBy SimpleMemberController.q_sortOrder
       MemberService.skip MemberService.take MemberService.search MemberService.cellId
       MemberService.ministryId MemberService.isActive MemberService.sortBy
       MemberService.sortOrder].
  match goal with
  | |- context [List.filter ?f (members st)] => set (selected := List.filter f (members st))
  end.
  match goal with
  | |- context [findMany orderBy selected ?c ?d _ _] =>
      set (column := c); set (direction := d)
  end.
  unfold findMany.
  destruct (_ || _)%bool eqn:E1;
    [apply orb_true_iff in E1; destruct E1 as [E|E]; apply Z.ltb_lt in E; nia|].
  destruct ((page + 1 - 1) * limit <? 0)%Z eqn:E2; [apply Z.ltb_lt in E2; nia|].
  destruct (limit <? 0)%Z eqn:E3; [apply Z.ltb_lt in E3; lia|].
  cbn [orb].
  do 4 eexists. split; [reflexivity|]. split; [reflexivity|].
  unfold BaseController.buildPaginatedResponse.
  cbn [BaseController.pg_hasNext BaseController.pg_hasPrev BaseController.pg_total].
  set (ordered := orderBy column direction selected).
  assert (Hlen : List.length ordered = List.length selected)
    by apply (Permutation_length (orderBy_perm column direction selected)).
  split; [|split; [|split]].
  - unfold BaseController.ceilDiv.
    destruct (limit =? 0)%Z eqn:E; [apply Z.eqb_eq in E; lia|].
    cbn [BaseController.lessThan]. rewrite Z.ltb_lt, ceil_gt by lia.
    rewrite <- Hlen.
    assert (Hn : List.length (List.firstn (Z.to_nat limit)
                   (List.skipn (Z.to_nat ((page + 1 - 1) * limit)) ordered))
                 = Nat.min (Z.to_nat limit)
                     (List.length ordered - Z.to_nat ((page + 1 - 1) * limit))).
    { rewrite List.length_firstn, List.length_skipn. reflexivity. }
    split.
    + intros H Hnil. rewrite Hnil in Hn. simpl in Hn. lia.
    + intros H.
      destruct (List.firstn _ _) as [|x rest] eqn:Ex; [contradiction|].
      simpl in Hn. lia.
  - apply Z.ltb_lt. lia.
  - reflexivity.
  - rewrite List.length_firstn, List.length_skipn, <- Hlen. lia.
Qed.

(** X8: a page size of 0 passes through [getAll]: every page is
    empty, [totalPages] is Infinity as soon as one member matches (NaN when
    none does), and [hasNext] is then true on every page, whatever its
    number. *)
Theorem limit_zero_pages_never_end (st : Store) (page : Z)
        (search cellId ministryId isActive sortBy sortOrder : option string) :
  exists pg,
    MemberController.getAllResponse orderBy st
      (pageQuery page 0 search cellId ministryId isActive sortBy sortOrder)
    = Some ([], pg) /\
    (0 <= BaseController.pg_total pg)%Z /\
    BaseController.pg_totalPages pg
    = (if (BaseController.pg_total pg =? 0)%Z
       then BaseController.NaN else BaseController.Infinity) /\
    BaseController.pg_hasNext pg = negb (BaseController.pg_total pg =? 0)%Z.
Proof.
  unfold MemberController.getAllResponse, MemberController.getAll, MemberService.findAll,
    pageQuery.
  cbn [SimpleMemberController.q_page SimpleMemberController.q_limit
       SimpleMemberController.q_search SimpleMemberController.q_cellId
       SimpleMemberController.q_ministryId SimpleMemberController.q_isActive
       SimpleMemberController.q_sortBy SimpleMemberController.q_sortOrder
       MemberService.skip MemberService.take MemberService.search MemberService.cellId
       MemberService.ministryId MemberService.isActive MemberService.sortBy
       MemberService.sortOrder].
  match goal with
  | |- context [List.filter ?f (members st)] => set (selected := List.filter f (members st))
  end.
  unfold findMany. rewrite Z.mul_0_r. cbn [Z.ltb Z.compare orb Z.to_nat List.firstn].
  eexists. split; [reflexivity|].
  unfold BaseController.buildPaginatedResponse, BaseController.ceilDiv.
  cbn [snd BaseController.pg_total BaseController.pg_totalPages BaseController.pg_hasNext
       Z.eqb].
  set (total := Z.of_nat (List.length selected)).
  assert (Ht : (0 <= total)%Z) by (subst total; lia).
  split; [exact Ht|].
  destruct (total =? 0)%Z eqn:E0.
  - split; reflexivity.
  - apply Z.eqb_neq in E0.
    assert (Hpos : (0 <? total)%Z = true) by (apply Z.ltb_lt; lia).
    rewrite Hpos. split; reflexivity.
Qed.

End Pagination.

(** The theorem on the members of the sample, one per page: three pages. *)
Lemma pages_cover_the_selection_witness :
  List.flat_map
    (fun page =>
       let (skip, take) := BaseController.getPagination page 1 in
       rowsOf (findMany (fun _ _ _ l => l) (members sampleStore) "name" "asc" skip take))
    [1; 2; 3]%Z
  = members sampleStore.
Proof.
  destruct (@pages_cover_the_selection (fun _ _ _ l => l)
              (fun _ _ _ l => Permutation_refl l)
              Member (members sampleStore) "name" "asc" 1%Z ltac:(lia))
    as [n [Hn Hpages]].
  injection Hn as Hn.
  assert (n = 3%nat) by (change 3%Z with (Z.of_nat 3) in Hn; lia).
  subst n. exact Hpages.
Defined.

(** The theorem on the sample: the inactive member is on page 1 of 1. *)
Lemma hasNext_iff_next_page_witness :
  exists data pg data' pg',
    MemberController.getAllResponse (fun _ _ _ l => l) sampleStore
      (pageQuery 1 1 None None None None None None) = Some (data, pg) /\
    MemberController.getAllResponse (fun _ _ _ l => l) sampleStore
      (pageQuery (1 + 1) 1 None None None None None None) = Some (data', pg') /\
    (BaseController.pg_hasNext pg = true <-> data' <> []) /\
    BaseController.pg_hasPrev pg' = true /\
    BaseController.pg_total pg' = BaseController.pg_total pg /\
    Z.of_nat (List.length data)
    = Z.min 1 (Z.max 0 (BaseController.pg_total pg - (1 - 1) * 1)).
Proof.
  apply (@hasNext_iff_next_page (fun _ _ _ l => l) (fun _ _ _ l => Permutation_refl l)
           sampleStore 1%Z 1%Z None None None None None None); lia.
Defined.

(** ** Event registrations *)

Definition regPairOf (r : EventRegistration) : string * string :=
  (reg_eventId r, reg_memberId r).

(** No member has two registration rows for one event. *)
Definition uniqueRegistrations (st : Store) : Prop :=
  NoDup (List.map regPairOf (eventRegistrations st)).

Lemma find_registration_None (l : list EventRegistration) (id memberId : string) :
  List.find (fun r => (reg_eventId r =? id) && (reg_memberId r =? memberId)) l = None ->
  ~ In (id, memberId) (List.map regPairOf l).
Proof.
  intros H Hin. apply List.in_map_iff in Hin. destruct Hin as [r [Hr Hin]].
  pose proof (List.find_none _ _ H r Hin) as Hf. cbv beta in Hf.
  unfold regPairOf in Hr. injection Hr as <- <-.
  rewrite !String.eqb_refl in Hf. discriminate.
Qed.

Lemma registerForEvent_keeps_unique (now : Z) (uuid : string) (st : Store)
      (id : string) (memberId notes : Js.Raw) :
  uniqueRegistrations st ->
  uniqueRegistrations (fst (EventController.registerForEvent now uuid st id memberId notes)).
Proof.
  unfold uniqueRegistrations, EventController.registerForEvent. intros Hu.
  destruct (_ || _)%bool; [exact Hu|].
  destruct (List.find _ (events st)); [|exact Hu].
  destruct (EventController.deadlinePassed now e); [exact Hu|].
  destruct (EventController.isFull e _); [exact Hu|].
  destruct memberId as [[| |mid]|other]; try exact Hu.
  destruct (List.find _ (members st)); [|exact Hu].
  destruct (List.find _ (eventRegistrations st)) as [existing|] eqn:F.
  - destruct (reg_isActive existing); [exact Hu|].
    destruct notes as [text|other]; [|exact Hu].
    cbn [fst eventRegistrations setEventRegistrations].
    rewrite map_updateFirst; [exact Hu|reflexivity].
  - destruct notes as [text|other]; [|exact Hu].
    cbn [fst eventRegistrations setEventRegistrations].
    rewrite List.map_app. cbn [List.map regPairOf reg_eventId reg_memberId].
    apply NoDup_app; [exact Hu|repeat constructor; simpl; tauto|].
    intros x Hx [<-|[]]. exact (find_registration_None _ _ _ F Hx).
Qed.

Lemma cancelRegistration_keeps_unique (st : Store) (id memberId : string) :
  uniqueRegistrations st ->
  uniqueRegistrations (fst (EventController.cancelRegistration st id memberId)).
Proof.
  unfold uniqueRegistrations, EventController.cancelRegistration. intros Hu.
  destruct (_ || _)%bool; [exact Hu|].
  destruct (List.find _ (eventRegistrations st)) as [registration|]; [|exact Hu].
  destruct (negb (reg_isActive registration)); [exact Hu|].
  cbn [fst eventRegistrations setEventRegistrations].
  rewrite map_updateFirst; [exact Hu|reflexivity].
Qed.

(** X9: however registration and cancellation requests follow one
    another, no member gets a second registration row for the same event:
    a registration of a pair that has a row reuses the row. *)
Theorem registrations_stay_unique (st0 st : Store) :
  uniqueRegistrations st0 -> afterRegistrations st0 st -> uniqueRegistrations st.
Proof.
  intros H0 Hreach. induction Hreach as [|st now uuid id memberId notes _ IH _|st id memberId _ IH].
  - exact H0.
  - apply registerForEvent_keeps_unique. exact IH.
  - apply cancelRegistration_keeps_unique. exact IH.
Qed.

(** A cancellation and a registration on the sample. *)
Lemma registrations_stay_unique_witness :
  uniqueRegistrations
    (fst (EventController.registerForEvent 5%Z "reg-9"
            (fst (EventController.cancelRegistration sampleStore "ev-1" "m-1"))
            "ev-2" (Js.Str (Js.Value "m-3")) (Js.Str Js.Undefined))).
Proof.
  apply (@registrations_stay_unique sampleStore).
  - unfold uniqueRegistrations. cbn. repeat constructor; simpl; intuition discriminate.
  - apply registrations_register; [apply registrations_cancel; apply registrations_none|].
    cbn. intuition discriminate.
Defined.

Lemma find_by_id_unique (l : list EventRegistration) (r : EventRegistration) :
  NoDup (List.map reg_id l) -> In r l ->
  forall x, In x l -> (reg_id x =? reg_id r) = true -> x = r.
Proof.
  intros Hnd Hr x Hx E. apply String.eqb_eq in E.
  exact (@NoDup_key_eq _ reg_id l x r Hnd Hx Hr E).
Qed.

(** X10: a cancellation followed by a registration of the same
    member for the same event creates no row: the cancelled row is made
    active again; a request without notes leaves the notes of the row, a
    null clears them and a string replaces them.  So a registration
    without notes, or with the notes the row had, puts the database back
    where it was before the cancellation. *)
Theorem cancel_then_register_restores (now : Z) (uuid : string) (st st1 st2 : Store)
        (id memberId : string) (notes : Js.Raw) :
  PrimaryKeys st ->
  EventController.cancelRegistration st id memberId
  = (st1, ok 200 "Registration cancelled successfully") ->
  EventController.registerForEvent now uuid st1 id (Js.Str (Js.Value memberId)) notes
  = (st2, ok 201 "Registered for event successfully") ->
  exists r text,
    notes = Js.Str text /\
    In r (eventRegistrations st) /\
    regPairOf r = (id, memberId) /\ reg_isActive r = true /\
    st2 = setEventRegistrations st
            (updateFirst (fun x => reg_id x =? reg_id r)
                         (fun x => mkEventRegistration
                                     (reg_id x) (reg_eventId x) (reg_memberId x) true
                                     match text with
                                     | Js.Undefined => reg_notes x
                                     | Js.Null => None
                                     | Js.Value n => Some n
                                     end)
                         (eventRegistrations st)) /\
    List.map reg_id (eventRegistrations st2) = List.map reg_id (eventRegistrations st) /\
    (text = Js.Undefined \/ Js.toColumn text = reg_notes r -> st2 = st).
Proof.
  intros Hpk. unfold EventController.cancelRegistration.
  destruct (_ || _)%bool; [discriminate|].
  destruct (List.find _ (eventRegistrations st)) as [r|] eqn:F; [|discriminate].
  destruct (reg_isActive r) eqn:A; cbn [negb]; [|discriminate].
  intros H. injection H as <-.
  pose proof (pk_eventRegistrations Hpk) as Hnd.
  pose proof (@find_after_updateFirst _ reg_id
                (fun x => (reg_eventId x =? id) && (reg_memberId x =? memberId))
                EventController.cancel (eventRegistrations st) r Hnd
                ltac:(reflexivity) F) as F1.
  unfold EventController.registerForEvent.
  destruct (_ || _)%bool; [discriminate|].
  cbn [events setEventRegistrations members eventRegistrations].
  destruct (List.find _ (events st)) as [event|]; [|discriminate].
  destruct (EventController.deadlinePassed now event); [discriminate|].
  destruct (EventController.isFull event _); [discriminate|].
  destruct (List.find _ (members st)); [|discriminate].
  rewrite F1. cbn [reg_isActive EventController.cancel reg_id].
  destruct notes as [text|other]; [|discriminate].
  intros H. injection H as <-.
  rewrite updateFirst_twice by reflexivity.
  apply List.find_some in F. destruct F as [Hin Hk].
  apply andb_true_iff in Hk. destruct Hk as [K1 K2].
  apply String.eqb_eq in K1, K2.
  exists r, text. split; [reflexivity|]. split; [exact Hin|].
  split; [unfold regPairOf; congruence|].
  split; [exact A|]. split; [reflexivity|]. split.
  - cbn [eventRegistrations]. apply map_updateFirst. reflexivity.
  - intros Hsame. destruct st as [us ms mins evs mms mbs regs atts cons].
    unfold setEventRegistrations. cbn [users members ministries events memberMinistries
      ministryMembers eventRegistrations eventAttendances contributions] in *.
    f_equal. apply updateFirst_same. intros x Hx E.
    rewrite (@find_by_id_unique regs r Hnd Hin x Hx E).
    unfold EventController.reactivateRegistration, EventController.cancel,
      EventController.overwriteNullable.
    destruct r as [rid rev rmem ract rnotes]. cbn in *. subst ract.
    destruct Hsame as [->|Hsame]; [reflexivity|].
    destruct text; cbn in Hsame; subst; reflexivity.
Qed.

(** The sample with a note on Alice's place at the retreat. *)
Definition notedStore : Store :=
  setEventRegistrations sampleStore
    [mkEventRegistration "reg-1" "ev-1" "m-1" true (Some "vegetarian");
     mkEventRegistration "reg-2" "ev-3" "m-1" true None].

(** Alice cancels her place at the retreat and takes it again with a
    request that has no notes: the note of the row is kept. *)
Lemma cancel_then_register_restores_witness :
  fst (EventController.registerForEvent 5%Z "reg-9"
         (fst (EventController.cancelRegistration notedStore "ev-1" "m-1"))
         "ev-1" (Js.Str (Js.Value "m-1")) (Js.Str Js.Undefined))
  = notedStore.
Proof.
  destruct (@cancel_then_register_restores 5%Z "reg-9" notedStore
              (fst (EventController.cancelRegistration notedStore "ev-1" "m-1"))
              (fst (EventController.registerForEvent 5%Z "reg-9"
                      (fst (EventController.cancelRegistration notedStore "ev-1" "m-1"))
                      "ev-1" (Js.Str (Js.Value "m-1")) (Js.Str Js.Undefined)))
              "ev-1" "m-1" (Js.Str Js.Undefined))
    as (r & text & Hn & _ & _ & _ & _ & _ & H).
  - split; simpl; repeat constructor; simpl; intuition discriminate.
  - reflexivity.
  - reflexivity.
  - injection Hn as <-. apply H. left. reflexivity.
Defined.

Lemma find_active_after_deactivate (l : list Event) (id : string) :
  NoDup (List.map ev_id l) ->
  List.find (fun e => (ev_id e =? id) && ev_isActive e)
            (updateFirst (fun e => ev_id e =? id) (EventController.setEventActive false) l)
  = None.
Proof.
  induction l as [|e l IH]; cbn [updateFirst List.find List.map]; [reflexivity|].
  intros Hnd. inversion Hnd as [|? ? Hnin Hnd']; subst.
  destruct (ev_id e =? id) eqn:E; cbn [List.find].
  - cbn [EventController.setEventActive ev_id ev_isActive]. rewrite E. cbn [andb].
    destruct (List.find _ l) as [e'|] eqn:F; [|reflexivity].
    exfalso. apply List.find_some in F. destruct F as [Hin Hk].
    apply andb_true_iff in Hk. destruct Hk as [Hk _].
    apply String.eqb_eq in Hk, E. apply Hnin. rewrite E, <- Hk.
    apply List.in_map. exact Hin.
  - rewrite E. cbn [andb]. exact (IH Hnd').
Qed.

Lemma find_active_after_delete (l : list Event) (id : string) :
  NoDup (List.map ev_id l) ->
  List.find (fun e => (ev_id e =? id) && ev_isActive e)
            (deleteFirst (fun e => ev_id e =? id) l) = None.
Proof.
  intros Hnd.
  destruct (List.find _ (deleteFirst _ l)) as [e|] eqn:F; [|reflexivity].
  exfalso. apply List.find_some in F. destruct F as [Hin Hk].
  apply andb_true_iff in Hk. destruct Hk as [Hk _].
  pose proof (@find_deleteFirst _ ev_id id l Hnd) as Hnone.
  pose proof (List.find_none _ _ Hnone e Hin) as Hf. cbv beta in Hf. congruence.
Qed.

Lemma count_zero (Row : Type) (p : Row -> bool) (l : list Row) :
  (count p l <= 0)%Z -> forall r, In r l -> p r = false.
Proof.
  induction l as [|x l IH]; intros H r Hin; [destruct Hin|].
  rewrite count_cons in H. pose proof (count_nonneg p l) as Hl.
  destruct (p x) eqn:P; cbn [oneIf] in H; [lia|].
  destruct Hin as [<-|Hin]; [exact P|]. apply IH; [lia|exact Hin].
Qed.

(** The reply to a registration request for an event that is gone. *)
Definition eventGone (memberId : Js.Raw) : JsError :=
  if Js.truthyRaw memberId
  then ApiError 404 "Event not found or inactive" None
  else ApiError 400 "Event ID and Member ID are required" None.

(** X11: once [deleteEvent] has succeeded, by deactivating the event
    or by removing it, every registration request for that event is
    refused and writes nothing: with 404, or with 400 when the request
    names no member.  After a deactivation the registration rows are
    untouched and [cancelRegistration] answers as it did before; after a
    removal every cancellation for the event is refused with 400 or 404
    and writes nothing. *)
Theorem deleted_event_takes_no_registration (restricted : Store -> string -> bool)
        (st st1 : Store) (id : string) (out : Outcome) :
  PrimaryKeys st ->
  EventController.deleteEvent restricted st id = (st1, out) ->
  succeeded out ->
  (forall now uuid memberId notes,
      EventController.registerForEvent now uuid st1 id memberId notes
      = (st1, Next (eventGone memberId))) /\
  (out = ok 200 "Event deactivated successfully (has existing registrations/attendance)" \/
   out = ok 200 "Event deleted successfully") /\
  (out = ok 200 "Event deactivated successfully (has existing registrations/attendance)" ->
   eventRegistrations st1 = eventRegistrations st /\
   forall memberId,
     snd (EventController.cancelRegistration st1 id memberId)
     = snd (EventController.cancelRegistration st id memberId)) /\
  (out = ok 200 "Event deleted successfully" ->
   forall memberId,
     EventController.cancelRegistration st1 id memberId
     = (st1, Next (ApiError 400 "Event ID and Member ID are required" None)) \/
     EventController.cancelRegistration st1 id memberId
     = (st1, Next (ApiError 404 "Registration not found or already cancelled" None))).
Proof.
  intros Hpk Hdel [r [-> Hr]].
  unfold EventController.deleteEvent in Hdel.
  destruct (Js.truthy id) eqn:Hid; cbn [negb] in Hdel; [|discriminate].
  destruct (List.find _ (events st)) as [event|]; [|discriminate].
  pose proof (pk_events Hpk) as Hnd.
  assert (Hreg : forall st', eventRegistrations st' = eventRegistrations st1 ->
                             List.find (fun e => (ev_id e =? id) && ev_isActive e) (events st1)
                             = None ->
                             forall now uuid memberId notes,
                               EventController.registerForEvent now uuid st1 id memberId notes
                               = (st1, Next (eventGone memberId))).
  { intros _ _ Hfind now uuid memberId notes.
    unfold EventController.registerForEvent, eventGone. rewrite Hid, Hfind.
    destruct (Js.truthyRaw memberId); reflexivity. }
  destruct ((EventController.activeRegistrations st id >? 0)%Z
            || (EventController.attendanceCount st id >? 0)%Z)%bool eqn:Hdep.
  - injection Hdel as <- <-. split; [|split; [|split]].
    + apply (Hreg st); [reflexivity|].
      cbn [events setEvents]. apply find_active_after_deactivate. exact Hnd.
    + left. reflexivity.
    + intros _. split; [reflexivity|]. intros memberId.
      unfold EventController.cancelRegistration.
      cbn [eventRegistrations setEvents].
      destruct (negb (Js.truthy id) || negb (Js.truthy memberId))%bool; [reflexivity|].
      destruct (List.find _ (eventRegistrations st)) as [registration|]; [|reflexivity].
      destruct (negb (reg_isActive registration)); reflexivity.
    + intros H. discriminate H.
  - destruct (restricted st id); [discriminate|].
    injection Hdel as <- <-. split; [|split; [|split]].
    + apply (Hreg st); [reflexivity|].
      cbn [events setEvents]. apply find_active_after_delete. exact Hnd.
    + right. reflexivity.
    + intros H. discriminate H.
    + intros _ memberId. unfold EventController.cancelRegistration.
      cbn [eventRegistrations setEvents].
      destruct (negb (Js.truthy id) || negb (Js.truthy memberId))%bool; [left; reflexivity|].
      right.
      destruct (List.find _ (eventRegistrations st)) as [registration|] eqn:F;
        [|reflexivity].
      apply orb_false_iff in Hdep. destruct Hdep as [Hact _].
      rewrite Z.gtb_ltb in Hact. apply Z.ltb_ge in Hact.
      apply List.find_some in F. destruct F as [Hin Hk].
      apply andb_true_iff in Hk. destruct Hk as [Hk _].
      pose proof (@count_zero _ _ _ Hact registration Hin) as Hz. cbv beta in Hz.
      rewrite Hk in Hz. cbn [andb] in Hz. rewrite Hz. reflexivity.
Qed.

(** The retreat of the sample, which has a registration, is deactivated:
    a request that names a member is answered 404, one that names none
    400. *)
Lemma deleted_event_takes_no_registration_witness :
  snd (EventController.deleteEvent (fun _ _ => false) sampleStore "ev-1")
  = ok 200 "Event deactivated successfully (has existing registrations/attendance)" /\
  (forall now uuid notes,
      EventController.registerForEvent now uuid
        (fst (EventController.deleteEvent (fun _ _ => false) sampleStore "ev-1"))
        "ev-1" (Js.Str (Js.Value "m-3")) notes
      = (fst (EventController.deleteEvent (fun _ _ => false) sampleStore "ev-1"),
         Next (ApiError 404 "Event not found or inactive" None))) /\
  (forall now uuid notes,
      EventController.registerForEvent now uuid
        (fst (EventController.deleteEvent (fun _ _ => false) sampleStore "ev-1"))
        "ev-1" (Js.Str Js.Undefined) notes
      = (fst (EventController.deleteEvent (fun _ _ => false) sampleStore "ev-1"),
         Next (ApiError 400 "Event ID and Member ID are required" None))).
Proof.
  split; [reflexivity|].
  destruct (@deleted_event_takes_no_registration (fun _ _ => false) sampleStore
              (fst (EventController.deleteEvent (fun _ _ => false) sampleStore "ev-1")) "ev-1"
              (snd (EventController.deleteEvent (fun _ _ => false) sampleStore "ev-1")))
    as (H & _).
  - exact sampleStore_keys.
  - reflexivity.
  - eexists. split; reflexivity.
  - split; intros now uuid notes.
    + exact (H now uuid (Js.Str (Js.Value "m-3")) notes).
    + exact (H now uuid (Js.Str Js.Undefined) notes).
Defined.

(** What the client receives for a request handled by [res]: a success
    reply with status [okStatus], or an error reply with one of
    [errStatuses], in which case nothing was written. *)
Definition answers (development : bool) (st : Store) (res : Store * Outcome)
           (okStatus : Z) (errStatuses : list Z) : Prop :=
  exists r,
    reply development (snd res) = Some r /\
    ((res_success r = true /\ res_status r = okStatus) \/
     (res_success r = false /\ In (res_status r) errStatuses /\ fst res = st)).

Ltac answered :=
  eexists; split; [reflexivity|];
  first [ left; split; reflexivity
        | right; split; [reflexivity|]; split; [cbn; tauto|reflexivity] ].

(** X12: the replies of the four event handlers that write, as the
    client receives them through the central error handler: a success has
    the status of the handler (201 for a registration, 200 otherwise), an
    error has one of the statuses listed, and a request answered with an
    error has written nothing.  The status 500 is that of a query Prisma
    or the database refuses: a [memberId] or [notes] that is not a string,
    an update whose data the schema does not admit or whose foreign keys
    name no row, a removal a foreign key forbids. *)
Theorem event_handlers_answer (development : bool) (restricted : Store -> string -> bool)
        (invalid : EventController.EventBody -> bool)
        (rejected : Store -> EventController.EventBody -> bool)
        (now : Z) (uuid : string) (st : Store) (id memberId : string)
        (memberId' notes : Js.Raw) (errors : list string)
        (body : EventController.EventBody) :
  answers development st
    (EventController.registerForEvent now uuid st id memberId' notes)
    201 [400; 404; 409; 500]%Z /\
  answers development st
    (EventController.cancelRegistration st id memberId) 200 [400; 404]%Z /\
  answers development st
    (EventController.deleteEvent restricted st id) 200 [400; 404; 500]%Z /\
  answers development st
    (EventController.updateEvent invalid rejected errors st id body)
    200 [400; 404; 500]%Z /\
  (forall isTruthy,
      option_map res_status
        (reply development
           (snd (EventController.registerForEvent now uuid st id (Js.NotStr isTruthy) notes)))
      = Some (if Js.truthy id && isTruthy
              then match List.find (fun e => (ev_id e =? id) && ev_isActive e) (events st) with
                   | None => 404%Z
                   | Some event =>
                       if EventController.deadlinePassed now event
                          || EventController.isFull
                               event (EventController.activeRegistrations st id)
                       then 400%Z else 500%Z
                   end
              else 400%Z)).
Proof.
  split; [|split; [|split; [|split]]].
  - unfold EventController.registerForEvent.
    destruct (_ || _)%bool; [answered|].
    destruct (List.find _ (events st)) as [event|]; [|answered].
    destruct (EventController.deadlinePassed now event); [answered|].
    destruct (EventController.isFull event _); [answered|].
    destruct memberId' as [[| |mid]|other]; try answered.
    destruct (List.find _ (members st)); [|answered].
    destruct (List.find _ (eventRegistrations st)) as [existing|].
    + destruct (reg_isActive existing); [answered|].
      destruct notes; answered.
    + destruct notes; answered.
  - unfold EventController.cancelRegistration.
    destruct (_ || _)%bool; [answered|].
    destruct (List.find _ (eventRegistrations st)) as [registration|]; [|answered].
    destruct (negb (reg_isActive registration)); answered.
  - unfold EventController.deleteEvent.
    destruct (negb (Js.truthy id)); [answered|].
    destruct (List.find _ (events st)) as [event|]; [|answered].
    destruct (_ || _)%bool; [answered|].
    destruct (restricted st id); answered.
  - unfold EventController.updateEvent.
    destruct errors as [|e errors]; [|answered].
    destruct (negb (Js.truthy id)); [answered|].
    destruct (List.find _ (events st)) as [event|]; [|answered].
    destruct (match EventController.b_startTime body with Some _ => _ | None => _ end);
      [answered|].
    destruct (invalid body); [answered|].
    destruct (rejected st body); answered.
  - intros isTruthy. unfold EventController.registerForEvent.
    destruct (Js.truthy id); cbn [negb orb andb Js.truthyRaw]; [|reflexivity].
    destruct isTruthy; cbn [negb]; [|reflexivity].
    destruct (List.find _ (events st)) as [event|]; [|reflexivity].
    destruct (EventController.deadlinePassed now event); [reflexivity|].
    destruct (EventController.isFull event _); reflexivity.
Qed.

(** ** Ministry membership *)

(** X13: after [removeMember] has succeeded, a second [removeMember]
    and an [updateMemberRole] for the same pair are answered 404, and
    [addMember] for the pair creates no row: it makes the removed row
    active again, with the role of the request and [joinedAt] set to the
    time of the request. *)
Theorem removed_member_rejoins (st st1 : Store) (id memberId : string) :
  NoDup (List.map mmb_id (ministryMembers st)) ->
  MinistryController.removeMember st id memberId
  = (st1, ok 200 "Member removed from ministry successfully") ->
  exists row,
    MinistryController.findMinistryMember st id memberId = Some row /\
    mmb_isActive row = true /\
    MinistryController.removeMember st1 id memberId
    = (st1, Next (ApiError 404 "Member not found in this ministry" None)) /\
    (forall role,
        MinistryController.updateMemberRole [] st1 id memberId role
        = (st1, Next (ApiError 404 "Member not found in this ministry" None))) /\
    (forall now uuid role ministry member,
        List.find (fun m => min_id m =? id) (ministries st) = Some ministry ->
        List.find (fun m => mem_id m =? memberId) (members st) = Some member ->
        MinistryController.addMember [] now uuid st1 id (Some memberId) role
        = (setMinistryMembers st
             (updateFirst (fun m => mmb_id m =? mmb_id row)
                (MinistryController.rejoin
                   (match role with Some r => r | None => "MEMBER" end) now)
                (ministryMembers st)),
           ok 201 "Member added to ministry successfully")).
Proof.
  intros Hnd. unfold MinistryController.removeMember at 1.
  destruct (MinistryController.findMinistryMember st id memberId) as [row|] eqn:F;
    [|discriminate].
  destruct (mmb_isActive row) eqn:A; cbn [negb]; [|discriminate].
  intros H. injection H as <-.
  exists row. split; [reflexivity|]. split; [exact A|].
  unfold MinistryController.findMinistryMember in F.
  pose proof (@find_after_updateFirst _ mmb_id
                (fun m => (mmb_ministryId m =? id) && (mmb_memberId m =? memberId))
                (MinistryController.setMinistryMemberActive false)
                (ministryMembers st) row Hnd ltac:(reflexivity) F) as F1.
  split; [|split].
  - unfold MinistryController.removeMember, MinistryController.findMinistryMember.
    cbn [ministryMembers setMinistryMembers]. rewrite F1. reflexivity.
  - intros role.
    unfold MinistryController.updateMemberRole, MinistryController.findMinistryMember.
    cbn [ministryMembers setMinistryMembers]. rewrite F1. reflexivity.
  - intros now uuid role ministry member Hmin Hmem.
    unfold MinistryController.addMember, MinistryController.findMinistryMember.
    cbn [ministries members ministryMembers setMinistryMembers].
    rewrite Hmin, Hmem, F1.
    cbn [mmb_isActive MinistryController.setMinistryMemberActive mmb_id].
    rewrite updateFirst_twice by reflexivity.
    destruct st; reflexivity.
Qed.

(** Carol leaves the choir and comes back as a leader. *)
Lemma removed_member_rejoins_witness :
  snd (MinistryController.addMember [] 90%Z "mb-9"
         (fst (MinistryController.removeMember sampleStore "min-1" "m-3"))
         "min-1" (Some "m-3") (Some "LEADER"))
  = ok 201 "Member added to ministry successfully" /\
  ministryMembers
    (fst (MinistryController.addMember [] 90%Z "mb-9"
            (fst (MinistryController.removeMember sampleStore "min-1" "m-3"))
            "min-1" (Some "m-3") (Some "LEADER")))
  = [mkMinistryMember "mb-1" "min-1" "m-3" "LEADER" 90 true].
Proof.
  destruct (@removed_member_rejoins sampleStore
              (fst (MinistryController.removeMember sampleStore "min-1" "m-3"))
              "min-1" "m-3")
    as (row & Hrow & _ & _ & _ & Hadd).
  - repeat constructor. simpl. tauto.
  - reflexivity.
  - injection Hrow as <-.
    rewrite (Hadd 90%Z "mb-9" (Some "LEADER") choir carol eq_refl eq_refl).
    split; reflexivity.
Defined.

(** ** Members *)

Lemma find_after_replace (l : list Member) (id : string) (existing member : Member) :
  List.find (fun m => mem_id m =? id) l = Some existing ->
  mem_id member = id ->
  List.find (fun m => mem_id m =? id)
            (updateFirst (fun m => mem_id m =? id) (fun _ => member) l) = Some member.
Proof.
  intros F Hid. induction l as [|x l IH]; cbn [List.find updateFirst] in *; [discriminate|].
  destruct (mem_id x =? id) eqn:E; cbn [List.find].
  - rewrite Hid, String.eqb_refl. reflexivity.
  - rewrite E. exact (IH F).
Qed.

Lemma map_replace (A : Type) (g : Member -> A) (l : list Member) (id : string)
      (existing member : Member) :
  List.find (fun m => mem_id m =? id) l = Some existing ->
  g member = g existing ->
  List.map g (updateFirst (fun m => mem_id m =? id) (fun _ => member) l) = List.map g l.
Proof.
  intros F Hg. induction l as [|x l IH]; cbn [List.find updateFirst List.map] in *;
    [reflexivity|].
  destruct (mem_id x =? id) eqn:E; cbn [List.map].
  - injection F as ->. rewrite Hg. reflexivity.
  - rewrite (IH F). reflexivity.
Qed.

(** Between [st] and [st'] nothing changed but columns of the member
    [id], its [id] and [userId] excepted. *)
Definition onlyMemberChanged (id : string) (st st' : Store) : Prop :=
  st' = setMembers st (members st') /\
  List.map mem_id (members st') = List.map mem_id (members st) /\
  List.map mem_userId (members st') = List.map mem_userId (members st) /\
  forall m, In m (members st) -> mem_id m <> id -> In m (members st').

Lemma onlyMemberChanged_refl (id : string) (st : Store) : onlyMemberChanged id st st.
Proof.
  split; [destruct st; reflexivity|]. split; [reflexivity|]. split; [reflexivity|]. auto.
Qed.

Lemma onlyMemberChanged_replace (id : string) (st : Store) (existing member : Member) :
  List.find (fun m => mem_id m =? id) (members st) = Some existing ->
  mem_id member = mem_id existing -> mem_userId member = mem_userId existing ->
  onlyMemberChanged id st
    (setMembers st (updateFirst (fun m => mem_id m =? id) (fun _ => member) (members st))).
Proof.
  intros F Hid Huid. unfold onlyMemberChanged. cbn [members setMembers].
  split; [reflexivity|].
  split; [apply map_replace with (existing := existing); assumption|].
  split; [apply map_replace with (existing := existing); assumption|].
  intros m Hm Hne. apply In_updateFirst_other; [exact Hm|].
  apply String.eqb_neq. exact Hne.
Qed.

(** X14: [update] of the member service writes to one row at most:
    the tables other than members, the other members, the number of rows
    and the [id] and [userId] of every row are as before; a call that
    throws or returns null has written nothing; the member it returns is
    the row [findById] reads afterwards, and an absent or empty [name]
    leaves the name as it was. *)
Theorem update_touches_one_row (st st' : Store) (id : string)
        (data : MemberService.MemberData) (r : Result (option Member)) :
  MemberService.update st id data = (st', r) ->
  onlyMemberChanged id st st' /\
  match r with
  | Return (Some member) =>
      mem_id member = id /\ MemberService.findById st' id = Some member /\
      (Js.truthyField (MemberService.d_name data) = false ->
       option_map mem_name (MemberService.findById st id) = Some (mem_name member))
  | Return None => MemberService.findById st id = None /\ st' = st
  | Throw _ => st' = st
  end.
Proof.
  unfold MemberService.update, MemberService.findById.
  destruct (List.find _ (members st)) as [existing|] eqn:F.
  2: { intros H. injection H as <- <-. split; [apply onlyMemberChanged_refl|auto]. }
  set (proceed := match MemberService.d_isActive data with Js.Null => _ | _ => _ end).
  match goal with
  | |- _ -> ?C => assert (Hproceed : proceed = (st', r) -> C)
  end.
  { subst proceed.
    pose proof (@find_key_Some _ mem_id _ _ _ F) as [Hin Hid].
    match goal with
    | |- _ -> ?C =>
        assert (Hgo : forall member,
                  mem_id member = mem_id existing ->
                  mem_userId member = mem_userId existing ->
                  (Js.truthyField (MemberService.d_name data) = false ->
                   mem_name member = mem_name existing) ->
                  (if match MemberService.d_email data with
                      | Js.Undefined => false
                      | _ => MemberService.emailTaken st id (mem_email member)
                      end
                   then (st, Throw MemberService.uniqueEmailViolation)
                   else (setMembers st (updateFirst (fun m => mem_id m =? id)
                                                    (fun _ => member) (members st)),
                         Return (Some member))) = (st', r) -> C)
    end.
    { intros member Hmid Huid Hname.
      destruct (match MemberService.d_email data with Js.Undefined => false | _ => _ end).
      - intros H. injection H as <- <-. split; [apply onlyMemberChanged_refl|reflexivity].
      - intros H. injection H as <- <-.
        split; [apply onlyMemberChanged_replace with (existing := existing); assumption|].
        cbn [members setMembers]. split; [congruence|]. split.
        + apply find_after_replace with (existing := existing); congruence.
        + intros Hn. cbn [option_map]. rewrite (Hname Hn). reflexivity. }
    destruct (MemberService.d_isActive data).
    - apply Hgo; [reflexivity..|].
      intros Hn. cbn [mem_name]. rewrite Hn. reflexivity.
    - intros H. injection H as <- <-. split; [apply onlyMemberChanged_refl|reflexivity].
    - apply Hgo; [reflexivity..|].
      intros Hn. cbn [mem_name]. rewrite Hn. reflexivity. }
  assert (Hthrow : forall e, (st, @Throw (option Member) e) = (st', r) ->
                             onlyMemberChanged id st st' /\ st' = st /\ r = Throw e).
  { intros e H. injection H as <- <-. split; [apply onlyMemberChanged_refl|auto]. }
  destruct (MemberService.d_email data) as [| |email]; try exact Hproceed.
  destruct (_ && _)%bool; [|exact Hproceed].
  destruct (MemberService.findByEmail st email); [|exact Hproceed].
  intros H. destruct (Hthrow _ H) as (H1 & H2 & ->). split; assumption.
Qed.

(** Bob gets a phone number: the other members are as before. *)
Definition bobsPhone : MemberService.MemberData :=
  MemberService.mkData Js.Undefined Js.Undefined (Js.Value "555-0102") Js.Undefined
                       Js.Undefined Js.Undefined Js.Undefined Js.Undefined Js.Undefined
                       Js.Undefined Js.Undefined Js.Undefined.

Lemma update_touches_one_row_witness :
  onlyMemberChanged "m-2" sampleStore
    (fst (MemberService.update sampleStore "m-2" bobsPhone)) /\
  option_map mem_phone
    (MemberService.findById (fst (MemberService.update sampleStore "m-2" bobsPhone)) "m-2")
  = Some (Some "555-0102").
Proof.
  split; [|reflexivity].
  destruct (@update_touches_one_row sampleStore
              (fst (MemberService.update sampleStore "m-2" bobsPhone)) "m-2" bobsPhone
              (snd (MemberService.update sampleStore "m-2" bobsPhone)) eq_refl)
    as [H _].
  exact H.
Defined.

(** X15: [delete] of the member controller, and [deleteMember] of
    the service under it, either remove the row and nothing else, or answer
    404 'Member not found' with nothing written; the 404 is also the answer
    for a member that exists when the database refuses the removal. They
    never deactivate a member. *)
Theorem member_delete_masks_refusal (restricted : Store -> string -> bool)
        (st : Store) (id : string) :
  let (st', out) := MemberController.delete restricted st id in
  (MemberService.deleteMember restricted st id
   = (st', match out with Json _ => Return tt | Next e => Throw e end)) /\
  ((out = BaseController.handleNoContent "Member deleted successfully" /\
    MemberService.findById st id <> None /\ restricted st id = false /\
    st' = setMembers st (deleteFirst (fun m => mem_id m =? id) (members st)) /\
    List.filter (fun m => negb (mem_id m =? id)) (members st')
    = List.filter (fun m => negb (mem_id m =? id)) (members st)) \/
   (out = Next (NotFoundError "Member not found") /\ st' = st /\
    (MemberService.findById st id = None \/ restricted st id = true))).
Proof.
  unfold MemberController.delete, MemberService.deleteMember, MemberService.delete,
    MemberService.findById.
  destruct (List.find _ (members st)) as [m|] eqn:F; cbn [negb].
  - destruct (restricted st id) eqn:R; cbn [negb].
    + split; [reflexivity|]. right. auto.
    + split; [reflexivity|]. left.
      split; [reflexivity|]. split; [discriminate|]. split; [reflexivity|].
      split; [reflexivity|]. cbn [members setMembers].
      clear F. induction (members st) as [|x l IH]; cbn [deleteFirst List.filter];
        [reflexivity|].
      destruct (mem_id x =? id) eqn:E; cbn [negb List.filter].
      * reflexivity.
      * rewrite E. cbn [negb]. rewrite IH. reflexivity.
  - split; [reflexivity|]. right. auto.
Qed.

Lemma memberMatches_any (st : Store) (m : Member) :
  memberMatches st (mkMemberWhere None None None None) m = true.
Proof. reflexivity. Qed.

Section Legacy.
Variable orderBy : forall Row : Type, string -> string -> list Row -> list Row.
Hypothesis orderBy_perm :
  forall (Row : Type) (column direction : string) (l : list Row),
    Permutation (orderBy column direction l) l.

(** X16: [getAllMembers] returns members of the table, inactive ones
    included, but 1000 of them at most: with more than 1000 members some
    member is missing from the result. *)
Theorem getAllMembers_stops_at_1000 (st : Store) :
  exists rows,
    MemberService.getAllMembers orderBy st = Return rows /\
    List.length rows = Nat.min 1000 (List.length (members st)) /\
    (forall m, In m rows -> In m (members st)) /\
    (PrimaryKeys st -> (1000 < List.length (members st))%nat ->
     exists m, In m (members st) /\ ~ In m rows).
Proof.
  unfold MemberService.getAllMembers, MemberService.findAll.
  cbn [MemberService.skip MemberService.take MemberService.search MemberService.cellId
       MemberService.ministryId MemberService.isActive MemberService.sortBy
       MemberService.sortOrder Js.truthyOpt].
  rewrite (@filter_all _ _ (members st) (memberMatches_any st)).
  unfold findMany. cbn [Z.ltb Z.compare orb].
  eexists. split; [reflexivity|].
  set (ordered := orderBy "createdAt" "desc" (members st)).
  pose proof (orderBy_perm "createdAt" "desc" (members st)) as Hperm. fold ordered in Hperm.
  change (Z.to_nat 0) with 0%nat. cbn [List.skipn].
  change (Z.to_nat 1000) with 1000%nat.
  split; [|split].
  - rewrite List.length_firstn, (Permutation_length Hperm). reflexivity.
  - intros m Hin. apply (Permutation_in m Hperm).
    exact (In_firstn _ _ _ Hin).
  - intros Hpk Hlong.
    assert (Hnd : NoDup ordered).
    { apply (Permutation_NoDup (Permutation_sym Hperm)).
      apply (List.NoDup_map_inv mem_id). exact (pk_members Hpk). }
    rewrite <- (List.firstn_skipn 1000 ordered) in Hnd.
    destruct (List.skipn 1000 ordered) as [|m rest] eqn:E.
    + exfalso. pose proof (List.length_skipn 1000 ordered) as Hl.
      rewrite E, (Permutation_length Hperm) in Hl. simpl in Hl. lia.
    + exists m. split.
      * apply (Permutation_in m Hperm).
        apply (In_skipn 1000). rewrite E. left. reflexivity.
      * intros Hin. apply (@NoDup_app_disjoint _ _ _ m Hnd Hin). left. reflexivity.
Qed.

End Legacy.

(** The three members of the sample. *)
Lemma getAllMembers_stops_at_1000_witness :
  exists rows,
    MemberService.getAllMembers (fun _ _ _ l => l) sampleStore = Return rows /\
    List.length rows = Nat.min 1000 (List.length (members sampleStore)) /\
    (forall m, In m rows -> In m (members sampleStore)) /\
    (PrimaryKeys sampleStore -> (1000 < List.length (members sampleStore))%nat ->
     exists m, In m (members sampleStore) /\ ~ In m rows).
Proof.
  apply (@getAllMembers_stops_at_1000 (fun _ _ _ l => l)).
  intros Row column direction l. apply Permutation_refl.
Defined.

Section CreateDelete.
Variable uuid : string.
Variable isActiveDefault : bool.
Variable rejected : Store -> Member -> bool.
Variable restricted : Store -> string -> bool.

Lemma find_app_fresh (l : list Member) (m : Member) :
  ~ In (mem_id m) (List.map mem_id l) ->
  List.find (fun x => mem_id x =? mem_id m) (l ++ [m]) = Some m /\
  deleteFirst (fun x => mem_id x =? mem_id m) (l ++ [m]) = l.
Proof.
  induction l as [|x l IH]; cbn [List.app List.find deleteFirst List.map]; intros H.
  - rewrite String.eqb_refl. split; reflexivity.
  - destruct (mem_id x =? mem_id m) eqn:E.
    + exfalso. apply H. left. apply String.eqb_eq. exact E.
    + destruct IH as [IH1 IH2]; [intros Hin; apply H; right; exact Hin|].
      rewrite IH1, IH2. split; reflexivity.
Qed.

(** X17: a member created under a key that was not in use is the
    row [findById] reads under that key, the other members read as before,
    and deleting the key again brings the database back to where it was
    before the creation (unless the database refuses the removal). *)
Theorem create_then_delete_restores (st st1 : Store) (data : MemberService.MemberData)
        (member : Member) :
  ~ In uuid (List.map mem_id (members st)) ->
  MemberService.create uuid isActiveDefault rejected st data = (st1, Return member) ->
  mem_id member = uuid /\
  MemberService.findById st1 uuid = Some member /\
  (forall m, In m (members st) -> MemberService.findById st1 (mem_id m)
                                  = MemberService.findById st (mem_id m)) /\
  (restricted st1 uuid = false ->
   MemberService.delete restricted st1 uuid = (st, true)).
Proof.
  intros Hfresh. unfold MemberService.create.
  assert (Hgo : match MemberService.d_name data with
                | Js.Value name =>
                    let member := MemberService.newMember uuid isActiveDefault data name in
                    if MemberService.emailTaken st uuid (mem_email member)
                    then (st, Throw MemberService.uniqueEmailViolation)
                    else if rejected st member
                    then (st, Throw foreignKeyViolation)
                    else (setMembers st (members st ++ [member])%list, Return member)
                | _ => (st, Throw PrismaClientValidationError)
                end = (st1, Return member) ->
                mem_id member = uuid /\
                MemberService.findById st1 uuid = Some member /\
                (forall m, In m (members st) -> MemberService.findById st1 (mem_id m)
                                                = MemberService.findById st (mem_id m)) /\
                (restricted st1 uuid = false ->
                 MemberService.delete restricted st1 uuid = (st, true))).
  { destruct (MemberService.d_name data) as [| |name]; try discriminate.
    cbv zeta. set (created := MemberService.newMember uuid isActiveDefault data name).
    destruct (MemberService.emailTaken st uuid (mem_email created)); [discriminate|].
    destruct (rejected st created); [discriminate|].
    intros H. injection H as <- <-.
    assert (Hid : mem_id created = uuid) by reflexivity.
    rewrite <- Hid in Hfresh.
    destruct (find_app_fresh (members st) created Hfresh) as [F D].
    unfold MemberService.findById, MemberService.delete. cbn [members setMembers].
    rewrite <- Hid. split; [reflexivity|]. split; [exact F|]. split.
    - intros m Hin. clear F D. induction (members st) as [|x l IH]; [destruct Hin|].
      cbn [List.app List.find]. destruct (mem_id x =? mem_id m) eqn:E; [reflexivity|].
      destruct Hin as [->|Hin]; [rewrite String.eqb_refl in E; discriminate|].
      apply IH; [|exact Hin]. intros Hc. apply Hfresh. right. exact Hc.
    - rewrite F. intros ->. rewrite D. destruct st; reflexivity. }
  destruct (MemberService.d_email data) as [| |email]; try exact Hgo.
  destruct (Js.truthy email); [|exact Hgo].
  destruct (MemberService.findByEmail st email); [discriminate|exact Hgo].
Qed.

End CreateDelete.

(** Dora, a member without an e-mail address. *)
Definition dora : MemberService.MemberData :=
  MemberService.mkData (Js.Value "Dora") Js.Undefined Js.Undefined Js.Undefined
                       Js.Undefined Js.Undefined Js.Undefined Js.Undefined Js.Undefined
                       Js.Undefined Js.Undefined Js.Undefined.

Lemma create_then_delete_restores_witness :
  MemberService.delete (fun _ _ => false)
    (fst (MemberService.create "m-4" true (fun _ _ => false) sampleStore dora)) "m-4"
  = (sampleStore, true).
Proof.
  destruct (@create_then_delete_restores "m-4" true (fun _ _ => false) (fun _ _ => false)
              sampleStore
              (fst (MemberService.create "m-4" true (fun _ _ => false) sampleStore dora))
              dora
              (MemberService.newMember "m-4" true dora "Dora"))
    as (_ & _ & _ & H).
  - simpl. intuition discriminate.
  - reflexivity.
  - apply H. reflexivity.
Defined.

(** ** Contributions *)

(** X18: [deleteContribution] either answers 400 or 404 and writes
    nothing, or removes the one contribution of that id: the other
    contributions stay in their order, the member's count of contributions
    (on which [deleteMember] decides between deactivating and removing)
    goes down by one, and a second request for the id is answered 404. *)
Theorem deleteContribution_removes_one (st : Store) (id : string) :
  let (st', out) := ContributionController.deleteContribution st id in
  (exists c,
      out = ok 200 "Contribution deleted successfully" /\
      List.find (fun c => con_id c =? id) (contributions st) = Some c /\
      S (List.length (contributions st')) = List.length (contributions st) /\
      List.filter (fun c => negb (con_id c =? id)) (contributions st')
      = List.filter (fun c => negb (con_id c =? id)) (contributions st) /\
      (forall memberId,
          SimpleMemberController.contributionCount st' memberId
          = (SimpleMemberController.contributionCount st memberId
             - oneIf (String.eqb (con_memberId c) memberId))%Z) /\
      (members st' = members st /\ memberMinistries st' = memberMinistries st) /\
      (NoDup (List.map con_id (contributions st)) ->
       ContributionController.deleteContribution st' id
       = (st', Next (ApiError 404 "Contribution not found" None)))) \/
  (st' = st /\
   (out = Next (ApiError 400 "Contribution ID is required" None) \/
    out = Next (ApiError 404 "Contribution not found" None))).
Proof.
  unfold ContributionController.deleteContribution.
  destruct (Js.truthy id) eqn:Hid; cbn [negb]; [|right; auto].
  destruct (List.find _ (contributions st)) as [c|] eqn:F; [|right; auto].
  left. exists c. cbn [contributions members memberMinistries].
  split; [reflexivity|]. split; [reflexivity|].
  split; [exact (length_deleteFirst _ _ F)|].
  split; [apply filter_deleteFirst|].
  split.
  { intros memberId. unfold SimpleMemberController.contributionCount.
    cbn [contributions].
    exact (@count_deleteFirst _ (fun c0 => con_memberId c0 =? memberId) _ _ c F). }
  split; [split; reflexivity|].
  intros Hnd. cbn [negb contributions].
  rewrite (@find_deleteFirst _ con_id id (contributions st) Hnd). reflexivity.
Qed.

(** ** Passwords *)




Section Login.
Variable isEmail : string -> bool.
Variable compare : string -> string -> bool.
Variable JWT_SECRET : option string.

(** X19: [login] answers a request for a deactivated account with
    'Account is deactivated' whatever the password, right or wrong, while a
    request for an address nobody has and a request with a wrong password
    for an active account receive the same 'Invalid credentials'; none of
    them writes. *)
Theorem login_reveals_deactivation (now : Z) (st : Store) (pw : NewAuthController.Passwords) :
  (forall email password user,
      isEmail email = true -> password <> "" ->
      List.find (fun u => usr_email u =? email) (users st) = Some user ->
      usr_isActive user = false ->
      NewAuthController.login isEmail compare JWT_SECRET now st pw
        (Js.Value email) (Js.Value password)
      = (st, Next (UnauthorizedError "Account is deactivated"))) /\
  (forall unknown password email password' user,
      isEmail unknown = true -> password <> "" ->
      List.find (fun u => usr_email u =? unknown) (users st) = None ->
      isEmail email = true -> password' <> "" ->
      List.find (fun u => usr_email u =? email) (users st) = Some user ->
      usr_isActive user = true ->
      compare password' (pw (usr_id user)) = false ->
      NewAuthController.login isEmail compare JWT_SECRET now st pw
        (Js.Value unknown) (Js.Value password)
      = (st, Next (UnauthorizedError "Invalid credentials")) /\
      NewAuthController.login isEmail compare JWT_SECRET now st pw
        (Js.Value email) (Js.Value password')
      = (st, Next (UnauthorizedError "Invalid credentials"))).
Proof.
  unfold NewAuthController.login, NewAuthController.loginValidation,
    NewAuthController.validationResult, NewAuthController.notEmpty.
  split.
  - intros email password user He Hp F A. apply truthy_true in Hp.
    rewrite He, Hp, F, A. reflexivity.
  - intros unknown password email password' user Hu Hp F He Hp' F' A C.
    apply truthy_true in Hp, Hp'.
    rewrite Hu, Hp, F, He, Hp', F', A, C. split; reflexivity.
Qed.


End Login.


(** X21: [forgotPassword] writes to the users table only, keeps the
    ids, and never touches a user whose stored address is not the
    lower-case form of any string, as is an address with an upper-case
    letter: the lookup is made with the lower-cased address of the request,
    so such a user is never given a reset token. *)
Theorem forgotPassword_needs_lower_case (isEmail : string -> bool)
        (toLowerCase : string -> string) (now : Z)
        (resetToken : string) (st : Store) (email : Js.Field string) :
  NoDup (List.map usr_id (users st)) ->
  let st' := fst (NewAuthController.forgotPassword isEmail toLowerCase now resetToken
                    st email) in
  st' = setUsers st (users st') /\
  List.map usr_id (users st') = List.map usr_id (users st) /\
  forall u, In u (users st) -> (forall s, toLowerCase s <> usr_email u) ->
            In u (users st').
Proof.
  intros Hnd. cbv zeta.
  assert (Hst : st = setUsers st (users st)) by (destruct st; reflexivity).
  unfold NewAuthController.forgotPassword.
  destruct (NewAuthController.validationResult isEmail email); [|auto].
  destruct email as [| |e]; auto.
  destruct (List.find _ (users st)) as [user|] eqn:F; [|auto].
  cbn [fst users setUsers]. split; [reflexivity|].
  split; [apply map_updateFirst; reflexivity|].
  intros u Hin Hcase. apply In_updateFirst_other; [exact Hin|].
  apply String.eqb_neq. intros Hid.
  apply List.find_some in F. destruct F as [Hin' He]. apply String.eqb_eq in He.
  assert (u = user) by (exact (@NoDup_key_eq _ usr_id (users st) u user Hnd Hin Hin' Hid)).
  subst u. exact (Hcase e (eq_sym He)).
Qed.

(** A user registered as "Erin@Church.org" asks for a reset link. *)
Definition erin : User :=
  mkUser "u-2" "Erin@Church.org" true ["MEMBER"] None None None.

Lemma lowerAscii_not_E (c : ascii) : Js.lowerAscii c <> "E"%char.
Proof.
  destruct c as [[] [] [] [] [] [] [] []]; vm_compute; discriminate.
Qed.

(** The theorem with the lower-casing of the letters A to Z. *)
Lemma forgotPassword_needs_lower_case_witness :
  In erin (users (fst (NewAuthController.forgotPassword
                         (Js.contains "@") Js.foldAscii 5%Z "0f3a"
                         (setUsers sampleStore [admin; erin])
                         (Js.Value "Erin@Church.org")))).
Proof.
  destruct (@forgotPassword_needs_lower_case (Js.contains "@") Js.foldAscii 5%Z "0f3a"
              (setUsers sampleStore [admin; erin]) (Js.Value "Erin@Church.org"))
    as (_ & _ & H).
  - repeat constructor; simpl; intuition discriminate.
  - apply H; [simpl; auto|].
    intros s Hs. destruct s as [|c s]; [discriminate Hs|].
    cbn [Js.foldAscii erin usr_email] in Hs. injection Hs as Hc _.
    exact (@lowerAscii_not_E c Hc).
Defined.

Section ResetPassword.
Variable isEmail : string -> bool.
Variable toLowerCase : string -> string.
Variable compare : string -> string -> bool.
Variable hash : string -> string -> string.
Variable length : string -> nat.
Hypothesis compare_hash : forall salt password, compare password (hash salt password) = true.
Hypothesis length_empty : length "" = 0%nat.




End ResetPassword.


(** ** Announcements *)

Module Ann := AnnouncementController.

Lemma In_updateFirst_inv (Row : Type) (p : Row -> bool) (f : Row -> Row) (l : list Row)
      (x : Row) :
  In x (updateFirst p f l) ->
  In x l \/ exists r, List.find p l = Some r /\ x = f r.
Proof.
  induction l as [|r l IH]; cbn [updateFirst List.find]; [tauto|].
  destruct (p r) eqn:E.
  - intros [<-|Hin]; [right; exists r; auto|left; right; exact Hin].
  - intros [<-|Hin]; [left; left; reflexivity|].
    destruct (IH Hin) as [H|H]; [left; right; exact H|right; exact H].
Qed.

Lemma updateFirst_ext (Row : Type) (p : Row -> bool) (f g : Row -> Row) (l : list Row) :
  (forall r, f r = g r) -> updateFirst p f l = updateFirst p g l.
Proof.
  intros H. induction l as [|r l IH]; cbn [updateFirst]; [reflexivity|].
  destruct (p r); [rewrite H|rewrite IH]; reflexivity.
Qed.

(** No inactive announcement is published. *)
Definition publishedAreActive (tbl : Ann.Table) : Prop :=
  forall a, In a tbl -> Ann.ann_isPublished a = true -> Ann.ann_isActive a = true.

(** The tables reached from [tbl0] by delete, publish and unpublish
    requests handled one after the other. *)
Inductive lifecycle (tbl0 : Ann.Table) : Ann.Table -> Prop :=
| lifecycle_none : lifecycle tbl0 tbl0
| lifecycle_delete (tbl : Ann.Table) (id : string) :
    lifecycle tbl0 tbl -> lifecycle tbl0 (fst (Ann.deleteAnnouncement tbl id))
| lifecycle_publish (tbl : Ann.Table) (now : Z) (id : string) :
    lifecycle tbl0 tbl -> lifecycle tbl0 (fst (Ann.publishAnnouncement now tbl id))
| lifecycle_unpublish (tbl : Ann.Table) (id : string) :
    lifecycle tbl0 tbl -> lifecycle tbl0 (fst (Ann.unpublishAnnouncement tbl id)).

(** X23: delete, publish and unpublish requests, in any order, never
    remove or add an announcement and never leave an inactive announcement
    published. *)
Theorem lifecycle_keeps_published_active (tbl0 tbl : Ann.Table) :
  publishedAreActive tbl0 -> lifecycle tbl0 tbl ->
  publishedAreActive tbl /\ List.map Ann.ann_id tbl = List.map Ann.ann_id tbl0.
Proof.
  intros H0 Hreach. induction Hreach as [|tbl id _ [IH1 IH2]|tbl now id _ [IH1 IH2]
                                        |tbl id _ [IH1 IH2]].
  - split; [exact H0|reflexivity].
  - unfold Ann.deleteAnnouncement.
    destruct (negb (Js.truthy id)); [split; assumption|].
    destruct (List.find _ tbl) as [announcement|]; [|split; assumption].
    cbn [fst]. split; [|rewrite map_updateFirst; [exact IH2|reflexivity]].
    intros a Hin Hpub. destruct (In_updateFirst_inv _ _ _ _ Hin) as [H|[r [_ ->]]].
    + exact (IH1 a H Hpub).
    + discriminate Hpub.
  - unfold Ann.publishAnnouncement.
    destruct (negb (Js.truthy id)); [split; assumption|].
    destruct (List.find _ tbl) as [announcement|] eqn:F; [|split; assumption].
    destruct (Ann.ann_isActive announcement) eqn:A; cbn [negb]; [|split; assumption].
    cbn [fst]. split; [|rewrite map_updateFirst; [exact IH2|reflexivity]].
    intros a Hin Hpub. destruct (In_updateFirst_inv _ _ _ _ Hin) as [H|[r [Hr ->]]].
    + exact (IH1 a H Hpub).
    + rewrite F in Hr. injection Hr as <-. exact A.
  - unfold Ann.unpublishAnnouncement.
    destruct (negb (Js.truthy id)); [split; assumption|].
    destruct (List.find _ tbl) as [announcement|]; [|split; assumption].
    cbn [fst]. split; [|rewrite map_updateFirst; [exact IH2|reflexivity]].
    intros a Hin Hpub. destruct (In_updateFirst_inv _ _ _ _ Hin) as [H|[r [_ ->]]].
    + exact (IH1 a H Hpub).
    + discriminate Hpub.
Qed.

(** Two announcements: a published notice and a draft. *)
Definition notice : Ann.Announcement :=
  Ann.mkAnnouncement "a-1" "Harvest service" "The harvest service is on Sunday."
                     "high" "all" (Some 10%Z) None true true "m-1" [].

Definition draft : Ann.Announcement :=
  Ann.mkAnnouncement "a-2" "Choir practice" "Practice moves to Thursday evening."
                     "normal" "members" None None false true "m-1" [].

Definition sampleAnnouncements : Ann.Table := [notice; draft].

(** The draft is published, the notice deleted. *)
Lemma lifecycle_keeps_published_active_witness :
  publishedAreActive
    (fst (Ann.deleteAnnouncement
            (fst (Ann.publishAnnouncement 20%Z sampleAnnouncements "a-2")) "a-1")) /\
  List.map Ann.ann_id
    (fst (Ann.deleteAnnouncement
            (fst (Ann.publishAnnouncement 20%Z sampleAnnouncements "a-2")) "a-1"))
  = ["a-1"; "a-2"].
Proof.
  apply (@lifecycle_keeps_published_active sampleAnnouncements).
  - intros a [<-|[<-|[]]]; [reflexivity|discriminate].
  - apply lifecycle_delete, lifecycle_publish, lifecycle_none.
Defined.

(** X24: after a successful [deleteAnnouncement] the row is still
    there, unpublished and inactive, and [getAnnouncementById] still
    serves it; [publishAnnouncement] refuses it with 400, and a second
    [deleteAnnouncement] succeeds again and changes nothing. *)
Theorem deleted_announcement_still_served (tbl tbl' : Ann.Table) (id : string) :
  Ann.deleteAnnouncement tbl id = (tbl', ok 200 "Announcement deleted successfully") ->
  exists a,
    List.find (fun x => Ann.ann_id x =? id) tbl = Some a /\
    List.length tbl' = List.length tbl /\
    Ann.getAnnouncementById tbl' id
    = Ann.Data (Ann.softDelete a) "Announcement retrieved successfully" /\
    (forall now,
        Ann.publishAnnouncement now tbl' id
        = (tbl', Next (ApiError 400 "Cannot publish inactive announcement" None))) /\
    Ann.deleteAnnouncement tbl' id = (tbl', ok 200 "Announcement deleted successfully").
Proof.
  unfold Ann.deleteAnnouncement at 1.
  destruct (Js.truthy id) eqn:Hid; cbn [negb]; [|discriminate].
  destruct (List.find _ tbl) as [a|] eqn:F; [|discriminate].
  intros H. injection H as <-. exists a.
  pose proof (@find_updateFirst _ Ann.ann_id id Ann.softDelete tbl a
                ltac:(reflexivity) F) as F1.
  split; [reflexivity|]. split; [apply length_updateFirst|].
  split; [|split].
  - unfold Ann.getAnnouncementById. rewrite Hid, F1. reflexivity.
  - intros now. unfold Ann.publishAnnouncement. rewrite Hid, F1. reflexivity.
  - unfold Ann.deleteAnnouncement. rewrite Hid, F1. cbn [negb].
    rewrite updateFirst_twice by reflexivity.
    first [reflexivity | f_equal; apply updateFirst_ext; reflexivity].
Qed.

(** The notice of the sample is deleted. *)
Lemma deleted_announcement_still_served_witness :
  Ann.getAnnouncementById (fst (Ann.deleteAnnouncement sampleAnnouncements "a-1")) "a-1"
  = Ann.Data (Ann.softDelete notice) "Announcement retrieved successfully".
Proof.
  destruct (@deleted_announcement_still_served sampleAnnouncements
              (fst (Ann.deleteAnnouncement sampleAnnouncements "a-1")) "a-1" eq_refl)
    as (a & Ha & _ & H & _).
  injection Ha as <-. exact H.
Defined.

(** X25: an announcement that was published keeps its publication
    date: after an unpublish request, publishing it again, at any time,
    gives back the table as it was after the first publication. *)
Theorem republish_keeps_publishDate (now : Z) (tbl tbl1 : Ann.Table) (id : string) :
  Ann.publishAnnouncement now tbl id
  = (tbl1, ok 200 "Announcement published successfully") ->
  exists tbl2,
    Ann.unpublishAnnouncement tbl1 id
    = (tbl2, ok 200 "Announcement unpublished successfully") /\
    forall later,
      Ann.publishAnnouncement later tbl2 id
      = (tbl1, ok 200 "Announcement published successfully").
Proof.
  unfold Ann.publishAnnouncement at 1.
  destruct (Js.truthy id) eqn:Hid; cbn [negb]; [|discriminate].
  destruct (List.find _ tbl) as [a|] eqn:F; [|discriminate].
  destruct (Ann.ann_isActive a) eqn:A; cbn [negb]; [|discriminate].
  set (d := match Ann.ann_publishDate a with Some d => d | None => now end).
  intros H. injection H as <-.
  pose proof (@find_updateFirst _ Ann.ann_id id (Ann.publish d) tbl a
                ltac:(reflexivity) F) as F1.
  unfold Ann.unpublishAnnouncement. rewrite Hid, F1. cbn [negb].
  eexists. split; [reflexivity|]. intros later.
  rewrite updateFirst_twice by reflexivity.
  pose proof (@find_updateFirst _ Ann.ann_id id
                (fun r => Ann.unpublish (Ann.publish d r)) tbl a
                ltac:(reflexivity) F) as F2.
  unfold Ann.publishAnnouncement. rewrite Hid, F2. cbn [negb].
  cbn [Ann.ann_isActive Ann.unpublish Ann.publish Ann.ann_publishDate].
  rewrite A. cbn [negb].
  rewrite updateFirst_twice by reflexivity.
  first [reflexivity | f_equal; apply updateFirst_ext; reflexivity].
Qed.

(** The draft of the sample, published at 20 and again at 99. *)
Lemma republish_keeps_publishDate_witness :
  fst (Ann.publishAnnouncement 99%Z
         (fst (Ann.unpublishAnnouncement
                 (fst (Ann.publishAnnouncement 20%Z sampleAnnouncements "a-2")) "a-2"))
         "a-2")
  = fst (Ann.publishAnnouncement 20%Z sampleAnnouncements "a-2").
Proof.
  destruct (@republish_keeps_publishDate 20%Z sampleAnnouncements
              (fst (Ann.publishAnnouncement 20%Z sampleAnnouncements "a-2")) "a-2" eq_refl)
    as (tbl2 & H2 & H3).
  rewrite H2. cbn [fst]. rewrite (H3 99%Z). reflexivity.
Defined.

(** The body [{ "isPublished": true }]. *)
Definition publishByUpdate : Ann.AnnouncementBody :=
  Ann.mkAnnouncementBody None None None None None None (Some true) None None.

(** The body [{ "isActive": false }]. *)
Definition deactivateByUpdate : Ann.AnnouncementBody :=
  Ann.mkAnnouncementBody None None None None None None None (Some false) None.

(** X26: [updateAnnouncement] goes round the rules of the other
    handlers: with the body [{ isPublished: true }] it publishes an
    inactive announcement, which [publishAnnouncement] refuses, and with
    [{ isActive: false }] it deactivates a published announcement and
    leaves it published, which [deleteAnnouncement] never does. *)
Theorem update_goes_round_the_lifecycle (tbl : Ann.Table) (id : string)
        (a : Ann.Announcement) :
  id <> "" -> List.find (fun x => Ann.ann_id x =? id) tbl = Some a ->
  (Ann.ann_isActive a = false ->
   (forall now, snd (Ann.publishAnnouncement now tbl id)
                = Next (ApiError 400 "Cannot publish inactive announcement" None)) /\
   snd (Ann.updateAnnouncement [] tbl id publishByUpdate)
   = ok 200 "Announcement updated successfully" /\
   exists a',
     Ann.getAnnouncementById (fst (Ann.updateAnnouncement [] tbl id publishByUpdate)) id
     = Ann.Data a' "Announcement retrieved successfully" /\
     Ann.ann_isPublished a' = true /\ Ann.ann_isActive a' = false) /\
  (Ann.ann_isPublished a = true ->
   snd (Ann.updateAnnouncement [] tbl id deactivateByUpdate)
   = ok 200 "Announcement updated successfully" /\
   exists a',
     Ann.getAnnouncementById (fst (Ann.updateAnnouncement [] tbl id deactivateByUpdate)) id
     = Ann.Data a' "Announcement retrieved successfully" /\
     Ann.ann_isPublished a' = true /\ Ann.ann_isActive a' = false).
Proof.
  intros Hid F. apply truthy_true in Hid.
  split.
  - intros A. split; [|split].
    + intros now. unfold Ann.publishAnnouncement. rewrite Hid, F, A. reflexivity.
    + unfold Ann.updateAnnouncement. rewrite Hid, F. reflexivity.
    + unfold Ann.updateAnnouncement, Ann.getAnnouncementById. rewrite Hid, F.
      cbn [negb fst Ann.ab_publishDate publishByUpdate].
      match goal with
      | |- context [updateFirst _ ?f tbl] =>
          rewrite (@find_updateFirst _ Ann.ann_id id f tbl a ltac:(reflexivity) F)
      end.
      eexists. split; [reflexivity|]. split; [reflexivity|exact A].
  - intros P. split.
    + unfold Ann.updateAnnouncement. rewrite Hid, F. reflexivity.
    + unfold Ann.updateAnnouncement, Ann.getAnnouncementById. rewrite Hid, F.
      cbn [negb fst Ann.ab_publishDate deactivateByUpdate].
      match goal with
      | |- context [updateFirst _ ?f tbl] =>
          rewrite (@find_updateFirst _ Ann.ann_id id f tbl a ltac:(reflexivity) F)
      end.
      eexists. split; [reflexivity|]. split; [exact P|reflexivity].
Qed.

(** The notice of the sample is deactivated by an update and stays
    published. *)
Lemma update_goes_round_the_lifecycle_witness :
  exists a',
    Ann.getAnnouncementById
      (fst (Ann.updateAnnouncement [] sampleAnnouncements "a-1" deactivateByUpdate)) "a-1"
    = Ann.Data a' "Announcement retrieved successfully" /\
    Ann.ann_isPublished a' = true /\ Ann.ann_isActive a' = false.
Proof.
  destruct (@update_goes_round_the_lifecycle sampleAnnouncements "a-1" notice)
    as [_ H].
  - discriminate.
  - reflexivity.
  - destruct (H eq_refl) as [_ H']. exact H'.
Defined.

(** The query string [?publishedOnly=false], nothing else. *)
Definition everything : Ann.AnnouncementQuery :=
  Ann.mkAnnouncementQuery None None None None None None (Some "false") None None.

Section AnnouncementList.
Variable orderBy : forall Row : Type, string -> string -> list Row -> list Row.
Hypothesis orderBy_perm :
  forall (Row : Type) (column direction : string) (l : list Row),
    Permutation (orderBy column direction l) l.

(** X27: [publishedOnly] is all that stands between a client of
    [getAnnouncements] and the drafts.  When the parameter is absent or
    'true', every announcement of the reply is published, active and
    within its publication period, and an [isActive] parameter changes
    nothing; with [publishedOnly=false] and no other parameter the total
    counts every row of the table, and a table of up to ten rows is
    returned whole. *)
Theorem publishedOnly_is_the_only_guard (now : Z) (tbl : Ann.Table) :
  (forall q data page limit total a,
      Ann.aq_publishedOnly q = None \/ Ann.aq_publishedOnly q = Some "true" ->
      Ann.getAnnouncements orderBy now tbl q = ListJson data page limit total ->
      In a data ->
      In a tbl /\ Ann.ann_isPublished a = true /\ Ann.ann_isActive a = true /\
      Ann.inPeriod now a = true) /\
  (forall page limit search priority isActive isActive' targetAudience publishedOnly
          sortBy sortOrder,
      publishedOnly = None \/ publishedOnly = Some "true" ->
      Ann.getAnnouncements orderBy now tbl
        (Ann.mkAnnouncementQuery page limit search priority isActive targetAudience
                                 publishedOnly sortBy sortOrder)
      = Ann.getAnnouncements orderBy now tbl
          (Ann.mkAnnouncementQuery page limit search priority isActive' targetAudience
                                   publishedOnly sortBy sortOrder)) /\
  (exists data,
      Ann.getAnnouncements orderBy now tbl everything
      = ListJson data 1 10 (Z.of_nat (List.length tbl)) /\
      ((List.length tbl <= 10)%nat -> Permutation data tbl)).
Proof.
  split; [|split].
  - intros q data page limit total a Hpo. unfold Ann.getAnnouncements.
    assert (Hguard : Js.strictEqStr
                       (Js.withDefault (Js.QStr "true")
                                       (Js.queryVal (Ann.aq_publishedOnly q))) "true"
                     = true)
      by (destruct Hpo as [->| ->]; reflexivity).
    rewrite Hguard.
    destruct (findMany _ _ _ _ _ _) as [rows|e] eqn:Hfm; [|discriminate].
    intros H Hin. injection H as <- _ _ _.
    pose proof (@findMany_In orderBy orderBy_perm _ _ _ _ _ _ _ a Hfm Hin) as Hsel.
    apply List.filter_In in Hsel. destruct Hsel as [Htbl Hmatch].
    unfold Ann.announcementMatches in Hmatch.
    cbn [Ann.aw_isActive Ann.aw_isPublished Ann.aw_AND optTest] in Hmatch.
    rewrite !andb_true_iff in Hmatch.
    destruct Hmatch as [[[[[_ _] Hact] _] Hpub] Hper].
    apply Bool.eqb_prop in Hact, Hpub. auto.
  - intros page limit search priority isActive isActive' targetAudience publishedOnly
           sortBy sortOrder Hpo.
    unfold Ann.getAnnouncements.
    destruct Hpo as [->| ->]; reflexivity.
  - unfold Ann.getAnnouncements, everything.
    cbn [Ann.aq_page Ann.aq_limit Ann.aq_search Ann.aq_priority Ann.aq_isActive
         Ann.aq_targetAudience Ann.aq_publishedOnly Ann.aq_sortBy Ann.aq_sortOrder
         Js.queryVal Js.withDefault Js.strictEqStr Js.truthyOpt Js.isDefined
         String.eqb Ascii.eqb Bool.eqb].
    rewrite (@filter_all _ _ tbl) by reflexivity.
    unfold findMany. cbn [Z.sub Z.mul Z.ltb Z.compare orb Z.opp Z.add Z.pos_sub].
    eexists. split; [reflexivity|].
    intros Hlen. change (Z.to_nat _) with 0%nat at 2. cbn [List.skipn].
    rewrite List.firstn_all2.
    + apply orderBy_perm.
    + rewrite (Permutation_length (orderBy_perm "createdAt" "desc" tbl)).
      change (Z.to_nat 10) with 10%nat. exact Hlen.
Qed.

End AnnouncementList.

(** The draft of the sample is not in the default list, and it is in
    the list of [publishedOnly=false]. *)
Lemma publishedOnly_is_the_only_guard_witness :
  Ann.getAnnouncements (fun _ _ _ l => l) 20%Z sampleAnnouncements
    (Ann.mkAnnouncementQuery None None None None None None None None None)
  = ListJson [notice] 1 10 1 /\
  Ann.getAnnouncements (fun _ _ _ l => l) 20%Z sampleAnnouncements everything
  = ListJson [notice; draft] 1 10 2 /\
  (In notice sampleAnnouncements /\ Ann.ann_isPublished notice = true /\
   Ann.ann_isActive notice = true /\ Ann.inPeriod 20 notice = true).
Proof.
  destruct (@publishedOnly_is_the_only_guard (fun _ _ _ l => l)
              (fun _ _ _ l => Permutation_refl l) 20%Z sampleAnnouncements)
    as (H & _ & _).
  split; [reflexivity|]. split; [reflexivity|].
  apply (H (Ann.mkAnnouncementQuery None None None None None None None None None)
           [notice] 1%Z 10%Z 1%Z notice).
  - left. reflexivity.
  - reflexivity.
  - left. reflexivity.
Defined.

(** ** Removing a member from a ministry twice *)

(** X28: the two handlers that remove a member from a ministry
    differ on a membership that is already inactive.  After a successful
    [removeFromMinistry] of the member service a second call succeeds
    again and changes nothing, while after a successful
    [removeMemberFromMinistry] of the ministry controller a second request
    is answered 404; and the service reports success for a membership that
    was inactive from the start. *)
Theorem removal_twice (st : Store) (memberId ministryId : string) :
  PrimaryKeys st ->
  (forall st1,
      MemberService.removeFromMinistry st memberId ministryId = (st1, Return tt) ->
      MemberService.removeFromMinistry st1 memberId ministryId = (st1, Return tt)) /\
  (forall st1,
      MinistryController.removeMemberFromMinistry st ministryId memberId
      = (st1, ok 200 "Member removed from ministry successfully") ->
      MinistryController.removeMemberFromMinistry st1 ministryId memberId
      = (st1, Next (ApiError 404 "Member is not active in this ministry" None))) /\
  (forall row,
      MinistryController.findMembership st memberId ministryId = Some row ->
      mm_isActive row = false ->
      MemberService.removeFromMinistry st memberId ministryId = (st, Return tt) /\
      (memberId <> "" -> ministryId <> "" ->
       MinistryController.removeMemberFromMinistry st ministryId memberId
       = (st, Next (ApiError 404 "Member is not active in this ministry" None)))).
Proof.
  intros Hpk. pose proof (pk_memberMinistries Hpk) as Hnd.
  assert (Hafter : forall row,
             MinistryController.findMembership st memberId ministryId = Some row ->
             MinistryController.findMembership
               (setMemberMinistries st
                  (updateFirst (fun m => mm_id m =? mm_id row)
                               (MinistryController.setMembershipActive false)
                               (memberMinistries st)))
               memberId ministryId
             = Some (MinistryController.setMembershipActive false row)).
  { intros row F. unfold MinistryController.findMembership in *.
    cbn [memberMinistries setMemberMinistries].
    apply (@find_after_updateFirst _ mm_id); [exact Hnd|reflexivity|exact F]. }
  split; [|split].
  - intros st1. unfold MemberService.removeFromMinistry at 1.
    destruct (MinistryController.findMembership st memberId ministryId) as [row|] eqn:F;
      [|discriminate].
    intros H. injection H as <-.
    unfold MemberService.removeFromMinistry. rewrite (Hafter row eq_refl).
    cbn [memberMinistries setMemberMinistries mm_id MinistryController.setMembershipActive].
    rewrite updateFirst_twice by reflexivity. reflexivity.
  - intros st1. unfold MinistryController.removeMemberFromMinistry at 1.
    destruct (negb (Js.truthy ministryId) || negb (Js.truthy memberId))%bool eqn:E;
      [discriminate|].
    destruct (MinistryController.findMembership st memberId ministryId) as [row|] eqn:F;
      [|discriminate].
    destruct (mm_isActive row); cbn [negb]; [|discriminate].
    intros H. injection H as <-.
    unfold MinistryController.removeMemberFromMinistry.
    rewrite E, (Hafter row eq_refl). reflexivity.
  - intros row F A. split.
    + unfold MemberService.removeFromMinistry. rewrite F. f_equal.
      destruct st as [us ms mins evs mms mbs regs atts cons].
      unfold setMemberMinistries. cbn [users members ministries events memberMinistries
        ministryMembers eventRegistrations eventAttendances contributions] in *.
      f_equal. apply updateFirst_same. intros x Hx E.
      apply String.eqb_eq in E.
      unfold MinistryController.findMembership in F. cbn [memberMinistries] in F.
      apply List.find_some in F. destruct F as [Hin _].
      assert (x = row) by (exact (@NoDup_key_eq _ mm_id mms x row Hnd Hx Hin E)).
      subst x. destruct row. cbn in *. subst. reflexivity.
    + intros Hm Hmi. apply truthy_true in Hm, Hmi.
      unfold MinistryController.removeMemberFromMinistry. rewrite Hm, Hmi, F, A.
      reflexivity.
Qed.

(** Bob's membership of the choir is inactive in the sample. *)
Lemma removal_twice_witness :
  MemberService.removeFromMinistry sampleStore "m-2" "min-1" = (sampleStore, Return tt) /\
  MinistryController.removeMemberFromMinistry sampleStore "min-1" "m-2"
  = (sampleStore, Next (ApiError 404 "Member is not active in this ministry" None)).
Proof.
  destruct (@removal_twice sampleStore "m-2" "min-1" sampleStore_keys) as (_ & _ & H).
  destruct (H (mkMemberMinistry "mm-2" "m-2" "min-1" "member" false) eq_refl eq_refl)
    as [H1 H2].
  split; [exact H1|]. apply H2; discriminate.
Defined.
